(** * Veramo backend service: custody classification, registry probing and
      resolution fallback

    A shallow embedding of the decision layer of
    [src/server-decentralized.js] and of [src/server.js] (network
    configuration, registry probe, [POST /did/create],
    [GET /did/:did/resolve], [POST /credential/verify-skale]), with the
    properties of the specification stated and settled against it.

    Conventions of the embedding.
    - JavaScript values that flow through the handlers are [JsVal]; objects
      are association lists in property order, built with [obj_lit] so that a
      repeated key overwrites in place, as an object literal does.
    - [process.env] is a record of optional strings, read but never written.
    - The Veramo agent, the JSON-RPC provider and the clock are oracles; every
      call to the agent is recorded in the handler state, so that "no engine
      call" is a statement about that record.
    - A handler is a computation in the state-and-exception monad [M]; the
      Express response object is part of the state. [console.log] is not
      modelled. *)

From Stdlib Require Import ZArith Ascii String.
From stdpp Require Import base option list strings gmap fin_maps pretty.

Set Warnings "-register-all".

Local Open Scope string_scope.
Local Open Scope Z_scope.

(** ** JavaScript values *)

Module JS.

Inductive JsVal : Type :=
| JUndefined
| JNull
| JBool (b : bool)
| JNum (n : Z)
| JStr (s : string)
| JArr (xs : list JsVal)
| JObj (props : list (string * JsVal)).

(** ToBoolean. *)
Definition truthy (v : JsVal) : bool :=
  match v with
  | JUndefined | JNull => false
  | JBool b => b
  | JNum n => negb (n =? 0)
  | JStr s => negb (String.eqb s "")
  | JArr _ | JObj _ => true
  end.

(** [a && b] and [a || b] return one of their operands. *)
Definition js_and (a b : JsVal) : JsVal := if truthy a then b else a.
Definition js_or (a b : JsVal) : JsVal := if truthy a then a else b.

Inductive JsType := TUndefined | TObject | TBoolean | TNumber | TString.

Definition typeof (v : JsVal) : JsType :=
  match v with
  | JUndefined => TUndefined
  | JNull | JArr _ | JObj _ => TObject
  | JBool _ => TBoolean
  | JNum _ => TNumber
  | JStr _ => TString
  end.

Fixpoint assoc_get (k : string) (ps : list (string * JsVal)) : JsVal :=
  match ps with
  | [] => JUndefined
  | (k', v) :: ps' => if String.eqb k k' then v else assoc_get k ps'
  end.

Fixpoint assoc_set (k : string) (v : JsVal) (ps : list (string * JsVal))
  : list (string * JsVal) :=
  match ps with
  | [] => [(k, v)]
  | (k', v') :: ps' =>
      if String.eqb k k' then (k', v) :: ps' else (k', v') :: assoc_set k v ps'
  end.

(** An object literal [{k1: v1, ...obj, k2: v2}]: its entries (a spread
    contributes the spread object's entries) are assigned from left to
    right. *)
Definition obj_lit (entries : list (string * JsVal)) : JsVal :=
  JObj (fold_left (fun acc kv => assoc_set kv.1 kv.2 acc) entries []).

(** The own enumerable properties that [...v] contributes. *)
Definition spread (v : JsVal) : list (string * JsVal) :=
  match v with
  | JObj ps => ps
  | _ => []
  end.

(** Property read [v.k] on a value that came out of [JSON.parse] or out of
    an object literal: own data properties only. On [null] and on
    [undefined] the read throws in JavaScript; a handler that may read from
    such a value does so with [read] below. *)
Definition get (k : string) (v : JsVal) : JsVal :=
  match v with
  | JObj ps => assoc_get k ps
  | _ => JUndefined
  end.

(** An optional string is how a string-or-undefined variable is carried where
    the code only ever holds one of the two. *)
Definition of_opt (o : option string) : JsVal :=
  match o with
  | Some s => JStr s
  | None => JUndefined
  end.

(** [a || b] on string-or-undefined operands. *)
Definition or_else (a b : option string) : option string :=
  match a with
  | Some s => if String.eqb s "" then b else a
  | None => b
  end.

(** [a || "literal"]. *)
Definition or_str (a : option string) (b : string) : string :=
  match a with
  | Some s => if String.eqb s "" then b else s
  | None => b
  end.

(** Template-literal interpolation [`${x}`] of a string-or-undefined. *)
Definition interp (o : option string) : string :=
  match o with
  | Some s => s
  | None => "undefined"
  end.

(** *** Strings *)

(** [s.startsWith(p)]. *)
Fixpoint startsWith (p s : string) : bool :=
  match p with
  | EmptyString => true
  | String a p' =>
      match s with
      | EmptyString => false
      | String b s' => Ascii.eqb a b && startsWith p' s'
      end
  end.

(** [s.includes(p)]. *)
Fixpoint includes (p s : string) : bool :=
  startsWith p s ||
  match s with
  | EmptyString => false
  | String _ s' => includes p s'
  end.

(** [s.split(sep)] for a one-character separator; [cur] is the segment being
    read, reversed. The result is never empty. *)
Fixpoint split_go (sep : Ascii.ascii) (s : string) (cur : string) : list string :=
  match s with
  | EmptyString => [String.rev cur]
  | String c s' =>
      if Ascii.eqb c sep then String.rev cur :: split_go sep s' EmptyString
      else split_go sep s' (String c cur)
  end.

Definition split (sep : Ascii.ascii) (s : string) : list string :=
  split_go sep s EmptyString.

(** [s.slice(0, n)]. *)
Definition slice0 (n : nat) (s : string) : string := String.substring 0 n s.

(** The character class [[a-fA-F0-9]]. *)
Definition is_hex (c : Ascii.ascii) : bool :=
  let n := Ascii.nat_of_ascii c in
  ((48 <=? n) && (n <=? 57) || (65 <=? n) && (n <=? 70) ||
   (97 <=? n) && (n <=? 102))%nat.

Fixpoint all_hex (s : string) : bool :=
  match s with
  | EmptyString => true
  | String c s' => is_hex c && all_hex s'
  end.

(** [/^0x[a-fA-F0-9]{40}$/.test(s)]: without the [m] flag, [^] and [$] match
    only at the two ends of the input. *)
Definition test_eth_address (s : string) : bool :=
  match s with
  | String "0"%char (String "x"%char rest) =>
      (String.length rest =? 40)%nat && all_hex rest
  | _ => false
  end.

End JS.
Export JS.

(** ** Effects: exceptions over explicit state *)

Module Eff.

(** How a call ends: it returns, or it throws an [Error] with this
    [message]. *)
Inductive Outcome (A : Type) : Type :=
| Returned (a : A)
| Thrown (message : string).
Arguments Returned {A} a.
Arguments Thrown {A} message.

(** A computation over a state [S] that may throw. The state reached when
    the exception is thrown is kept: a [catch] block sees every write made
    before the [throw]. *)
Definition M (S A : Type) : Type := S → Outcome A * S.

Definition ret {S A} (a : A) : M S A := fun s => (Returned a, s).

Definition bind {S A B} (m : M S A) (k : A → M S B) : M S B :=
  fun s =>
    match m s with
    | (Returned a, s') => k a s'
    | (Thrown e, s') => (Thrown e, s')
    end.

Definition throw {S A} (message : string) : M S A :=
  fun s => (Thrown message, s).

(** [try { m } catch (error) { h error.message }]. *)
Definition try_catch {S A} (m : M S A) (h : string → M S A) : M S A :=
  fun s =>
    match m s with
    | (Returned a, s') => (Returned a, s')
    | (Thrown e, s') => h e s'
    end.

Definition gets {S A} (f : S → A) : M S A := fun s => (Returned (f s), s).
Definition modify {S} (f : S → S) : M S unit := fun s => (Returned tt, f s).

(** An [await]ed call whose outcome is already known. *)
Definition lift {S A} (o : Outcome A) : M S A := fun s => (o, s).

End Eff.
Export Eff.

Declare Scope js_scope.
Delimit Scope js_scope with js.
Notation "'do' x <- m ; k" := (bind m (fun x => k))
  (at level 10, x name, m at level 100, k at level 200) : js_scope.
Notation "m ;; k" := (bind m (fun _ => k))
  (at level 100, k at level 200, right associativity) : js_scope.
Local Open Scope js_scope.

(** ** Network configuration and registry probing *)

Module Net.

(** The variables of [process.env] that the configuration reads. *)
Record Env := {
  ETH_NETWORK : option string;
  ETH_PROVIDER_URL : option string;
  ETH_REGISTRY_ADDRESS : option string;
  ETH_REGISTRY_ADDRESS_SEPOLIA : option string
}.

(** An entry of the preset table. *)
Record Preset := {
  preset_name : string;
  preset_chainId : Z;
  preset_rpcUrl : string;
  preset_registry : string
}.

(** The constant is built when the module is loaded; the environment is the
    same one that [getNetworkConfig] reads later. *)
Definition SKALE_TITAN_CONFIG (env : Env) : Preset := {|
  preset_name := "skale-titan";
  preset_chainId := 1020352220;
  preset_rpcUrl := "https://testnet.skalenodes.com/v1/aware-fake-trim-testnet";
  preset_registry :=
    or_str (ETH_REGISTRY_ADDRESS_SEPOLIA env)
           "0x0979446EB2A4a373eaA702336aC3c390B0139Fc5"
|}.

(** The [sepolia] entry of [src/server-decentralized.js]. *)
Definition SEPOLIA_decentralized : Preset := {|
  preset_name := "sepolia";
  preset_chainId := 11155111;
  preset_rpcUrl := "https://sepolia.infura.io/v3/189303beb46d46d8a0327f90f441168d";
  preset_registry := "0xc0660d54f4655dC3B045D69ced4308f1709FD35e"
|}.

(** The [sepolia] entry of [src/server.js]. *)
Definition SEPOLIA_server : Preset := {|
  preset_name := "sepolia";
  preset_chainId := 11155111;
  preset_rpcUrl := "https://sepolia.infura.io/v3/0ab3a5daf9d64bbaaeac8ae7c09af18e";
  preset_registry := "0x93eEc6FffeE62c79d5ef5Be5b0679aE928E8C1B2"
|}.

(** What a property read [NETWORK_CONFIGS[k]] can find. [NETWORK_CONFIGS]
    is an object literal, so a name that is not one of its own keys is looked
    up on [Object.prototype] next: there it finds a built-in function (whose
    [name] property is [fname]) or, for [__proto__], [Object.prototype]
    itself. *)
Inductive Member :=
| OwnPreset (p : Preset)
| BuiltinFunction (fname : string)
| ObjectPrototype.

(** The properties of [Object.prototype] (ECMAScript, sections 20.1.3 and
    B.2.2). *)
Definition Object_prototype (k : string) : option Member :=
  if String.eqb k "constructor" then Some (BuiltinFunction "Object")
  else if String.eqb k "__proto__" then Some ObjectPrototype
  else if existsb (String.eqb k)
            ["hasOwnProperty"; "isPrototypeOf"; "propertyIsEnumerable";
             "toLocaleString"; "toString"; "valueOf";
             "__defineGetter__"; "__defineSetter__";
             "__lookupGetter__"; "__lookupSetter__"]
       then Some (BuiltinFunction k)
  else None.

(** [m.name], [m.rpcUrl], [m.registry], [m.chainId]. *)
Definition member_name (m : Member) : option string :=
  match m with
  | OwnPreset p => Some (preset_name p)
  | BuiltinFunction f => Some f
  | ObjectPrototype => None
  end.

Definition member_rpcUrl (m : Member) : option string :=
  match m with OwnPreset p => Some (preset_rpcUrl p) | _ => None end.

Definition member_registry (m : Member) : option string :=
  match m with OwnPreset p => Some (preset_registry p) | _ => None end.

Definition member_chainId (m : Member) : option Z :=
  match m with OwnPreset p => Some (preset_chainId p) | _ => None end.

(** The object that [getNetworkConfig] returns; a field is [None] when the
    property holds [undefined]. *)
Record NetworkConfig := {
  name : option string;
  rpcUrl : option string;
  registry : option string;
  chainId : option Z
}.

Definition of_preset (p : Preset) : NetworkConfig := {|
  name := Some (preset_name p);
  rpcUrl := Some (preset_rpcUrl p);
  registry := Some (preset_registry p);
  chainId := Some (preset_chainId p)
|}.

Section Table.

(** The two servers differ in their [sepolia] entry only. *)
Variable SEPOLIA : Preset.

Definition NETWORK_CONFIGS (env : Env) : gmap string Preset :=
  {[ "skale-titan" := SKALE_TITAN_CONFIG env;
     "skale" := SKALE_TITAN_CONFIG env;
     "sepolia" := SEPOLIA ]}.

(** [NETWORK_CONFIGS[k]]: own keys first, then the prototype. *)
Definition NETWORK_CONFIGS_get (env : Env) (k : string) : option Member :=
  match NETWORK_CONFIGS env !! k with
  | Some p => Some (OwnPreset p)
  | None => Object_prototype k
  end.

(** [NETWORK_CONFIGS[networkName] || SKALE_TITAN_CONFIG]: every [Member]
    is an object or a function, hence truthy. *)
Definition selected (env : Env) : Member :=
  let networkName := or_str (ETH_NETWORK env) "skale-titan" in
  default (OwnPreset (SKALE_TITAN_CONFIG env))
          (NETWORK_CONFIGS_get env networkName).

Definition getNetworkConfig (env : Env) : NetworkConfig :=
  let config := selected env in
  {| name := member_name config;
     rpcUrl := or_else (ETH_PROVIDER_URL env) (member_rpcUrl config);
     registry := or_else (ETH_REGISTRY_ADDRESS env) (member_registry config);
     chainId := member_chainId config |}.

End Table.

(** *** Registry deployment probe

    [checkRegistryDeployment] is the same function in both files. *)

(** [provider.getCode(address)] resolves to a hex string or rejects. *)
Record Provider := { getCode : option string → Outcome string }.

(** [await import("ethers")] followed by [new ethers.JsonRpcProvider(rpcUrl)];
    either step may throw. *)
Record Ethers := { JsonRpcProvider : option string → Outcome Provider }.

(** What [checkRegistryDeployment] returns: [effective] is the [registry]
    property of the result (the name [registry] is taken by the
    configuration). [isDeployed] holds the value of [code && code !== "0x"],
    which is the empty string when [code] is. *)
Record Deployment := {
  isDeployed : JsVal;
  effective : option string
}.

(** The state of a probe is the list of addresses queried so far, oldest
    first. *)
Definition Queries := list (option string).

Definition query (provider : Provider) (address : option string)
  : M Queries string :=
  fun q => (getCode provider address, (q ++ [address])%list).

Definition knownRegistries : list string :=
  ["0xdca7ef03e98e0dc2b855be647c39abe984fcf21b";
   "0xd1d374dda6c5e1c0fd927de1c6c0e9cb7d7f12d3";
   "0x0000000000000000000000000000000000000000"].

(** The [for ... of] loop over the candidates; [Some d] when the loop body
    executed [return d]. *)
Fixpoint probe_known (provider : Provider) (known : list string)
  : M Queries (option Deployment) :=
  match known with
  | [] => ret None
  | registry :: rest =>
      do found <-
        try_catch
          (do registryCode <- query provider (Some registry);
           let registryDeployed :=
             js_and (JStr registryCode)
                    (JBool (negb (String.eqb registryCode "0x"))) in
           if truthy registryDeployed
           then ret (Some {| isDeployed := JBool true;
                             effective := Some registry |})
           else ret None)
          (fun err => ret None);
      match found with
      | Some d => ret (Some d)
      | None => probe_known provider rest
      end
  end.

Definition checkRegistryDeployment (ethers : Ethers)
    (networkConfig : NetworkConfig) : M Queries Deployment :=
  try_catch
    (do provider <- lift (JsonRpcProvider ethers (rpcUrl networkConfig));
     do code <- query provider (registry networkConfig);
     let isDeployed :=
       js_and (JStr code) (JBool (negb (String.eqb code "0x"))) in
     do found <-
       (if negb (truthy isDeployed) &&
           bool_decide (name networkConfig = Some "skale-titan")
        then probe_known provider knownRegistries
        else ret None);
     match found with
     | Some d => ret d
     | None => ret {| isDeployed := isDeployed;
                      effective := registry networkConfig |}
     end)
    (fun error => ret {| isDeployed := JBool false;
                         effective := registry networkConfig |}).

End Net.
Export Net.

(** ** The Veramo agent, the clock and the Express response *)

Module Http.

(** An [IIdentifier] as the agent returns it: an object whose [did] property
    is the string [did]; [fields] are its other own properties, in order. *)
Record Identifier := {
  did : string;
  fields : list (string * JsVal)
}.

Definition identifier_obj (i : Identifier) : JsVal :=
  JObj (assoc_set "did" (JStr (did i)) (fields i)).

(** A call made to the agent, with its argument. *)
Inductive AgentCall :=
| DidManagerCreate (args : JsVal)
| DidManagerGet (args : JsVal)
| DidManagerImport (args : JsVal)
| ResolveDid (args : JsVal)
| VerifyCredential (args : JsVal).

(** The agent is an oracle: what a method answers may depend on its argument
    and on every call made before (it generates a fresh key on every
    creation, and keeps its own stores). *)
Record Agent := {
  didManagerCreate : list AgentCall → JsVal → Outcome Identifier;
  didManagerGet : list AgentCall → JsVal → Outcome Identifier;
  didManagerImport : list AgentCall → JsVal → Outcome Identifier;
  resolveDid : list AgentCall → JsVal → Outcome JsVal;
  verifyCredential : list AgentCall → JsVal → Outcome JsVal
}.

(** The instant at which a request is served: [new Date().toISOString()] and
    [Date.now()]. *)
Record Clock := {
  toISOString : string;
  now : Z
}.

(** The Express response: [res.status(n)] sets [statusCode], [res.json(v)]
    sends [v]. *)
Record Res := {
  statusCode : Z;
  sent : option JsVal
}.

Definition fresh_res : Res := {| statusCode := 200; sent := None |}.

(** The state a handler runs in: the in-memory stores ([DIDRegistry.dids],
    [VCStore.credentials], [VCStore.presentations]; [server.js] has none and
    leaves them alone), the calls made to the agent so far, and the response
    under construction. *)
Record HState := {
  dids : gmap string JsVal;
  credentials : gmap string JsVal;
  presentations : gmap string JsVal;
  calls : list AgentCall;
  res : Res
}.

Definition set_dids (f : gmap string JsVal → gmap string JsVal) (s : HState)
  : HState :=
  {| dids := f (dids s); credentials := credentials s;
     presentations := presentations s; calls := calls s; res := res s |}.

Definition set_calls (f : list AgentCall → list AgentCall) (s : HState)
  : HState :=
  {| dids := dids s; credentials := credentials s;
     presentations := presentations s; calls := f (calls s); res := res s |}.

Definition set_res (f : Res → Res) (s : HState) : HState :=
  {| dids := dids s; credentials := credentials s;
     presentations := presentations s; calls := calls s; res := f (res s) |}.

(** [await agent.method(args)]: the call is recorded, then answered. *)
Definition call {A} (c : AgentCall) (answer : list AgentCall → Outcome A)
  : M HState A :=
  fun s => (answer (calls s), set_calls (fun l => (l ++ [c])%list) s).

Definition res_status (n : Z) : M HState unit :=
  modify (set_res (fun r => {| statusCode := n; sent := sent r |})).

(** Express refuses a second body. *)
Definition res_json (v : JsVal) : M HState unit :=
  do already <- gets (fun s => sent (res s));
  match already with
  | Some _ => throw "Cannot set headers after they are sent to the client"
  | None =>
      modify (set_res (fun r => {| statusCode := statusCode r;
                                   sent := Some v |}))
  end.

(** Reading a variable that no enclosing scope declares. *)
Definition unbound {A} (x : string) : M HState A :=
  throw (x +:+ " is not defined").

(** [v.k] where [v] may be [null] or [undefined]: the read throws a
    TypeError then (the message is V8's). *)
Definition read (k : string) (v : JsVal) : M HState JsVal :=
  match v with
  | JNull =>
      throw ("Cannot read properties of null (reading '" +:+ k +:+ "')")
  | JUndefined =>
      throw ("Cannot read properties of undefined (reading '" +:+ k +:+ "')")
  | _ => ret (get k v)
  end.

(** A request as one server process sees it: the stores as they are, no
    agent call recorded for this request yet, nothing sent. *)
Definition incoming (d c p : gmap string JsVal) (past : list AgentCall)
  : HState :=
  {| dids := d; credentials := c; presentations := p; calls := past;
     res := fresh_res |}.

End Http.
Export Http.

(** ** [src/server-decentralized.js] *)

Module Decentralized.

Definition getNetworkConfig : Env → NetworkConfig :=
  Net.getNetworkConfig SEPOLIA_decentralized.

(** *** [DIDRegistry] *)

Definition registerDID (clock : Clock) (did : string) (metadata : JsVal)
  : M HState string :=
  modify (set_dids (fun m =>
    <[did := obj_lit ([("did", JStr did);
                       ("createdAt", JStr (toISOString clock))] ++
                      spread metadata)]> m)) ;;
  ret did.

Definition getDID (did : string) : M HState JsVal :=
  gets (fun s => default JUndefined (dids s !! did)).

Definition isDIDRegistered (did : string) : M HState bool :=
  gets (fun s => bool_decide (is_Some (dids s !! did))).

(** *** [POST /did/create] *)

(** [req.body], each field a string when present. *)
Record CreateBody := {
  provider : option string;
  alias : option string;
  walletAddress : option string;
  network : option string
}.

Definition supported_methods : JsVal :=
  obj_lit
    [("wallet-based", obj_lit
        [("provider", JStr "did:ethr");
         ("walletAddress", JStr "0x742d35Cc6634C0532925a3b844Bc9e7595f42bE");
         ("network", JStr "skale-titan (optional)");
         ("note", JStr "Best for thirdweb integration")]);
     ("generated-key", obj_lit
        [("provider", JStr "did:ethr");
         ("note", JStr "Generates a new key, Veramo manages it")]);
     ("self-issued", obj_lit
        [("provider", JStr "did:key");
         ("note", JStr "Self-issued DID, no blockchain needed")])].

Definition did_create (env : Env) (agent : Agent) (clock : Clock)
    (body : CreateBody) : M HState unit :=
  try_catch
    (let provider := default "did:key" (provider body) in
     let alias := alias body in
     let walletAddress := walletAddress body in
     let network := network body in
     if String.eqb provider "did:ethr" && truthy (of_opt walletAddress) then
       if negb (test_eth_address (interp walletAddress)) then
         res_status 400 ;;
         res_json (obj_lit
           [("success", JBool false);
            ("error", JStr "Invalid Ethereum wallet address format. Must be a 40-character hex string starting with '0x'")])
       else
         let networkConfig := getNetworkConfig env in
         let targetNetwork := or_else network (name networkConfig) in
         let didIdentifier :=
           "did:ethr:" +:+ interp targetNetwork +:+ ":" +:+
           interp walletAddress in
         do registered <- isDIDRegistered didIdentifier;
         if registered : bool then
           do existing <- getDID didIdentifier;
           res_json (obj_lit
             [("success", JBool true);
              ("identifier", obj_lit
                 [("did", JStr didIdentifier);
                  ("provider", JStr "did:ethr");
                  ("walletAddress", of_opt walletAddress);
                  ("network", of_opt targetNetwork)]);
              ("message", JStr "Wallet-based DID already exists");
              ("type", JStr "wallet-based");
              ("note", JStr "This DID is linked to your wallet address. You control it with your wallet private key.")])
         else
           registerDID clock didIdentifier (obj_lit
             [("provider", JStr "did:ethr");
              ("walletAddress", of_opt walletAddress);
              ("network", of_opt targetNetwork);
              ("type", JStr "wallet-based");
              ("alias", JStr (or_str alias
                 ("wallet-" +:+ slice0 10 (interp walletAddress))))]) ;;
           res_json (obj_lit
             [("success", JBool true);
              ("identifier", obj_lit
                 [("did", JStr didIdentifier);
                  ("provider", JStr "did:ethr");
                  ("walletAddress", of_opt walletAddress);
                  ("network", of_opt targetNetwork)]);
              ("message", JStr "Wallet-based DID created successfully");
              ("type", JStr "wallet-based");
              ("note", JStr "This DID is linked to your wallet. Your wallet private key controls it.");
              ("stored", JStr "blockchain (resolved from ERC1056 registry)")])
     else if String.eqb provider "did:ethr" &&
             negb (truthy (of_opt walletAddress)) then
       let networkConfig := getNetworkConfig env in
       let createOptions := obj_lit
         [("provider", JStr "did:ethr");
          ("alias", JStr (or_str alias ("did-generated-" +:+ pretty (now clock))));
          ("options", obj_lit
             [("anchor", JBool false);
              ("network", of_opt (name networkConfig))])] in
       do identifier <- call (DidManagerCreate createOptions)
                             (fun past => didManagerCreate agent past createOptions);
       registerDID clock (did identifier) (obj_lit
         (spread (identifier_obj identifier) ++
          [("type", JStr "generated-key");
           ("note", JStr "This is a generated key. Veramo stores the private key.")])) ;;
       res_json (obj_lit
         [("success", JBool true);
          ("identifier", identifier_obj identifier);
          ("type", JStr "generated-key");
          ("note", JStr "⚠️ This DID uses a generated key. For blockchain persistence, use wallet-based DIDs (pass walletAddress)");
          ("stored", JStr "in-memory (session only, not persisted)");
          ("recommendation", JStr "For production with thirdweb, use wallet-based DIDs: { provider: 'did:ethr', walletAddress: '0x...' }")])
     else if String.eqb provider "did:key" then
       let createOptions := obj_lit
         [("provider", JStr "did:key");
          ("alias", JStr (or_str alias ("key-" +:+ pretty (now clock))))] in
       do identifier <- call (DidManagerCreate createOptions)
                             (fun past => didManagerCreate agent past createOptions);
       registerDID clock (did identifier) (obj_lit
         (spread (identifier_obj identifier) ++
          [("type", JStr "self-issued");
           ("note", JStr "Self-issued DID, no blockchain required")])) ;;
       res_json (obj_lit
         [("success", JBool true);
          ("identifier", identifier_obj identifier);
          ("type", JStr "self-issued");
          ("note", JStr "Self-issued DID using did:key method. No blockchain required.");
          ("stored", JStr "in-memory (ephemeral, can be recreated)")])
     else
       (* [res.status(400)] runs, then the argument of [.json(...)] is
          evaluated: its last entry reads [error.message], and [error] is
          bound only inside the [catch] clause below. *)
       res_status 400 ;;
       do error_message <- unbound "error";
       res_json (obj_lit
         [("success", JBool false);
          ("error", JStr "Invalid provider or missing required parameters");
          ("supported_methods", supported_methods);
          ("success", JBool false);
          ("error", JStr error_message)]))
    (fun error_message =>
       res_status 500 ;;
       res_json (obj_lit
         [("success", JBool false);
          ("error", JStr error_message)])).

(** *** [GET /did/:did/resolve] *)

Definition fallbackDidDocument (did address : string) : JsVal :=
  obj_lit
    [("@context", JArr [JStr "https://www.w3.org/ns/did/v1"]);
     ("id", JStr did);
     ("verificationMethod", JArr
        [obj_lit
           [("id", JStr (did +:+ "#controller"));
            ("type", JStr "EcdsaSecp256k1RecoveryMethod2020");
            ("controller", JStr did);
            ("blockchainAccountId", JStr ("eip155:1020352220:" +:+ address))]]);
     ("authentication", JArr [JStr (did +:+ "#controller")]);
     ("assertionMethod", JArr [JStr (did +:+ "#controller")])].

Definition fallback_resolution (did address : string) : JsVal :=
  obj_lit
    [("didDocumentMetadata", obj_lit
        [("fallback", JBool true);
         ("message", JStr "Registry call failed, using fallback DID document")]);
     ("didResolutionMetadata", obj_lit
        [("contentType", JStr "application/did+ld+json")]);
     ("didDocument", fallbackDidDocument did address)].

(** The first part of the handler, up to the last [agent.resolveDid]: it
    returns [true] when it executed a [return]. *)
Definition did_resolve_checks (env : Env) (agent : Agent) (did : string)
  : M HState bool :=
  if startsWith "did:ethr:" did then
    let parts := split ":"%char did in
    if (4 <=? length parts)%nat then
      let network := default "" (parts !! 2%nat) in
      let address := default "" (parts !! 3%nat) in
      if String.eqb network "skale-titan" || String.eqb network "skale" then
        let args := obj_lit [("didUrl", JStr did)] in
        try_catch
          (do resolution <- call (ResolveDid args)
                                 (fun past => resolveDid agent past args);
           res_json (obj_lit
             [("success", JBool true);
              ("resolution", resolution);
              ("method", JStr "blockchain-resolved")]) ;;
           ret true)
          (fun standardError =>
             res_json (obj_lit
               [("success", JBool true);
                ("resolution", fallback_resolution did address);
                ("method", JStr "fallback")]) ;;
             ret true)
      else
        let networkConfig := getNetworkConfig env in
        if negb (bool_decide (Some network = name networkConfig)) &&
           negb (String.eqb network "skale") &&
           negb (String.eqb network "skale-titan")
        then
          res_status 400 ;;
          res_json (obj_lit
            [("success", JBool false);
             ("error", JStr ("Network '" +:+ network +:+
                "' is not configured. Available networks: " +:+
                interp (name networkConfig)))]) ;;
          ret true
        else ret false
    else ret false
  else ret false.

Definition did_resolve (env : Env) (agent : Agent) (did : string)
  : M HState unit :=
  try_catch
    (do returned <- did_resolve_checks env agent did;
     if returned : bool then ret tt
     else
       let args := obj_lit [("didUrl", JStr did)] in
       do resolution <- call (ResolveDid args)
                             (fun past => resolveDid agent past args);
       res_json (obj_lit
         [("success", JBool true);
          ("resolution", resolution);
          ("method", JStr "blockchain-resolved")]))
    (fun error_message =>
       let errorMessage :=
         if includes "CALL_EXCEPTION" error_message ||
            includes "missing revert data" error_message
         then "Registry contract error: " +:+ error_message +:+
              ". For decentralized DIDs, use did:ethr with a wallet address or did:key for self-issued DIDs."
         else error_message in
       res_status 500 ;;
       res_json (obj_lit
         [("success", JBool false);
          ("error", JStr errorMessage);
          ("did", JStr did)])).

End Decentralized.

(** ** [src/server.js] *)

Module Server.

Definition getNetworkConfig : Env → NetworkConfig :=
  Net.getNetworkConfig SEPOLIA_server.

(** *** [POST /did/create]

    The file holds two servers. They differ in how the target network of a
    wallet address is chosen: the first one reads [process.env.ETH_NETWORK]
    itself, the second one goes through [getNetworkConfig]. *)

Definition targetNetwork_root (env : Env) (network : option string)
  : option string :=
  Some (or_str (or_else network (ETH_NETWORK env)) "skale").

Definition targetNetwork_ethr (env : Env) (network : option string)
  : option string :=
  or_else network (name (getNetworkConfig env)).

Section Create.

Variable targetNetwork : Env → option string → option string.
(** The second server adds the network to the message of a fresh import. *)
Variable created_message : option string → string.

Definition did_create (env : Env) (agent : Agent) (clock : Clock)
    (body : Decentralized.CreateBody) : M HState unit :=
  try_catch
    (let provider := default "did:key" (Decentralized.provider body) in
     let alias := Decentralized.alias body in
     let walletAddress := Decentralized.walletAddress body in
     let network := Decentralized.network body in
     let createOptions :=
       [("provider", JStr provider);
        ("alias", JStr (or_str alias ("did-" +:+ pretty (now clock))))] in
     if String.eqb provider "did:ethr" && truthy (of_opt walletAddress) then
       if negb (test_eth_address (interp walletAddress)) then
         res_status 400 ;;
         res_json (obj_lit
           [("success", JBool false);
            ("error", JStr "Invalid Ethereum wallet address format. Must be a 40-character hex string starting with '0x'")])
       else
         let target := targetNetwork env network in
         let options :=
           [("anchor", JBool false); ("network", of_opt target)] in
         let didIdentifier :=
           "did:ethr:" +:+ interp target +:+ ":" +:+ interp walletAddress in
         let get_args := obj_lit [("did", JStr didIdentifier)] in
         do returned <-
           try_catch
             (do existing <- call (DidManagerGet get_args)
                                  (fun past => didManagerGet agent past get_args);
              res_json (obj_lit
                [("success", JBool true);
                 ("identifier", identifier_obj existing);
                 ("message", JStr "DID already exists for this wallet address")]) ;;
              ret true)
             (fun error => ret false);
         if returned : bool then ret tt
         else
           let import_args := obj_lit
             [("did", JStr didIdentifier);
              ("provider", JStr "did:ethr");
              ("controllerKeyId", of_opt walletAddress);
              ("alias", JStr (or_str alias
                 ("ethr-" +:+ interp walletAddress)))] in
           try_catch
             (do identifier <- call (DidManagerImport import_args)
                                    (fun past => didManagerImport agent past import_args);
              res_json (obj_lit
                [("success", JBool true);
                 ("identifier", identifier_obj identifier);
                 ("message", JStr (created_message target))]))
             (fun importError =>
                let create_args := obj_lit
                  (createOptions ++
                   [("options", obj_lit
                       (options ++ [("address", of_opt walletAddress)]))]) in
                do identifier <- call (DidManagerCreate create_args)
                                      (fun past => didManagerCreate agent past create_args);
                res_json (obj_lit
                  [("success", JBool true);
                   ("identifier", identifier_obj identifier)]))
     else
       let create_args := obj_lit createOptions in
       do identifier <- call (DidManagerCreate create_args)
                             (fun past => didManagerCreate agent past create_args);
       res_json (obj_lit
         [("success", JBool true);
          ("identifier", identifier_obj identifier)]))
    (fun error_message =>
       res_status 500 ;;
       res_json (obj_lit
         [("success", JBool false);
          ("error", JStr error_message)])).

End Create.

Definition did_create_root : Env → Agent → Clock → Decentralized.CreateBody
                             → M HState unit :=
  did_create targetNetwork_root (fun _ => "DID created for wallet address").

Definition did_create_ethr : Env → Agent → Clock → Decentralized.CreateBody
                             → M HState unit :=
  did_create targetNetwork_ethr
    (fun target => "DID created for wallet address on " +:+ interp target).

(** *** [GET /did/:did/resolve] (second server) *)

Definition did_resolve_checks (env : Env) (agent : Agent) (did : string)
  : M HState bool :=
  if startsWith "did:ethr:" did then
    let parts := split ":"%char did in
    if (4 <=? length parts)%nat then
      let network := default "" (parts !! 2%nat) in
      let address := default "" (parts !! 3%nat) in
      if String.eqb network "skale-titan" || String.eqb network "skale" then
        let args := obj_lit [("didUrl", JStr did)] in
        try_catch
          (do resolution <- call (ResolveDid args)
                                 (fun past => resolveDid agent past args);
           res_json (obj_lit
             [("success", JBool true);
              ("resolution", resolution)]) ;;
           ret true)
          (fun standardError =>
             res_json (obj_lit
               [("success", JBool true);
                ("resolution", Decentralized.fallback_resolution did address)]) ;;
             ret true)
      else
        let networkConfig := getNetworkConfig env in
        if negb (bool_decide (Some network = name networkConfig)) &&
           negb (String.eqb network "skale") &&
           negb (String.eqb network "skale-titan")
        then
          res_status 400 ;;
          res_json (obj_lit
            [("success", JBool false);
             ("error", JStr ("Network '" +:+ network +:+
                "' is not configured. Available networks: " +:+
                interp (name networkConfig)))]) ;;
          ret true
        else ret false
    else ret false
  else ret false.

Definition did_resolve (env : Env) (agent : Agent) (did : string)
  : M HState unit :=
  try_catch
    (do returned <- did_resolve_checks env agent did;
     if returned : bool then ret tt
     else
       let args := obj_lit [("didUrl", JStr did)] in
       do resolution <- call (ResolveDid args)
                             (fun past => resolveDid agent past args);
       res_json (obj_lit
         [("success", JBool true);
          ("resolution", resolution)]))
    (fun error_message =>
       let errorMessage :=
         if includes "CALL_EXCEPTION" error_message ||
            includes "missing revert data" error_message
         then "Registry contract error: The ERC1056 registry may not have the expected interface or data for this address. Consider using a different registry or fallback resolution. Original error: " +:+ error_message
         else if includes "could not decode result data" error_message
         then "Registry contract error: The ERC1056 registry may not be deployed or properly configured on this network. Original error: " +:+ error_message
         else error_message in
       res_status 500 ;;
       res_json (obj_lit
         [("success", JBool false);
          ("error", JStr errorMessage);
          ("did", JStr did)])).

(** *** [POST /credential/verify-skale] *)

(** What the JWT branch of the fallback leans on: decoding the payload
    ([JSON.parse(Buffer.from(part, "base64url").toString())], which may
    throw) and the comparison [payload.exp > Date.now() / 1000]. The
    payload may decode to [null]: [payload.vc], the first read, throws
    then, and the reads after it are reached only on a payload that is not
    [null]. *)
Record Jwt := {
  decode_payload : string → Outcome JsVal;
  later_than : JsVal → Z → bool
}.

Definition credential_verify_skale (agent : Agent) (jwt : Jwt)
    (clock : Clock) (credential : JsVal) : M HState unit :=
  try_catch
    (if negb (truthy credential) then
       res_status 400 ;;
       res_json (obj_lit
         [("success", JBool false);
          ("error", JStr "Missing required field: credential")])
     else
       let args := obj_lit [("credential", credential)] in
       try_catch
         (do result <- call (VerifyCredential args)
                            (fun past => verifyCredential agent past args);
          res_json (obj_lit
            [("success", JBool true);
             ("verification", result);
             ("method", JStr "standard")]))
         (fun registryError =>
            try_catch
              (do returned <-
                 match credential with
                 | JStr token =>
                     if includes "." token then
                       let parts := split "."%char token in
                       if (length parts =? 3)%nat then
                         do payload <- lift (decode_payload jwt
                                               (default "" (parts !! 1%nat)));
                         do vc <- read "vc" payload;
                         let isValid :=
                           js_and vc
                             (js_and (get "iss" payload)
                                (js_and (get "sub" payload)
                                   (js_and (get "iat" payload)
                                      (js_and (get "exp" payload)
                                         (JBool (later_than jwt
                                                   (get "exp" payload)
                                                   (now clock))))))) in
                         res_json (obj_lit
                           [("success", JBool true);
                            ("verification", obj_lit
                               [("verified", isValid);
                                ("payload", payload);
                                ("error",
                                 if truthy isValid then JNull
                                 else JStr "Basic validation failed")]);
                            ("method", JStr "fallback_jwt");
                            ("note", JStr "Verified using fallback method due to SKALE registry issues")]) ;;
                         ret true
                       else ret false
                     else ret false
                 | _ => ret false
                 end;
               if returned : bool then ret tt
               else if match typeof credential with TObject => true | _ => false end
                       && truthy (get "credentialSubject" credential)
               then
                 res_json (obj_lit
                   [("success", JBool true);
                    ("verification", obj_lit
                       [("verified", JBool true);
                        ("payload", credential);
                        ("error", JNull)]);
                    ("method", JStr "fallback_object");
                    ("note", JStr "Verified using fallback method due to SKALE registry issues")])
               else throw "Unable to verify credential with fallback methods")
              (fun fallbackError =>
                 res_status 500 ;;
                 res_json (obj_lit
                   [("success", JBool false);
                    ("error", JStr "Both standard and fallback verification methods failed");
                    ("details", obj_lit
                       [("registryError", JStr registryError);
                        ("fallbackError", JStr fallbackError)])]))))
    (fun error_message =>
       res_status 500 ;;
       res_json (obj_lit
         [("success", JBool false);
          ("error", JStr error_message)])).

End Server.


(** ** Endpoints without a store of their own *)

Module Endpoints.

(** *** [GET /did/:did] of [src/server-decentralized.js] *)

Definition did_get (did : string) : M HState unit :=
  try_catch
    (do identifier <- Decentralized.getDID did;
     if negb (truthy identifier) then
       res_status 404 ;;
       res_json (obj_lit
         [("success", JBool false);
          ("error", JStr "DID not found in this session");
          ("note", JStr "Use did:ethr with a wallet address for blockchain-persisted DIDs")])
     else
       res_json (obj_lit
         [("success", JBool true);
          ("identifier", identifier)]))
    (fun error_message =>
       res_status 500 ;;
       res_json (obj_lit
         [("success", JBool false);
          ("error", JStr error_message)])).

(** *** [POST /credential/verify] of [src/server-decentralized.js] *)

Definition credential_verify_decentralized (agent : Agent)
    (credential : JsVal) : M HState unit :=
  try_catch
    (if negb (truthy credential) then
       res_status 400 ;;
       res_json (obj_lit
         [("success", JBool false);
          ("error", JStr "Missing required field: credential")])
     else
       let args := obj_lit [("credential", credential)] in
       do result <- call (VerifyCredential args)
                         (fun past => verifyCredential agent past args);
       res_json (obj_lit
         [("success", JBool true);
          ("verification", result);
          ("note", JStr "Verification is stateless - no database lookup required")]))
    (fun error_message =>
       let errorMessage :=
         if truthy (JStr error_message) &&
            includes "EVM revert instruction" error_message
         then "SKALE network registry contract issue - verification requires blockchain interaction"
         else error_message in
       res_status 500 ;;
       res_json (obj_lit
         [("success", JBool false);
          ("error", JStr errorMessage);
          ("originalError", JStr error_message)])).

(** *** [POST /credential/verify] of [src/server.js] (second server) *)

Definition credential_verify_server (agent : Agent) (credential : JsVal)
  : M HState unit :=
  try_catch
    (if negb (truthy credential) then
       res_status 400 ;;
       res_json (obj_lit
         [("success", JBool false);
          ("error", JStr "Missing required field: credential")])
     else
       let args := obj_lit [("credential", credential)] in
       do result <- call (VerifyCredential args)
                         (fun past => verifyCredential agent past args);
       res_json (obj_lit
         [("success", JBool true);
          ("verification", result)]))
    (fun error_message =>
       let classified : string * JsVal :=
         if truthy (JStr error_message) &&
            includes "EVM revert instruction" error_message
         then ("SKALE network registry contract issue - DID resolution failed due to network incompatibility. The registry contract exists but is reverting calls.",
               JStr "SKALE_REGISTRY_REVERT")
         else if truthy (JStr error_message) &&
                 includes "missing response for request" error_message
         then ("Network communication error with SKALE Titan. The registry contract may not be fully compatible with standard DID operations.",
               JStr "NETWORK_COMMUNICATION_ERROR")
         else if truthy (JStr error_message) &&
                 includes "BAD_DATA" error_message
         then ("Data format error when communicating with SKALE network. This may indicate registry contract incompatibility.",
               JStr "DATA_FORMAT_ERROR")
         else (error_message, JNull) in
       res_status 500 ;;
       res_json (obj_lit
         [("success", JBool false);
          ("error", JStr classified.1);
          ("errorCode", classified.2);
          ("originalError", JStr error_message)])).

(** *** [GET /did/:did/fallback] of [src/server.js] *)

Definition did_fallback (did : string) : M HState unit :=
  try_catch
    (if negb (startsWith "did:ethr:" did) then
       res_status 400 ;;
       res_json (obj_lit
         [("success", JBool false);
          ("error", JStr "Only ethr DIDs are supported for fallback resolution")])
     else
       let parts := split ":"%char did in
       if (length parts <? 4)%nat then
         res_status 400 ;;
         res_json (obj_lit
           [("success", JBool false);
            ("error", JStr "Invalid DID format")])
       else
         let network := default "" (parts !! 2%nat) in
         let address := default "" (parts !! 3%nat) in
         res_json (obj_lit
           [("success", JBool true);
            ("resolution", obj_lit
               [("didDocumentMetadata", obj_lit
                   [("fallback", JBool true);
                    ("message", JStr "Fallback DID document created without registry lookup")]);
                ("didResolutionMetadata", obj_lit
                   [("contentType", JStr "application/did+ld+json")]);
                ("didDocument",
                 Decentralized.fallbackDidDocument did address)])]))
    (fun error_message =>
       res_status 500 ;;
       res_json (obj_lit
         [("success", JBool false);
          ("error", JStr error_message)])).

(** *** [GET /network/status]

    The probe runs on a query log of its own, which the handler does not
    keep. *)

Definition of_optZ (o : option Z) : JsVal :=
  match o with
  | Some n => JNum n
  | None => JUndefined
  end.

(** The object that [checkRegistryDeployment] returns, as a value. *)
Definition deployment_obj (d : Deployment) : JsVal :=
  obj_lit [("isDeployed", isDeployed d); ("registry", of_opt (effective d))].

Section Status.

Variable getNetworkConfig : Env → NetworkConfig.
(** What the decentralized server adds to the answer. *)
Variable more : list (string * JsVal).

Definition network_status (ethers : Ethers) (env : Env) : M HState unit :=
  try_catch
    (let networkConfig := getNetworkConfig env in
     do isRegistryDeployed <-
       lift (checkRegistryDeployment ethers networkConfig []).1;
     res_json (obj_lit
       ([("success", JBool true);
         ("network", obj_lit
            [("name", of_opt (name networkConfig));
             ("chainId", of_optZ (chainId networkConfig));
             ("rpcUrl", of_opt (rpcUrl networkConfig));
             ("registry", of_opt (registry networkConfig));
             ("registryDeployed", deployment_obj isRegistryDeployed)])] ++
        more)))
    (fun error_message =>
       res_status 500 ;;
       res_json (obj_lit
         [("success", JBool false);
          ("error", JStr error_message)])).

End Status.

Definition network_status_decentralized : Ethers → Env → M HState unit :=
  network_status Decentralized.getNetworkConfig
    [("architecture", JStr "Blockchain-first, decentralized")].

Definition network_status_server : Ethers → Env → M HState unit :=
  network_status Server.getNetworkConfig [].

End Endpoints.

(** ** The in-memory stores of [src/server-decentralized.js], in order

    [DIDRegistry.dids], [VCStore.credentials] and [VCStore.presentations]
    are [Map]s: they enumerate their entries in the order of first
    insertion, and [set] on a key that is there replaces the value where it
    stands. Such a [Map] is an association list updated with [assoc_set].
    The handlers that enumerate a store, or that call the agent's issuing
    methods, run on the state below. *)

Module Session.

(** [map.has(k)], [map.get(k)], [Array.from(map.values())]. *)
Definition Map_has (k : string) (m : list (string * JsVal)) : bool :=
  existsb (String.eqb k) m.*1.

Definition Map_get (k : string) (m : list (string * JsVal)) : JsVal :=
  assoc_get k m.

Definition Map_values (m : list (string * JsVal)) : list JsVal := m.*2.

(** A call [agent.method(args)]. *)
Record Call := { method : string; args : JsVal }.

(** The agent, method by name: what it answers may depend on the calls made
    before. *)
Definition Engine : Type := string → list Call → JsVal → Outcome JsVal.

Record State := {
  dids : list (string * JsVal);
  credentials : list (string * JsVal);
  presentations : list (string * JsVal);
  calls : list Call;
  res : Res
}.

Definition set_dids (f : list (string * JsVal) → list (string * JsVal))
    (s : State) : State :=
  {| dids := f (dids s); credentials := credentials s;
     presentations := presentations s; calls := calls s; res := res s |}.

Definition set_credentials
    (f : list (string * JsVal) → list (string * JsVal)) (s : State) : State :=
  {| dids := dids s; credentials := f (credentials s);
     presentations := presentations s; calls := calls s; res := res s |}.

Definition set_presentations
    (f : list (string * JsVal) → list (string * JsVal)) (s : State) : State :=
  {| dids := dids s; credentials := credentials s;
     presentations := f (presentations s); calls := calls s; res := res s |}.

Definition set_calls (f : list Call → list Call) (s : State) : State :=
  {| dids := dids s; credentials := credentials s;
     presentations := presentations s; calls := f (calls s); res := res s |}.

Definition set_res (f : Res → Res) (s : State) : State :=
  {| dids := dids s; credentials := credentials s;
     presentations := presentations s; calls := calls s; res := f (res s) |}.

Definition invoke (agent : Engine) (method : string) (args : JsVal)
  : M State JsVal :=
  fun s => (agent method (calls s) args,
            set_calls (fun l => (l ++ [{| method := method; args := args |}])%list) s).

Definition res_status (n : Z) : M State unit :=
  modify (set_res (fun r => {| statusCode := n; sent := sent r |})).

Definition res_json (v : JsVal) : M State unit :=
  do already <- gets (fun s => sent (res s));
  match already with
  | Some _ => throw "Cannot set headers after they are sent to the client"
  | None =>
      modify (set_res (fun r => {| statusCode := statusCode r;
                                   sent := Some v |}))
  end.

Definition incoming (d c p : list (string * JsVal)) (past : list Call)
  : State :=
  {| dids := d; credentials := c; presentations := p; calls := past;
     res := fresh_res |}.

(** *** [DIDRegistry] *)

Definition registerDID (clock : Clock) (did : string) (metadata : JsVal)
  : M State string :=
  modify (set_dids
    (assoc_set did
       (obj_lit ([("did", JStr did);
                  ("createdAt", JStr (toISOString clock))] ++
                 spread metadata)))) ;;
  ret did.

Definition getDID (did : string) : M State JsVal :=
  gets (fun s => Map_get did (dids s)).

Definition getAllDIDs : M State (list JsVal) :=
  gets (fun s => Map_values (dids s)).

Definition isDIDRegistered (did : string) : M State bool :=
  gets (fun s => Map_has did (dids s)).

(** *** [VCStore] *)

Definition saveCredential (clock : Clock) (id : string) (credential : JsVal)
  : M State string :=
  modify (set_credentials
    (assoc_set id
       (obj_lit [("credential", credential);
                 ("timestamp", JStr (toISOString clock))]))) ;;
  ret id.

Definition getCredential (id : string) : M State JsVal :=
  gets (fun s => Map_get id (credentials s)).

Definition getAllCredentials : M State (list JsVal) :=
  gets (fun s => get "credential" <$> Map_values (credentials s)).

Definition savePresentation (clock : Clock) (id : string)
    (presentation : JsVal) : M State string :=
  modify (set_presentations
    (assoc_set id
       (obj_lit [("presentation", presentation);
                 ("timestamp", JStr (toISOString clock))]))) ;;
  ret id.

Definition getPresentation (id : string) : M State JsVal :=
  gets (fun s => Map_get id (presentations s)).

Definition getAllPresentations : M State (list JsVal) :=
  gets (fun s => get "presentation" <$> Map_values (presentations s)).

(** *** [GET /did/list] *)

Definition did_list : M State unit :=
  try_catch
    (do identifiers <- getAllDIDs;
     res_json (obj_lit
       [("success", JBool true);
        ("count", JNum (Z.of_nat (length identifiers)));
        ("identifiers", JArr identifiers);
        ("note", JStr "Only DIDs created in this session are listed (no database persistence)")]))
    (fun error_message =>
       res_status 500 ;;
       res_json (obj_lit
         [("success", JBool false);
          ("error", JStr error_message)])).

(** *** [POST /credential/create] *)

(** [req.body]: the two DIDs and the expiration date are strings when
    present, [credentialSubject] is an object when present (given by its
    properties), [type] is any value. *)
Record CredentialBody := {
  issuerDid : option string;
  subjectDid : option string;
  credentialSubject : option (list (string * JsVal));
  credential_type : option JsVal;
  expirationDate : option string
}.

(** The argument of [agent.createVerifiableCredential]. *)
Definition credential_args (body : CredentialBody) : JsVal :=
  let type := default (JArr [JStr "VerifiableCredential"])
                      (credential_type body) in
  obj_lit
    [("credential", obj_lit
        ([("issuer", obj_lit [("id", of_opt (issuerDid body))]);
          ("credentialSubject", obj_lit
             ([("id", of_opt (subjectDid body))] ++
              default [] (credentialSubject body)));
          ("type", type)] ++
         spread (js_and (of_opt (expirationDate body))
                        (obj_lit [("expirationDate",
                                   of_opt (expirationDate body))]))));
     ("proofFormat", JStr "jwt")].

Definition credential_create (agent : Engine) (clock : Clock)
    (body : CredentialBody) : M State unit :=
  try_catch
    (if negb (truthy (of_opt (issuerDid body))) ||
        negb (truthy (of_opt (subjectDid body))) ||
        negb (bool_decide (is_Some (credentialSubject body)))
     then
       res_status 400 ;;
       res_json (obj_lit
         [("success", JBool false);
          ("error", JStr "Missing required fields: issuerDid, subjectDid, credentialSubject")])
     else
       do credential <- invoke agent "createVerifiableCredential"
                               (credential_args body);
       let credentialId := "cred-" +:+ pretty (now clock) in
       saveCredential clock credentialId credential ;;
       res_json (obj_lit
         [("success", JBool true);
          ("credential", credential);
          ("credentialId", JStr credentialId);
          ("storage", JStr "in-memory (temporary, pass to client for persistence)");
          ("note", JStr "Credential is a JWT - store and manage on the client side for decentralization")]))
    (fun error_message =>
       res_status 500 ;;
       res_json (obj_lit
         [("success", JBool false);
          ("error", JStr error_message)])).

(** *** [GET /credential/list] *)

Definition credential_list : M State unit :=
  try_catch
    (do credentials <- getAllCredentials;
     res_json (obj_lit
       [("success", JBool true);
        ("count", JNum (Z.of_nat (length credentials)));
        ("credentials", JArr credentials);
        ("note", JStr "Only credentials created in this session. For true decentralization, store credentials on the client.")]))
    (fun error_message =>
       res_status 500 ;;
       res_json (obj_lit
         [("success", JBool false);
          ("error", JStr error_message)])).

(** *** [POST /presentation/create] *)

(** [req.body]: [holderDid], [domain] and [challenge] are strings when
    present; [verifiableCredentials] and [type] are any value. *)
Record PresentationBody := {
  holderDid : option string;
  verifiableCredentials : JsVal;
  presentation_type : option JsVal;
  domain : option string;
  challenge : option string
}.

Definition isArray (v : JsVal) : bool :=
  match v with
  | JArr _ => true
  | _ => false
  end.

(** [...(x && { k: x })] for a string-or-undefined [x]. *)
Definition optional (k : string) (x : option string)
  : list (string * JsVal) :=
  spread (js_and (of_opt x) (obj_lit [(k, of_opt x)])).

Definition presentation_args (body : PresentationBody) : JsVal :=
  let type := default (JArr [JStr "VerifiablePresentation"])
                      (presentation_type body) in
  obj_lit
    [("presentation", obj_lit
        ([("holder", of_opt (holderDid body));
          ("verifiableCredential", verifiableCredentials body);
          ("type", type)] ++
         optional "domain" (domain body) ++
         optional "challenge" (challenge body)));
     ("proofFormat", JStr "jwt")].

Definition presentation_create (agent : Engine) (clock : Clock)
    (body : PresentationBody) : M State unit :=
  try_catch
    (if negb (truthy (of_opt (holderDid body))) ||
        negb (truthy (verifiableCredentials body)) ||
        negb (isArray (verifiableCredentials body))
     then
       res_status 400 ;;
       res_json (obj_lit
         [("success", JBool false);
          ("error", JStr "Missing required fields: holderDid, verifiableCredentials (array)")])
     else
       do presentation <- invoke agent "createVerifiablePresentation"
                                 (presentation_args body);
       let presentationId := "pres-" +:+ pretty (now clock) in
       savePresentation clock presentationId presentation ;;
       res_json (obj_lit
         [("success", JBool true);
          ("presentation", presentation);
          ("presentationId", JStr presentationId);
          ("storage", JStr "in-memory (temporary, pass to client for persistence)")]))
    (fun error_message =>
       res_status 500 ;;
       res_json (obj_lit
         [("success", JBool false);
          ("error", JStr error_message)])).

(** *** [POST /presentation/verify] *)

Definition presentation_verify_args (presentation : JsVal)
    (domain challenge : option string) : JsVal :=
  obj_lit ([("presentation", presentation)] ++
           optional "domain" domain ++ optional "challenge" challenge).

Definition presentation_verify (agent : Engine) (presentation : JsVal)
    (domain challenge : option string) : M State unit :=
  try_catch
    (if negb (truthy presentation) then
       res_status 400 ;;
       res_json (obj_lit
         [("success", JBool false);
          ("error", JStr "Missing required field: presentation")])
     else
       do result <- invoke agent "verifyPresentation"
                           (presentation_verify_args presentation
                                                     domain challenge);
       res_json (obj_lit
         [("success", JBool true);
          ("verification", result);
          ("note", JStr "Verification is stateless - no database lookup required")]))
    (fun error_message =>
       res_status 500 ;;
       res_json (obj_lit
         [("success", JBool false);
          ("error", JStr error_message)])).

(** *** [GET /presentation/list] *)

Definition presentation_list : M State unit :=
  try_catch
    (do presentations <- getAllPresentations;
     res_json (obj_lit
       [("success", JBool true);
        ("count", JNum (Z.of_nat (length presentations)));
        ("presentations", JArr presentations);
        ("note", JStr "Only presentations created in this session.")]))
    (fun error_message =>
       res_status 500 ;;
       res_json (obj_lit
         [("success", JBool false);
          ("error", JStr error_message)])).

End Session.

(** * Vocabulary of the statements *)

Local Open Scope list_scope.

(** ** Registry probing *)

(** [code && code !== "0x"], as a truth value. *)
Definition deployed_code (code : string) : bool :=
  truthy (js_and (JStr code) (JBool (negb (String.eqb code "0x")))).

(** The answer of the chain for [address] shows deployed code; a query that
    throws shows none. *)
Definition shows_code (provider : Provider) (address : string) : bool :=
  match getCode provider (Some address) with
  | Returned code => deployed_code code
  | Thrown _ => false
  end.



(** A provider that is always there. *)
Definition ethers_of (provider : Provider) : Ethers :=
  {| JsonRpcProvider := fun _ => Returned provider |}.

(** ** Identity creation *)

(** A handler that leaves the three stores as they were. *)
Definition same_stores (s s' : HState) : Prop :=
  dids s' = dids s ∧ credentials s' = credentials s ∧
  presentations s' = presentations s.

(** The answer to a malformed address. *)
Definition invalid_address_body : JsVal :=
  obj_lit
    [("success", JBool false);
     ("error", JStr "Invalid Ethereum wallet address format. Must be a 40-character hex string starting with '0x'")].

Definition rejects_with_400 (st : HState) (r : Outcome unit * HState) : Prop :=
  ∃ st', r = (Returned tt, st') ∧
         statusCode (res st') = 400 ∧
         sent (res st') = Some invalid_address_body ∧
         same_stores st st' ∧ calls st' = calls st.

(** The DID of a wallet-linked request and the identifier that both answers
    to it carry. *)
Definition wallet_did (env : Env) (body : Decentralized.CreateBody) : string :=
  "did:ethr:" +:+
  interp (or_else (Decentralized.network body)
                  (name (Decentralized.getNetworkConfig env))) +:+
  ":" +:+ interp (Decentralized.walletAddress body).

Definition wallet_identifier (env : Env) (body : Decentralized.CreateBody)
  : JsVal :=
  obj_lit
    [("did", JStr (wallet_did env body));
     ("provider", JStr "did:ethr");
     ("walletAddress", of_opt (Decentralized.walletAddress body));
     ("network", of_opt (or_else (Decentralized.network body)
                                 (name (Decentralized.getNetworkConfig env))))].

(** The record that a fresh wallet-linked creation stores. *)
Definition wallet_record (env : Env) (clock : Clock)
    (body : Decentralized.CreateBody) : JsVal :=
  obj_lit
    ([("did", JStr (wallet_did env body));
      ("createdAt", JStr (toISOString clock))] ++
     spread (obj_lit
       [("provider", JStr "did:ethr");
        ("walletAddress", of_opt (Decentralized.walletAddress body));
        ("network", of_opt (or_else (Decentralized.network body)
                                    (name (Decentralized.getNetworkConfig env))));
        ("type", JStr "wallet-based");
        ("alias", JStr (or_str (Decentralized.alias body)
           ("wallet-" +:+
            slice0 10 (interp (Decentralized.walletAddress body)))))])).

(** The DID that the two servers of [src/server.js] look up. *)
Definition server_wallet_did (target : option string)
    (body : Decentralized.CreateBody) : string :=
  "did:ethr:" +:+ interp target +:+ ":" +:+
  interp (Decentralized.walletAddress body).

(** The three variants of the specification, as the handler tells them
    apart: by the provider (which defaults to [did:key]) and by the
    truthiness of [walletAddress]. *)
Inductive Variant := WalletLinked | ServiceManaged | SelfIssued.

Definition classify (body : Decentralized.CreateBody) : option Variant :=
  let provider := default "did:key" (Decentralized.provider body) in
  if String.eqb provider "did:ethr" &&
     truthy (of_opt (Decentralized.walletAddress body))
  then Some WalletLinked
  else if String.eqb provider "did:ethr" &&
          negb (truthy (of_opt (Decentralized.walletAddress body)))
  then Some ServiceManaged
  else if String.eqb provider "did:key" then Some SelfIssued
  else None.

(** The [type] that the stored record of a variant carries. *)
Definition type_tag (v : Variant) : string :=
  match v with
  | WalletLinked => "wallet-based"
  | ServiceManaged => "generated-key"
  | SelfIssued => "self-issued"
  end.

(** The records have neither a [custodyModel] nor a [signingCapable]
    property. The custody model of a record is the variant of the request
    that stored it; what the records show of it is their [type]. The server
    can sign for an identity when its agent holds the key: the handler marks
    such a record as [generated-key] or [self-issued], and stores it for an
    identifier that the agent created in this request. *)
Definition signing_capable (r : JsVal) : Prop :=
  get "type" r = JStr "generated-key" ∨ get "type" r = JStr "self-issued".

Definition agent_created_key (agent : Agent) (st st' : HState)
    (did : string) : Prop :=
  ∃ args identifier,
    didManagerCreate agent (calls st) args = Returned identifier ∧
    did = Http.did identifier ∧
    calls st' = calls st ++ [DidManagerCreate args].

(** ** Resolution *)

Definition resolve_args (did : string) : JsVal :=
  obj_lit [("didUrl", JStr did)].

(** What the claim asks of a synthesized answer for [did]. *)
Definition fallback_answer (did : string) (b : JsVal) : Prop :=
  get "success" b = JBool true ∧
  get "fallback" (get "didDocumentMetadata" (get "resolution" b))
  = JBool true ∧
  get "id" (get "didDocument" (get "resolution" b)) = JStr did ∧
  (∃ method,
     get "verificationMethod" (get "didDocument" (get "resolution" b))
     = JArr [method] ∧
     get "id" method = JStr (did +:+ "#controller") ∧
     get "controller" method = JStr did) ∧
  get "authentication" (get "didDocument" (get "resolution" b))
  = JArr [JStr (did +:+ "#controller")] ∧
  get "assertionMethod" (get "didDocument" (get "resolution" b))
  = JArr [JStr (did +:+ "#controller")].

Definition answers_with_fallback (did : string) (st : HState)
    (r : Outcome unit * HState) : Prop :=
  ∃ st' b, r = (Returned tt, st') ∧
           statusCode (res st') = statusCode (res st) ∧
           sent (res st') = Some b ∧
           fallback_answer did b ∧
           same_stores st st' ∧
           calls st' = calls st ++ [ResolveDid (resolve_args did)].

(** The test that guards the fallback branch of the handler. *)
Definition fallback_shape (did : string) : bool :=
  startsWith "did:ethr:" did &&
  (4 <=? length (split ":"%char did))%nat &&
  (String.eqb (default "" (split ":"%char did !! 2%nat)) "skale-titan" ||
   String.eqb (default "" (split ":"%char did !! 2%nat)) "skale").

(** The test that refuses a network before the agent is asked. *)
Definition network_refused (cfg : NetworkConfig) (did : string) : bool :=
  startsWith "did:ethr:" did &&
  (4 <=? length (split ":"%char did))%nat &&
  (negb (bool_decide (Some (default "" (split ":"%char did !! 2%nat))
                      = name cfg)) &&
   negb (String.eqb (default "" (split ":"%char did !! 2%nat)) "skale") &&
   negb (String.eqb (default "" (split ":"%char did !! 2%nat)) "skale-titan")).

(** The messages that each server rewrites into a registry hint. *)
Definition registry_error_decentralized (e : string) : bool :=
  includes "CALL_EXCEPTION" e || includes "missing revert data" e.

Definition registry_error_server (e : string) : bool :=
  includes "CALL_EXCEPTION" e || includes "missing revert data" e ||
  includes "could not decode result data" e.

(** ** Credential verification *)

Definition verify_args (credential : JsVal) : JsVal :=
  obj_lit [("credential", credential)].

(** * Sample inputs *)

Definition env_unset : Env :=
  {| ETH_NETWORK := None; ETH_PROVIDER_URL := None;
     ETH_REGISTRY_ADDRESS := None; ETH_REGISTRY_ADDRESS_SEPOLIA := None |}.

Definition env_sepolia : Env :=
  {| ETH_NETWORK := Some "sepolia"; ETH_PROVIDER_URL := None;
     ETH_REGISTRY_ADDRESS := None; ETH_REGISTRY_ADDRESS_SEPOLIA := None |}.

Definition env_constructor : Env :=
  {| ETH_NETWORK := Some "constructor"; ETH_PROVIDER_URL := None;
     ETH_REGISTRY_ADDRESS := None; ETH_REGISTRY_ADDRESS_SEPOLIA := None |}.

(** A chain on which only the second candidate holds code. *)
Definition provider_second_only : Provider :=
  {| getCode := fun address =>
       if bool_decide (address = Some "0xd1d374dda6c5e1c0fd927de1c6c0e9cb7d7f12d3")
       then Returned "0x6080604052"
       else Returned "0x" |}.



(** An agent that creates a [did:key] identifier, knows no other identifier,
    and cannot reach the chain. *)
Definition agent_key : Agent :=
  {| didManagerCreate := fun _ _ =>
       Returned {| did := "did:key:z6MkhaXgBZDvotDkL5257faiztiGiC2QtKLGpbnnEGta2doK";
                   fields := [("provider", JStr "did:key");
                              ("controllerKeyId", JStr "a1b2c3")] |};
     didManagerGet := fun _ _ => Thrown "Identifier not found";
     didManagerImport := fun _ _ => Thrown "Key not found";
     resolveDid := fun _ _ => Thrown "network timeout";
     verifyCredential := fun _ _ => Thrown "missing response for request" |}.

(** An agent that already holds the identifier of every wallet. *)
Definition agent_known : Agent :=
  {| didManagerCreate := fun _ _ => Thrown "not reached";
     didManagerGet := fun _ args =>
       match get "did" args with
       | JStr d => Returned {| did := d;
                               fields := [("provider", JStr "did:ethr")] |}
       | _ => Thrown "Identifier not found"
       end;
     didManagerImport := fun _ _ => Thrown "not reached";
     resolveDid := fun _ _ => Thrown "network timeout";
     verifyCredential := fun _ _ => Thrown "missing response for request" |}.

Definition clock_2025 : Clock :=
  {| toISOString := "2025-01-01T00:00:00.000Z"; now := 1735689600000 |}.

Definition clock_later : Clock :=
  {| toISOString := "2025-01-01T00:05:00.000Z"; now := 1735689900000 |}.

Definition body_of (provider walletAddress : option string)
  : Decentralized.CreateBody :=
  {| Decentralized.provider := provider; Decentralized.alias := None;
     Decentralized.walletAddress := walletAddress;
     Decentralized.network := None |}.

Definition body_wallet : Decentralized.CreateBody :=
  body_of (Some "did:ethr") (Some "0x0979446EB2A4a373eaA702336aC3c390B0139Fc5").

(** The first request that a server process serves. *)
Definition first_request : HState := incoming ∅ ∅ ∅ [].

(** A request that arrives after a first wallet-linked creation served at
    [clock_2025]. *)
Definition after_first_creation : HState :=
  incoming {[ wallet_did env_unset body_wallet :=
                wallet_record env_unset clock_2025 body_wallet ]} ∅ ∅ [].

(** The record that a [did:key] creation served at [clock_2025] stores for
    the identifier of [agent_key]. *)
Definition self_issued_record : JsVal :=
  obj_lit
    ([("did", JStr "did:key:z6MkhaXgBZDvotDkL5257faiztiGiC2QtKLGpbnnEGta2doK");
      ("createdAt", JStr "2025-01-01T00:00:00.000Z")] ++
     spread (obj_lit
       ([("provider", JStr "did:key");
         ("controllerKeyId", JStr "a1b2c3");
         ("did", JStr "did:key:z6MkhaXgBZDvotDkL5257faiztiGiC2QtKLGpbnnEGta2doK")] ++
        [("type", JStr "self-issued");
         ("note", JStr "Self-issued DID, no blockchain required")]))).

Definition sample_credential : JsVal :=
  obj_lit
    [("type", JArr [JStr "VerifiableCredential"]);
     ("issuer", JStr "did:key:z6MkhaXgBZDvotDkL5257faiztiGiC2QtKLGpbnnEGta2doK");
     ("credentialSubject", obj_lit [("name", JStr "Alice")])].

Definition jwt_none : Server.Jwt :=
  {| Server.decode_payload := fun _ => Thrown "Unexpected end of JSON input";
     Server.later_than := fun _ _ => false |}.

(** * Vocabulary of the further properties *)

(** [s.includes(c)] for one character. *)
Fixpoint has_char (c : Ascii.ascii) (s : string) : bool :=
  match s with
  | EmptyString => false
  | String a s' => Ascii.eqb a c || has_char c s'
  end.

(** [blockchainAccountId] of the only verification method of the document
    that an answer carries. *)
Definition account_of_answer (b : JsVal) : JsVal :=
  match get "verificationMethod" (get "didDocument" (get "resolution" b)) with
  | JArr [method] => get "blockchainAccountId" method
  | _ => JUndefined
  end.

(** A handler answered once: it returned, sent [b] with status [code], left
    the stores alone and made the agent calls [cs], in this order. *)
Definition answers (st : HState) (r : Outcome unit * HState)
    (cs : list AgentCall) (code : Z) (b : JsVal) : Prop :=
  ∃ st', r = (Returned tt, st') ∧
         statusCode (res st') = code ∧
         sent (res st') = Some b ∧
         same_stores st st' ∧
         calls st' = calls st ++ cs.

(** The environment with one variable changed. *)
Definition with_registry_sepolia (v : option string) (env : Env) : Env :=
  {| ETH_NETWORK := ETH_NETWORK env;
     ETH_PROVIDER_URL := ETH_PROVIDER_URL env;
     ETH_REGISTRY_ADDRESS := ETH_REGISTRY_ADDRESS env;
     ETH_REGISTRY_ADDRESS_SEPOLIA := v |}.

(** A chain on which every address holds code. *)
Definition provider_all_deployed : Provider :=
  {| getCode := fun _ => Returned "0x6080604052" |}.

Definition env_skale_alias : Env :=
  {| ETH_NETWORK := Some "skale"; ETH_PROVIDER_URL := None;
     ETH_REGISTRY_ADDRESS := None;
     ETH_REGISTRY_ADDRESS_SEPOLIA :=
       Some "0x1111111111111111111111111111111111111111" |}.

(** The network that a wallet-linked request targets, as it is written into
    the DID. *)
Definition target_of (env : Env) (body : Decentralized.CreateBody) : string :=
  interp (or_else (Decentralized.network body)
                  (name (Decentralized.getNetworkConfig env))).

Definition body_on (network walletAddress : string)
  : Decentralized.CreateBody :=
  {| Decentralized.provider := Some "did:ethr"; Decentralized.alias := None;
     Decentralized.walletAddress := Some walletAddress;
     Decentralized.network := Some network |}.

(** The answers of [GET /did/:did/fallback]. *)
Definition not_ethr_body : JsVal :=
  obj_lit
    [("success", JBool false);
     ("error", JStr "Only ethr DIDs are supported for fallback resolution")].

Definition invalid_format_body : JsVal :=
  obj_lit
    [("success", JBool false);
     ("error", JStr "Invalid DID format")].

(** The record that creation stores for an identifier of the agent. *)
Definition agent_record (clock : Clock) (i : Identifier) (tag note : string)
  : JsVal :=
  obj_lit
    ([("did", JStr (did i)); ("createdAt", JStr (toISOString clock))] ++
     spread (obj_lit
       (spread (identifier_obj i) ++
        [("type", JStr tag); ("note", JStr note)]))).

(** Every record of the registry names, as its [did], the key it is stored
    under. *)
Definition keyed_by_did (m : gmap string JsVal) : Prop :=
  ∀ k r, m !! k = Some r → get "did" r = JStr k.

(** The answer of [GET /did/:did] for a DID that is not registered. *)
Definition did_not_found_body : JsVal :=
  obj_lit
    [("success", JBool false);
     ("error", JStr "DID not found in this session");
     ("note", JStr "Use did:ethr with a wallet address for blockchain-persisted DIDs")].

(** An agent whose every method fails with the same message. *)
Definition agent_down (e : string) : Agent :=
  {| didManagerCreate := fun _ _ => Thrown e;
     didManagerGet := fun _ _ => Thrown e;
     didManagerImport := fun _ _ => Thrown e;
     resolveDid := fun _ _ => Thrown e;
     verifyCredential := fun _ _ => Thrown e |}.

(** The next request that the same process serves. *)
Definition next_request (st : HState) : HState :=
  incoming (dids st) (credentials st) (presentations st) (calls st).

(** The argument of [agent.didManagerCreate] when the import of a wallet
    address has failed, in the servers of [src/server.js]. *)
Definition server_create_args (target : option string) (clock : Clock)
    (body : Decentralized.CreateBody) : JsVal :=
  obj_lit
    ([("provider", JStr (default "did:key" (Decentralized.provider body)));
      ("alias", JStr (or_str (Decentralized.alias body)
                             ("did-" +:+ pretty (now clock))))] ++
     [("options", obj_lit
         ([("anchor", JBool false); ("network", of_opt target)] ++
          [("address", of_opt (Decentralized.walletAddress body))]))]).

Definition server_get_args (target : option string)
    (body : Decentralized.CreateBody) : JsVal :=
  obj_lit [("did", JStr (server_wallet_did target body))].

Definition server_import_args (target : option string)
    (body : Decentralized.CreateBody) : JsVal :=
  obj_lit
    [("did", JStr (server_wallet_did target body));
     ("provider", JStr "did:ethr");
     ("controllerKeyId", of_opt (Decentralized.walletAddress body));
     ("alias", JStr (or_str (Decentralized.alias body)
        ("ethr-" +:+ interp (Decentralized.walletAddress body))))].

(** An agent that resolves every DID to the same document. *)
Definition agent_resolves (resolution : JsVal) : Agent :=
  {| didManagerCreate := fun _ _ => Thrown "not reached";
     didManagerGet := fun _ _ => Thrown "not reached";
     didManagerImport := fun _ _ => Thrown "not reached";
     resolveDid := fun _ _ => Returned resolution;
     verifyCredential := fun _ _ => Returned resolution |}.

(** A JWT-shaped token: it holds a dot and has three segments. *)
Definition jwt_shaped (token : string) : bool :=
  includes "." token && (length (split "."%char token) =? 3)%nat.

(** The validity that the fallback of [verify-skale] computes from a
    payload. *)
Definition payload_valid (jwt : Server.Jwt) (clock : Clock) (payload : JsVal)
  : bool :=
  truthy (get "vc" payload) && truthy (get "iss" payload) &&
  truthy (get "sub" payload) && truthy (get "iat" payload) &&
  truthy (get "exp" payload) &&
  Server.later_than jwt (get "exp" payload) (now clock).

(** A decoder on a few segments, as [JSON.parse] of their base64url text
    gives them: [{"vc":{}}], [null] and the empty text. *)
Definition jwt_sample : Server.Jwt :=
  {| Server.decode_payload := fun part =>
       if String.eqb part "eyJ2YyI6e319"
       then Returned (obj_lit [("vc", obj_lit [])])
       else if String.eqb part "bnVsbA" then Returned JNull
       else if String.eqb part "" then Thrown "Unexpected end of JSON input"
       else Thrown "Unexpected token";
     Server.later_than := fun exp now_ms =>
       match exp with
       | JNum n => now_ms <? 1000 * n
       | _ => false
       end |}.

(** The payload of the segment [eyJ2YyI6e319]. *)
Definition sample_payload : JsVal := obj_lit [("vc", obj_lit [])].

(** The markers that the second server of [src/server.js] looks for in the
    message of a failed verification. *)
Definition verify_marker (e : string) : bool :=
  includes "EVM revert instruction" e ||
  includes "missing response for request" e ||
  includes "BAD_DATA" e.

(** The calls of a wallet creation of [src/server.js] that finds no
    identifier and cannot import one. *)
Definition server_create_chain (target : option string) (clock : Clock)
    (body : Decentralized.CreateBody) : list AgentCall :=
  [DidManagerGet (server_get_args target body);
   DidManagerImport (server_import_args target body);
   DidManagerCreate (server_create_args target clock body)].

(** A provider constructor that throws. *)
Definition ethers_unreachable : Ethers :=
  {| JsonRpcProvider := fun _ => Thrown "could not detect network" |}.

(** A compact JWT: header, payload and signature, joined by dots. *)
Definition jwt_token (header payload signature : string) : string :=
  header +:+ String "." (payload +:+ String "." signature).

(** The answer of [verify-skale] when neither way of verifying worked. *)
Definition both_failed_body (registryError fallbackError : string) : JsVal :=
  obj_lit
    [("success", JBool false);
     ("error", JStr "Both standard and fallback verification methods failed");
     ("details", obj_lit
        [("registryError", JStr registryError);
         ("fallbackError", JStr fallbackError)])].

(** ** The ordered stores *)

(** A handler on the ordered stores answered once: it returned, sent [b]
    with status [code] and made the agent calls [cs], in this order. *)
Definition session_answers (st : Session.State)
    (r : Outcome unit * Session.State) (cs : list Session.Call) (code : Z)
    (b : JsVal) : Prop :=
  ∃ st', r = (Returned tt, st') ∧
         statusCode (Session.res st') = code ∧
         sent (Session.res st') = Some b ∧
         Session.calls st' = (Session.calls st ++ cs)%list.

Definition session_stores_kept (st st' : Session.State) : Prop :=
  Session.dids st' = Session.dids st ∧
  Session.credentials st' = Session.credentials st ∧
  Session.presentations st' = Session.presentations st.

(** The next request finds the stores and the agent as the last one left
    them. *)
Definition session_next (st : Session.State) : Session.State :=
  Session.incoming (Session.dids st) (Session.credentials st)
    (Session.presentations st) (Session.calls st).

Definition credential_id (clock : Clock) : string :=
  "cred-" +:+ pretty (now clock).

Definition presentation_id (clock : Clock) : string :=
  "pres-" +:+ pretty (now clock).

Definition credential_call (body : Session.CredentialBody) : Session.Call :=
  {| Session.method := "createVerifiableCredential";
     Session.args := Session.credential_args body |}.

Definition presentation_call (body : Session.PresentationBody)
  : Session.Call :=
  {| Session.method := "createVerifiablePresentation";
     Session.args := Session.presentation_args body |}.

(** The three fields that [POST /credential/create] asks for. *)
Definition complete_credential_body (body : Session.CredentialBody) : bool :=
  truthy (of_opt (Session.issuerDid body)) &&
  truthy (of_opt (Session.subjectDid body)) &&
  bool_decide (is_Some (Session.credentialSubject body)).

(** The two fields that [POST /presentation/create] asks for. *)
Definition complete_presentation_body (body : Session.PresentationBody)
  : bool :=
  truthy (of_opt (Session.holderDid body)) &&
  Session.isArray (Session.verifiableCredentials body).

(** The credentials and the presentations that a state lists. *)
Definition listed_credentials (st : Session.State) : list JsVal :=
  get "credential" <$> Session.Map_values (Session.credentials st).

Definition credential_list_body (l : list JsVal) : JsVal :=
  obj_lit
    [("success", JBool true);
     ("count", JNum (Z.of_nat (length l)));
     ("credentials", JArr l);
     ("note", JStr "Only credentials created in this session. For true decentralization, store credentials on the client.")].

Definition did_list_body (l : list JsVal) : JsVal :=
  obj_lit
    [("success", JBool true);
     ("count", JNum (Z.of_nat (length l)));
     ("identifiers", JArr l);
     ("note", JStr "Only DIDs created in this session are listed (no database persistence)")].

Definition missing_credential_fields_body : JsVal :=
  obj_lit
    [("success", JBool false);
     ("error", JStr "Missing required fields: issuerDid, subjectDid, credentialSubject")].

Definition missing_presentation_fields_body : JsVal :=
  obj_lit
    [("success", JBool false);
     ("error", JStr "Missing required fields: holderDid, verifiableCredentials (array)")].

Definition failure_body (e : string) : JsVal :=
  obj_lit [("success", JBool false); ("error", JStr e)].

(** The record that [DIDRegistry.registerDID] stores. *)
Definition registry_record (clock : Clock) (did : string) (metadata : JsVal)
  : JsVal :=
  obj_lit ([("did", JStr did); ("createdAt", JStr (toISOString clock))] ++
           spread metadata).

(** Sample requests on the ordered stores. *)
Definition session_first : Session.State := Session.incoming [] [] [] [].

Definition credential_body_sample : Session.CredentialBody :=
  {| Session.issuerDid :=
       Some "did:key:z6MkhaXgBZDvotDkL5257faiztiGiC2QtKLGpbnnEGta2doK";
     Session.subjectDid :=
       Some "did:ethr:sepolia:0x0979446EB2A4a373eaA702336aC3c390B0139Fc5";
     Session.credentialSubject := Some [("degree", JStr "BSc")];
     Session.credential_type := None;
     Session.expirationDate := None |}.

Definition credential_body_own_id : Session.CredentialBody :=
  {| Session.issuerDid :=
       Some "did:key:z6MkhaXgBZDvotDkL5257faiztiGiC2QtKLGpbnnEGta2doK";
     Session.subjectDid :=
       Some "did:ethr:sepolia:0x0979446EB2A4a373eaA702336aC3c390B0139Fc5";
     Session.credentialSubject :=
       Some [("degree", JStr "MSc"); ("id", JStr "did:example:someone-else")];
     Session.credential_type := None;
     Session.expirationDate := Some "2030-01-01T00:00:00.000Z" |}.

Definition credential_body_no_subject : Session.CredentialBody :=
  {| Session.issuerDid :=
       Some "did:key:z6MkhaXgBZDvotDkL5257faiztiGiC2QtKLGpbnnEGta2doK";
     Session.subjectDid := Some "";
     Session.credentialSubject := Some [("degree", JStr "BSc")];
     Session.credential_type := None;
     Session.expirationDate := None |}.

Definition presentation_body_sample : Session.PresentationBody :=
  {| Session.holderDid :=
       Some "did:ethr:sepolia:0x0979446EB2A4a373eaA702336aC3c390B0139Fc5";
     Session.verifiableCredentials := JArr [];
     Session.presentation_type := None;
     Session.domain := Some "";
     Session.challenge := Some "n-0S6_WzA2Mj" |}.

Definition presentation_body_not_array : Session.PresentationBody :=
  {| Session.holderDid :=
       Some "did:ethr:sepolia:0x0979446EB2A4a373eaA702336aC3c390B0139Fc5";
     Session.verifiableCredentials := JStr "eyJhbGciOiJFUzI1NksifQ.e30.c2ln";
     Session.presentation_type := None;
     Session.domain := None;
     Session.challenge := None |}.

(** An agent that signs whatever it is given: the answer to the [n]-th call
    is the token [jwt-n]. *)
Definition engine_signs : Session.Engine :=
  fun _ past _ => Returned (JStr ("jwt-" +:+ pretty (Z.of_nat (length past)))).

Definition engine_down : Session.Engine :=
  fun _ _ _ => Thrown "key not found for did".

Definition presentation_verify_call (presentation : JsVal)
    (domain challenge : option string) : Session.Call :=
  {| Session.method := "verifyPresentation";
     Session.args :=
       Session.presentation_verify_args presentation domain challenge |}.

Definition missing_presentation_body : JsVal :=
  obj_lit
    [("success", JBool false);
     ("error", JStr "Missing required field: presentation")].

(** An optional string of the request as the agent sees it: left out when
    it is missing or empty. *)
Definition when_given (x : option string) : JsVal :=
  if truthy (of_opt x) then of_opt x else JUndefined.

(** ** Vocabulary of the revised statements *)

(** The same request with another [walletAddress] (or none). *)
Definition with_walletAddress (w : option string)
    (body : Decentralized.CreateBody) : Decentralized.CreateBody :=
  {| Decentralized.provider := Decentralized.provider body;
     Decentralized.alias := Decentralized.alias body;
     Decentralized.walletAddress := w;
     Decentralized.network := Decentralized.network body |}.

(** The answer to a DID whose network is refused before the agent is
    asked. *)
Definition network_refused_body (cfg : NetworkConfig) (did : string)
  : JsVal :=
  obj_lit
    [("success", JBool false);
     ("error", JStr ("Network '" +:+ default "" (split ":"%char did !! 2%nat)
                     +:+ "' is not configured. Available networks: " +:+
                     interp (name cfg)))].

(** The [error] that each server makes of the agent's message. *)
Definition hinted_decentralized (e : string) : string :=
  if includes "CALL_EXCEPTION" e || includes "missing revert data" e
  then "Registry contract error: " +:+ e +:+
       ". For decentralized DIDs, use did:ethr with a wallet address or did:key for self-issued DIDs."
  else e.

Definition hinted_server (e : string) : string :=
  if includes "CALL_EXCEPTION" e || includes "missing revert data" e
  then "Registry contract error: The ERC1056 registry may not have the expected interface or data for this address. Consider using a different registry or fallback resolution. Original error: " +:+ e
  else if includes "could not decode result data" e
  then "Registry contract error: The ERC1056 registry may not be deployed or properly configured on this network. Original error: " +:+ e
  else e.

(** The answer to a resolution that failed: these three properties and no
    other. *)
Definition resolve_failed_body (error did : string) : JsVal :=
  obj_lit
    [("success", JBool false); ("error", JStr error); ("did", JStr did)].

(** What a resolve handler answers when the agent fails with message [e]:
    the fallback document for a DID of the fallback shape, a refusal for a
    network that is not configured, and the failure otherwise. *)
Definition resolve_outcome (cfg : NetworkConfig) (hinted : string → string)
    (did e : string) (st : HState) (r : Outcome unit * HState) : Prop :=
  if fallback_shape did then answers_with_fallback did st r
  else if network_refused cfg did
  then answers st r [] 400 (network_refused_body cfg did)
  else answers st r [ResolveDid (resolve_args did)] 500
         (resolve_failed_body (hinted e) did).

(** A DID as C6 has it: [did:ethr:<network>:<address>] on [skale] or
    [skale-titan], with an address that the pattern of the creation handler
    accepts. Every other DID is malformed, or on another network. *)
Definition recognized_did (did : string) : bool :=
  match split ":"%char did with
  | [scheme; method; network; address] =>
      String.eqb scheme "did" && String.eqb method "ethr" &&
      (String.eqb network "skale-titan" || String.eqb network "skale") &&
      test_eth_address address
  | _ => false
  end.

(** * Running a handler in a proof *)

Create HintDb js_run.
#[local] Hint Unfold bind ret try_catch throw gets modify lift call
  res_status res_json unbound Decentralized.registerDID Decentralized.getDID
  Decentralized.isDIDRegistered : js_run.

(** Runs a handler as far as the known facts allow. *)
Ltac run :=
  repeat (progress (autounfold with js_run;
                    cbn [set_res set_dids set_calls res sent statusCode dids
                         credentials presentations calls fst snd])).

(** Closes [answers st r cs code b] once the handler has run, with [Hr] the
    response that the request started from. *)
Ltac answered Hr :=
  eexists; split; [reflexivity|]; run;
  rewrite ?Hr, ?app_nil_r;
  split; [reflexivity|]; split; [reflexivity|];
  split; [by repeat split|reflexivity].

(** The same for the handlers on the ordered stores. *)
Create HintDb js_session.

#[local] Hint Unfold bind ret try_catch throw gets modify lift
  Session.invoke Session.res_status Session.res_json
  Session.registerDID Session.getDID Session.getAllDIDs
  Session.isDIDRegistered Session.saveCredential Session.getCredential
  Session.getAllCredentials Session.savePresentation Session.getPresentation
  Session.getAllPresentations : js_session.

Ltac run_session :=
  repeat (progress (autounfold with js_session;
                    cbn [Session.set_res Session.set_dids Session.set_calls
                         Session.set_credentials Session.set_presentations
                         Session.res Session.dids Session.credentials
                         Session.presentations Session.calls
                         sent statusCode fst snd])).

(** * Properties *)

(** ** Strings and objects *)

Lemma startsWith_app (p s : string) : startsWith p (p +:+ s) = true.
Proof.
  induction p as [|a p IH]; simpl; [done|].
  by rewrite Ascii.eqb_refl, IH.
Qed.

Lemma includes_prefix (p s : string) : includes p (p +:+ s) = true.
Proof.
  destruct p as [|a p]; destruct s as [|b s]; simpl;
    rewrite ?Ascii.eqb_refl, ?startsWith_app; done.
Qed.

Lemma includes_self (p : string) : includes p p = true.
Proof.
  destruct p as [|a p]; simpl; [done|].
  rewrite Ascii.eqb_refl. simpl.
  replace (startsWith p p) with true; [done|].
  symmetry. clear a. induction p as [|a p IH]; simpl; [done|].
  by rewrite Ascii.eqb_refl.
Qed.

Lemma includes_app_l (p q s : string) :
  includes p s = true → includes p (q +:+ s) = true.
Proof.
  intros H. induction q as [|a q IH]; simpl; [done|].
  rewrite IH. apply orb_true_r.
Qed.

Lemma split_go_cons (sep : Ascii.ascii) (s cur : string) :
  ∃ h t, split_go sep s cur = h :: t.
Proof.
  revert cur. induction s as [|c s IH]; intros cur; simpl; [by eauto|].
  destruct (Ascii.eqb c sep); [by eauto|apply IH].
Qed.

Lemma assoc_get_set_eq k v ps : assoc_get k (assoc_set k v ps) = v.
Proof.
  induction ps as [|[k' v'] ps IH]; simpl.
  - by rewrite String.eqb_refl.
  - destruct (String.eqb k k') eqn:E; simpl; by rewrite E.
Qed.

Lemma assoc_get_set_ne k k' v ps :
  k ≠ k' → assoc_get k (assoc_set k' v ps) = assoc_get k ps.
Proof.
  intros Hne. induction ps as [|[k2 v2] ps IH]; simpl.
  - by apply String.eqb_neq in Hne as ->.
  - destruct (String.eqb k' k2) eqn:E; simpl.
    + apply String.eqb_eq in E as <-. by apply String.eqb_neq in Hne as ->.
    + by rewrite IH.
Qed.

(** Assigning the entries of a literal: the last entry for [k] wins, and a
    key the entries do not mention keeps what it had. *)
Lemma assign_last k v (l l' : list (string * JsVal)) acc :
  k ∉ l'.*1 →
  assoc_get k (fold_left (fun a kv => assoc_set kv.1 kv.2 a)
                         (l ++ (k, v) :: l') acc) = v.
Proof.
  intros Hk. rewrite fold_left_app. simpl.
  generalize (fold_left (fun a kv => assoc_set kv.1 kv.2 a) l acc).
  intros acc'. clear l acc.
  assert (assoc_get k (assoc_set k v acc') = v) as H0
    by apply assoc_get_set_eq.
  revert H0. generalize (assoc_set k v acc'). clear acc'.
  induction l' as [|[k2 v2] l' IH]; intros a Ha; simpl; [done|].
  rewrite fmap_cons in Hk. apply not_elem_of_cons in Hk as [Hne Hk].
  apply IH; [done|]. by rewrite assoc_get_set_ne.
Qed.

Lemma assign_absent k (l : list (string * JsVal)) acc :
  k ∉ l.*1 →
  assoc_get k (fold_left (fun a kv => assoc_set kv.1 kv.2 a) l acc)
  = assoc_get k acc.
Proof.
  revert acc. induction l as [|[k2 v2] l IH]; intros acc Hk; simpl; [done|].
  rewrite fmap_cons in Hk. apply not_elem_of_cons in Hk as [Hne Hk].
  rewrite IH by done. by apply assoc_get_set_ne.
Qed.

(** ** Network configuration *)

Section NetworkConfigFacts.

Variable SEPOLIA : Preset.

Lemma NETWORK_CONFIGS_own (env : Env) (k : string) :
  NETWORK_CONFIGS SEPOLIA env !! k =
    if String.eqb k "skale-titan" then Some (SKALE_TITAN_CONFIG env)
    else if String.eqb k "skale" then Some (SKALE_TITAN_CONFIG env)
    else if String.eqb k "sepolia" then Some SEPOLIA
    else None.
Proof.
  unfold NETWORK_CONFIGS.
  destruct (String.eqb_spec k "skale-titan") as [->|H1];
    [by rewrite lookup_insert_eq|].
  rewrite lookup_insert_ne by done.
  destruct (String.eqb_spec k "skale") as [->|H2];
    [by rewrite lookup_insert_eq|].
  rewrite lookup_insert_ne by done.
  destruct (String.eqb_spec k "sepolia") as [->|H3];
    [by rewrite lookup_singleton_eq|].
  by rewrite lookup_singleton_ne.
Qed.

(** A name that is a key selects its preset, compared character by
    character. *)
Lemma selected_key (env : Env) (k : string) (p : Preset) :
  ETH_NETWORK env = Some k →
  NETWORK_CONFIGS SEPOLIA env !! k = Some p →
  selected SEPOLIA env = OwnPreset p.
Proof.
  intros Hn Hk. unfold selected, NETWORK_CONFIGS_get, or_str. rewrite Hn.
  destruct (String.eqb_spec k "") as [->|_].
  - rewrite NETWORK_CONFIGS_own in Hk. simpl in Hk. done.
  - by rewrite Hk.
Qed.

(** A name that is neither a key nor a property of [Object.prototype]
    selects the default preset; so does an unset or empty variable. *)
Lemma selected_unknown (env : Env) (k : string) :
  ETH_NETWORK env = Some k →
  NETWORK_CONFIGS SEPOLIA env !! k = None →
  Object_prototype k = None →
  selected SEPOLIA env = OwnPreset (SKALE_TITAN_CONFIG env).
Proof.
  intros Hn Hk Hp. unfold selected, NETWORK_CONFIGS_get, or_str. rewrite Hn.
  destruct (String.eqb_spec k "") as [->|_].
  - by rewrite NETWORK_CONFIGS_own.
  - by rewrite Hk, Hp.
Qed.

Lemma selected_unset (env : Env) :
  ETH_NETWORK env = None ∨ ETH_NETWORK env = Some "" →
  selected SEPOLIA env = OwnPreset (SKALE_TITAN_CONFIG env).
Proof.
  intros [Hn|Hn]; unfold selected, NETWORK_CONFIGS_get, or_str; rewrite Hn;
    by rewrite NETWORK_CONFIGS_own.
Qed.

(** Without overrides the result is the selected preset itself. *)
Lemma getNetworkConfig_preset (env : Env) (p : Preset) :
  selected SEPOLIA env = OwnPreset p →
  ETH_PROVIDER_URL env = None →
  ETH_REGISTRY_ADDRESS env = None →
  Net.getNetworkConfig SEPOLIA env = of_preset p.
Proof.
  intros Hs Hu Hr. unfold Net.getNetworkConfig. rewrite Hs, Hu, Hr. done.
Qed.

(** Matching is case-sensitive: [Sepolia] is not [sepolia]. *)
Lemma selected_case_sensitive (env : Env) :
  ETH_NETWORK env = Some "Sepolia" →
  selected SEPOLIA env = OwnPreset (SKALE_TITAN_CONFIG env).
Proof.
  intros Hn. by apply (selected_unknown env "Sepolia").
Qed.

(** C8. The claim: a requested name that is not a key of the preset table
    yields the default preset [skale-titan]. The code writes the fallback
    ([NETWORK_CONFIGS[networkName] || SKALE_TITAN_CONFIG]) but misses the
    names that an object literal inherits: [constructor] is not a key of the
    table, yet the lookup finds the function [Object], which is truthy, and
    the configuration returned has the name [Object], no chain id, and no
    RPC endpoint or registry beyond the overrides. *)
Theorem getNetworkConfig_inherited_name (env : Env) :
  ETH_NETWORK env = Some "constructor" →
  NETWORK_CONFIGS SEPOLIA env !! "constructor" = None ∧
  selected SEPOLIA env ≠ OwnPreset (SKALE_TITAN_CONFIG env) ∧
  Net.getNetworkConfig SEPOLIA env =
    {| name := Some "Object";
       rpcUrl := or_else (ETH_PROVIDER_URL env) None;
       registry := or_else (ETH_REGISTRY_ADDRESS env) None;
       chainId := None |}.
Proof.
  intros Hn.
  assert (NETWORK_CONFIGS SEPOLIA env !! "constructor" = None) as Hk
    by by rewrite NETWORK_CONFIGS_own.
  assert (selected SEPOLIA env = BuiltinFunction "Object") as Hs.
  { unfold selected, NETWORK_CONFIGS_get, or_str. rewrite Hn. simpl.
    by rewrite Hk. }
  split; [done|]. split; [by rewrite Hs|].
  unfold Net.getNetworkConfig. by rewrite Hs.
Qed.

End NetworkConfigFacts.

Lemma getNetworkConfig_inherited_name_witness :
  ETH_NETWORK env_constructor = Some "constructor" ∧
  Decentralized.getNetworkConfig env_constructor =
    {| name := Some "Object"; rpcUrl := None; registry := None;
       chainId := None |}.
Proof.
  split; [reflexivity|].
  exact (proj2 (proj2 (getNetworkConfig_inherited_name
                         SEPOLIA_decentralized env_constructor eq_refl))).
Defined.

(** ** Registry probing *)

Section Probe.

Variable provider : Provider.

(** One turn of the loop on a candidate that shows no code: the candidate is
    queried and the loop goes on, whether the query returned or threw. *)
Lemma probe_known_skip (registry : string) (rest : list string) (q : Queries) :
  shows_code provider registry = false →
  probe_known provider (registry :: rest) q =
  probe_known provider rest (q ++ [Some registry]).
Proof.
  unfold shows_code, deployed_code. intros H. simpl.
  unfold bind, try_catch, query, ret.
  destruct (getCode provider (Some registry)) as [code|e]; [|done].
  by rewrite H.
Qed.

(** One turn of the loop on a candidate that shows code: the loop returns
    it at once. *)
Lemma probe_known_hit (registry : string) (rest : list string) (q : Queries) :
  shows_code provider registry = true →
  probe_known provider (registry :: rest) q =
  (Returned (Some {| isDeployed := JBool true; effective := Some registry |}),
   q ++ [Some registry]).
Proof.
  unfold shows_code, deployed_code. intros H. simpl.
  unfold bind, try_catch, query, ret.
  destruct (getCode provider (Some registry)) as [code|e]; [|done].
  by rewrite H.
Qed.

(** No candidate shows code: every one of them was queried, in order, and
    the loop falls through. *)
Lemma probe_known_none (known : list string) (q : Queries) :
  Forall (fun a => shows_code provider a = false) known →
  probe_known provider known q = (Returned None, q ++ (Some <$> known)).
Proof.
  intros H. revert q. induction H as [|a known Ha _ IH]; intros q.
  - simpl. unfold ret. by rewrite app_nil_r.
  - rewrite probe_known_skip by done. rewrite IH.
    by rewrite <- app_assoc.
Qed.

(** The first candidate that shows code is returned, and no later one is
    queried. *)
Lemma probe_known_first (before : list string) (a : string)
    (after : list string) (q : Queries) :
  Forall (fun a => shows_code provider a = false) before →
  shows_code provider a = true →
  probe_known provider (before ++ a :: after) q =
  (Returned (Some {| isDeployed := JBool true; effective := Some a |}),
   q ++ (Some <$> before) ++ [Some a]).
Proof.
  intros H Ha. revert q. induction H as [|b before Hb _ IH]; intros q.
  - simpl app. by apply probe_known_hit.
  - simpl app. rewrite probe_known_skip by done. rewrite IH.
    by rewrite <- app_assoc.
Qed.


End Probe.

(** The probe always returns: it never throws, whatever the chain does. *)
Lemma checkRegistryDeployment_returns (ethers : Ethers) (cfg : NetworkConfig)
    (q : Queries) :
  ∃ d q', checkRegistryDeployment ethers cfg q = (Returned d, q').
Proof.
  unfold checkRegistryDeployment, try_catch, bind, lift, query, ret.
  destruct (JsonRpcProvider ethers (rpcUrl cfg)) as [provider|e]; [|by eauto].
  destruct (getCode provider (registry cfg)) as [code|e]; [|by eauto].
  destruct (_ && _).
  - destruct (probe_known provider knownRegistries _) as [[[d|]|e] q'] eqn:E;
      eauto.
  - eauto.
Qed.

(** C4, as the code has it. On the network [skale-titan], when the primary
    registry answers without code, the first candidate shows none (or its
    query throws) and the second one shows code, the probe reports the
    second candidate as deployed. When the primary registry answers without
    code and either the network is not [skale-titan] (no candidate is then
    queried) or no candidate shows code, the probe keeps the configured
    address and reports a falsy [isDeployed]. *)
Theorem probe_second_candidate_or_original (ethers : Ethers)
    (provider : Provider) (cfg : NetworkConfig) (code : string)
    (q : Queries) :
  JsonRpcProvider ethers (rpcUrl cfg) = Returned provider →
  getCode provider (registry cfg) = Returned code →
  deployed_code code = false →
  (name cfg = Some "skale-titan" →
   shows_code provider "0xdca7ef03e98e0dc2b855be647c39abe984fcf21b" = false →
   shows_code provider "0xd1d374dda6c5e1c0fd927de1c6c0e9cb7d7f12d3" = true →
   checkRegistryDeployment ethers cfg q =
   (Returned {| isDeployed := JBool true;
                effective := Some "0xd1d374dda6c5e1c0fd927de1c6c0e9cb7d7f12d3" |},
    q ++ [registry cfg;
          Some "0xdca7ef03e98e0dc2b855be647c39abe984fcf21b";
          Some "0xd1d374dda6c5e1c0fd927de1c6c0e9cb7d7f12d3"]))
  ∧
  (name cfg ≠ Some "skale-titan" ∨
   Forall (fun a => shows_code provider a = false) knownRegistries →
   ∃ d q', checkRegistryDeployment ethers cfg q = (Returned d, q') ∧
           effective d = registry cfg ∧
           truthy (isDeployed d) = false ∧
           (code ≠ "" → isDeployed d = JBool false)).
Proof.
  intros Hp Hc Hd. split.
  - intros Hn H1 H2.
    unfold checkRegistryDeployment, try_catch, bind, lift, query, ret.
    rewrite Hp, Hc. fold (deployed_code code). rewrite Hd, Hn.
    rewrite bool_decide_eq_true_2 by done. cbn [negb andb].
    change knownRegistries with
      (["0xdca7ef03e98e0dc2b855be647c39abe984fcf21b"] ++
       "0xd1d374dda6c5e1c0fd927de1c6c0e9cb7d7f12d3" ::
       ["0x0000000000000000000000000000000000000000"]).
    rewrite probe_known_first; [|by repeat constructor|done].
    by rewrite <- app_assoc.
  - intros Hor.
    unfold checkRegistryDeployment, try_catch, bind, lift, query, ret.
    rewrite Hp, Hc. fold (deployed_code code). rewrite Hd. cbn [negb andb].
    assert (truthy (js_and (JStr code) (JBool (negb (String.eqb code "0x"))))
            = false) as Hd' by exact Hd.
    assert (code ≠ "" →
            js_and (JStr code) (JBool (negb (String.eqb code "0x")))
            = JBool false) as Hf.
    { intros Hne. unfold deployed_code, js_and in *. simpl in *.
      apply String.eqb_neq in Hne. rewrite Hne in *. simpl in *.
      by rewrite Hd. }
    destruct Hor as [Hn|Hall].
    + rewrite bool_decide_eq_false_2 by done. eauto 10.
    + destruct (bool_decide _); [|by eauto 10].
      rewrite probe_known_none by done. eauto 10.
Qed.

Lemma probe_second_candidate_or_original_witness :
  checkRegistryDeployment (ethers_of provider_second_only)
    (Decentralized.getNetworkConfig env_unset) [] =
  (Returned {| isDeployed := JBool true;
               effective := Some "0xd1d374dda6c5e1c0fd927de1c6c0e9cb7d7f12d3" |},
   [Some "0x0979446EB2A4a373eaA702336aC3c390B0139Fc5";
    Some "0xdca7ef03e98e0dc2b855be647c39abe984fcf21b";
    Some "0xd1d374dda6c5e1c0fd927de1c6c0e9cb7d7f12d3"])
  ∧
  ∃ d q', checkRegistryDeployment (ethers_of provider_second_only)
            (Decentralized.getNetworkConfig env_sepolia) [] = (Returned d, q') ∧
          effective d = Some "0xc0660d54f4655dC3B045D69ced4308f1709FD35e" ∧
          truthy (isDeployed d) = false ∧
          ("0x" ≠ "" → isDeployed d = JBool false).
Proof.
  split.
  - apply (proj1 (probe_second_candidate_or_original
                    (ethers_of provider_second_only) provider_second_only
                    (Decentralized.getNetworkConfig env_unset) "0x" []
                    eq_refl eq_refl eq_refl)); reflexivity.
  - apply (proj2 (probe_second_candidate_or_original
                    (ethers_of provider_second_only) provider_second_only
                    (Decentralized.getNetworkConfig env_sepolia) "0x" []
                    eq_refl eq_refl eq_refl)).
    left. discriminate.
Defined.

(** C4, as the claim has it, fails: on [sepolia] the candidates are never
    queried, so a deployed second candidate is not found. *)
Lemma probe_second_candidate_not_on_sepolia :
  ¬ (∀ (ethers : Ethers) (provider : Provider) (cfg : NetworkConfig)
       (code : string) (q : Queries),
       JsonRpcProvider ethers (rpcUrl cfg) = Returned provider →
       getCode provider (registry cfg) = Returned code →
       deployed_code code = false →
       shows_code provider "0xd1d374dda6c5e1c0fd927de1c6c0e9cb7d7f12d3" = true →
       (checkRegistryDeployment ethers cfg q).1 =
       Returned {| isDeployed := JBool true;
                   effective := Some "0xd1d374dda6c5e1c0fd927de1c6c0e9cb7d7f12d3" |}).
Proof.
  intros H.
  specialize (H (ethers_of provider_second_only) provider_second_only
                (Decentralized.getNetworkConfig env_sepolia) "0x" []
                eq_refl eq_refl eq_refl eq_refl).
  vm_compute in H. discriminate H.
Qed.

(** On [skale-titan] itself the loop stops at the first candidate that
    shows code: with both candidates deployed, the first one is returned. *)
Example probe_returns_first_candidate :
  (checkRegistryDeployment
     (ethers_of {| getCode := fun address =>
                     if bool_decide (address = Some "0x0979446EB2A4a373eaA702336aC3c390B0139Fc5")
                     then Returned "0x"
                     else Returned "0x6080604052" |})
     (Decentralized.getNetworkConfig env_unset) []).1 =
  Returned {| isDeployed := JBool true;
              effective := Some "0xdca7ef03e98e0dc2b855be647c39abe984fcf21b" |}.
Proof. reflexivity. Qed.




(** ** Identity creation *)

(** C9. The claim: a provider that is neither [did:ethr] nor [did:key] is
    answered with a client error that lists the supported variants. The
    [else] branch sets status 400 and starts building that answer, but its
    last entry reads [error.message] where no [error] is in scope; the
    [ReferenceError] lands in the handler's own [catch], and what is sent is
    status 500 with the message [error is not defined] and no list of
    variants. Nothing is written to the stores and the agent is not
    called. *)
Theorem did_create_unsupported_provider (env : Env) (agent : Agent)
    (clock : Clock) (body : Decentralized.CreateBody) (st : HState)
    (p : string) :
  Decentralized.provider body = Some p →
  p ≠ "did:ethr" → p ≠ "did:key" →
  sent (res st) = None →
  ∃ st', Decentralized.did_create env agent clock body st = (Returned tt, st') ∧
         statusCode (res st') = 500 ∧
         sent (res st') = Some (obj_lit [("success", JBool false);
                                         ("error", JStr "error is not defined")]) ∧
         get "supported_methods"
             (default JUndefined (sent (res st'))) = JUndefined ∧
         same_stores st st' ∧ calls st' = calls st.
Proof.
  intros Hp He Hk Hs.
  apply String.eqb_neq in He, Hk.
  unfold Decentralized.did_create. rewrite Hp. cbv zeta.
  cbn [default from_option id]. rewrite He, Hk. cbn [andb]. run. rewrite Hs. run.
  eexists. split; [reflexivity|]. by repeat split.
Qed.

Lemma did_create_unsupported_provider_witness :
  ∃ st', Decentralized.did_create env_unset agent_key clock_2025
           (body_of (Some "did:web") None) first_request = (Returned tt, st') ∧
         statusCode (res st') = 500 ∧
         sent (res st') = Some (obj_lit [("success", JBool false);
                                         ("error", JStr "error is not defined")]) ∧
         get "supported_methods"
             (default JUndefined (sent (res st'))) = JUndefined ∧
         same_stores first_request st' ∧ calls st' = calls first_request.
Proof.
  apply (did_create_unsupported_provider env_unset agent_key clock_2025
           (body_of (Some "did:web") None) first_request "did:web");
    [reflexivity | discriminate | discriminate | reflexivity].
Defined.

(** A string that the address pattern accepts is not empty, hence truthy. *)
Lemma test_eth_address_truthy (wa : string) :
  test_eth_address wa = true → truthy (of_opt (Some wa)) = true.
Proof. by destruct wa. Qed.

Lemma nonempty_truthy (wa : string) :
  wa ≠ "" → truthy (of_opt (Some wa)) = true.
Proof. intros H. simpl. by apply String.eqb_neq in H as ->. Qed.

(** C2, as the code has it. In all three servers, a request for [did:ethr]
    whose [walletAddress] is a non-empty string that the pattern
    [^0x[a-fA-F0-9]{40}$] rejects is answered with status 400; the stores
    are left as they were and the agent is not called. With any other
    provider ([did:key] when none is given) the [walletAddress] is not
    looked at: the handler runs as it does on the same request with any
    other [walletAddress], or with none. *)
Theorem did_create_rejects_malformed_address (env : Env) (agent : Agent)
    (clock : Clock) (body : Decentralized.CreateBody) (st : HState) :
  (∀ wa,
     Decentralized.provider body = Some "did:ethr" →
     Decentralized.walletAddress body = Some wa →
     wa ≠ "" →
     test_eth_address wa = false →
     sent (res st) = None →
     rejects_with_400 st (Decentralized.did_create env agent clock body st) ∧
     rejects_with_400 st (Server.did_create_root env agent clock body st) ∧
     rejects_with_400 st (Server.did_create_ethr env agent clock body st))
  ∧
  (Decentralized.provider body ≠ Some "did:ethr" →
   ∀ w,
     Decentralized.did_create env agent clock (with_walletAddress w body) st
     = Decentralized.did_create env agent clock body st ∧
     Server.did_create_root env agent clock (with_walletAddress w body) st
     = Server.did_create_root env agent clock body st ∧
     Server.did_create_ethr env agent clock (with_walletAddress w body) st
     = Server.did_create_ethr env agent clock body st).
Proof.
  split.
  - intros wa Hp Hw Hne Ht Hs. apply nonempty_truthy in Hne.
    unfold rejects_with_400, Server.did_create_root, Server.did_create_ethr,
      Server.did_create, Decentralized.did_create.
    rewrite Hp, Hw. cbv zeta. cbn [default from_option id String.eqb Ascii.eqb
      Bool.eqb andb interp]. rewrite Hne, Ht. cbn [negb andb].
    run. rewrite Hs. run.
    repeat split; eexists; (split; [reflexivity|]); by repeat split.
  - intros Hp w.
    assert (He : String.eqb (default "did:key" (Decentralized.provider body))
                   "did:ethr" = false).
    { apply String.eqb_neq. destruct (Decentralized.provider body) as [p|];
        [|discriminate]. cbn. congruence. }
    unfold Server.did_create_root, Server.did_create_ethr, Server.did_create,
      Decentralized.did_create, with_walletAddress.
    cbv zeta.
    cbn [Decentralized.provider Decentralized.alias
         Decentralized.walletAddress Decentralized.network].
    rewrite He. cbn [andb]. by repeat split.
Qed.

Lemma did_create_rejects_malformed_address_witness :
  (rejects_with_400 first_request
     (Decentralized.did_create env_unset agent_key clock_2025
        (body_of (Some "did:ethr") (Some "0x12345")) first_request) ∧
   rejects_with_400 first_request
     (Server.did_create_root env_unset agent_key clock_2025
        (body_of (Some "did:ethr") (Some "0x12345")) first_request) ∧
   rejects_with_400 first_request
     (Server.did_create_ethr env_unset agent_key clock_2025
        (body_of (Some "did:ethr") (Some "0x12345")) first_request))
  ∧
  (Decentralized.did_create env_unset agent_key clock_2025
     (with_walletAddress None (body_of (Some "did:key") (Some "0x12345")))
     first_request
   = Decentralized.did_create env_unset agent_key clock_2025
       (body_of (Some "did:key") (Some "0x12345")) first_request ∧
   Server.did_create_root env_unset agent_key clock_2025
     (with_walletAddress None (body_of (Some "did:key") (Some "0x12345")))
     first_request
   = Server.did_create_root env_unset agent_key clock_2025
       (body_of (Some "did:key") (Some "0x12345")) first_request ∧
   Server.did_create_ethr env_unset agent_key clock_2025
     (with_walletAddress None (body_of (Some "did:key") (Some "0x12345")))
     first_request
   = Server.did_create_ethr env_unset agent_key clock_2025
       (body_of (Some "did:key") (Some "0x12345")) first_request).
Proof.
  split.
  - apply (proj1 (did_create_rejects_malformed_address env_unset agent_key
                    clock_2025 (body_of (Some "did:ethr") (Some "0x12345"))
                    first_request) "0x12345");
      [reflexivity | reflexivity | discriminate | reflexivity | reflexivity].
  - apply (proj2 (did_create_rejects_malformed_address env_unset agent_key
                    clock_2025 (body_of (Some "did:key") (Some "0x12345"))
                    first_request)).
    discriminate.
Defined.

(** C2, as the claim has it, fails: the address is only looked at when the
    provider is [did:ethr]. With the default provider [did:key], a malformed
    [walletAddress] is ignored, the agent creates a key and the record is
    stored. *)
Lemma did_create_ignores_address_for_did_key :
  ¬ (∀ (env : Env) (agent : Agent) (clock : Clock)
       (body : Decentralized.CreateBody) (st : HState) (wa : string),
       Decentralized.walletAddress body = Some wa →
       test_eth_address wa = false →
       sent (res st) = None →
       let st' := (Decentralized.did_create env agent clock body st).2 in
       statusCode (res st') = 400 ∧ dids st' = dids st ∧
       calls st' = calls st).
Proof.
  intros H.
  destruct (H env_unset agent_key clock_2025 (body_of None (Some "0x12345"))
              first_request "0x12345" eq_refl eq_refl eq_refl) as (_ & _ & Hc).
  vm_compute in Hc. discriminate Hc.
Qed.

Section WalletLinked.

Variables (env : Env) (agent : Agent) (body : Decentralized.CreateBody)
          (wa : string).
Hypothesis Hprovider : Decentralized.provider body = Some "did:ethr".
Hypothesis Hwallet : Decentralized.walletAddress body = Some wa.
Hypothesis Hvalid : test_eth_address wa = true.

(** The DID is already registered: the answer is rebuilt from the request,
    and only the response changes. *)
Lemma did_create_wallet_registered (clock : Clock) (st : HState) :
  sent (res st) = None →
  is_Some (dids st !! wallet_did env body) →
  ∃ st' b,
    Decentralized.did_create env agent clock body st = (Returned tt, st') ∧
    same_stores st st' ∧ calls st' = calls st ∧
    statusCode (res st') = statusCode (res st) ∧
    sent (res st') = Some b ∧
    get "success" b = JBool true ∧
    get "identifier" b = wallet_identifier env body ∧
    get "message" b = JStr "Wallet-based DID already exists".
Proof.
  intros Hs Hreg.
  unfold Decentralized.did_create, wallet_identifier, wallet_did in *.
  rewrite Hprovider, Hwallet in *. cbv zeta.
  cbn [default from_option id String.eqb Ascii.eqb Bool.eqb andb].
  rewrite (test_eth_address_truthy wa Hvalid). cbn [interp] in *.
  rewrite Hvalid. cbn [negb andb]. run.
  rewrite bool_decide_eq_true_2 by done. run. rewrite Hs. run.
  do 2 eexists. split; [reflexivity|]. by repeat split.
Qed.

(** The DID is not registered yet: the record is stored under it, the agent
    is not called, and the answer carries the same identifier. *)
Lemma did_create_wallet_fresh (clock : Clock) (st : HState) :
  sent (res st) = None →
  dids st !! wallet_did env body = None →
  ∃ st' b,
    Decentralized.did_create env agent clock body st = (Returned tt, st') ∧
    dids st' = <[wallet_did env body := wallet_record env clock body]> (dids st) ∧
    credentials st' = credentials st ∧ presentations st' = presentations st ∧
    calls st' = calls st ∧
    statusCode (res st') = statusCode (res st) ∧
    sent (res st') = Some b ∧
    get "success" b = JBool true ∧
    get "identifier" b = wallet_identifier env body.
Proof.
  intros Hs Hreg.
  unfold Decentralized.did_create, wallet_identifier, wallet_record,
    wallet_did in *.
  rewrite Hprovider, Hwallet in *. cbv zeta.
  cbn [default from_option id String.eqb Ascii.eqb Bool.eqb andb].
  rewrite (test_eth_address_truthy wa Hvalid). cbn [interp] in *.
  rewrite Hvalid. cbn [negb andb]. run.
  rewrite bool_decide_eq_false_2 by (rewrite Hreg; by intros [? ?]).
  run. rewrite Hs. run.
  do 2 eexists. split; [reflexivity|]. by repeat split.
Qed.

End WalletLinked.

(** C1, as the code has it. A wallet-linked request ([did:ethr] with an
    address that the pattern accepts) whose DID is already registered is
    answered with success and with an identifier rebuilt from the request
    ([did], [provider], [walletAddress], [network]); the stores are left as
    they were and the agent is not called. Issued twice, the request gets the
    same identifier both times, the second call writes nothing, and neither
    call reaches the agent. *)
Theorem did_create_wallet_idempotent (env : Env) (agent : Agent)
    (body : Decentralized.CreateBody) (wa : string) (clock : Clock)
    (st : HState) :
  Decentralized.provider body = Some "did:ethr" →
  Decentralized.walletAddress body = Some wa →
  test_eth_address wa = true →
  sent (res st) = None →
  (is_Some (dids st !! wallet_did env body) →
   ∃ st' b,
     Decentralized.did_create env agent clock body st = (Returned tt, st') ∧
     same_stores st st' ∧ calls st' = calls st ∧
     statusCode (res st') = statusCode (res st) ∧
     sent (res st') = Some b ∧
     get "success" b = JBool true ∧
     get "identifier" b = wallet_identifier env body ∧
     get "message" b = JStr "Wallet-based DID already exists")
  ∧
  (∀ clock2, ∃ st1 b1 st2 b2,
     Decentralized.did_create env agent clock body st = (Returned tt, st1) ∧
     sent (res st1) = Some b1 ∧
     Decentralized.did_create env agent clock2 body
       (incoming (dids st1) (credentials st1) (presentations st1) (calls st1))
     = (Returned tt, st2) ∧
     sent (res st2) = Some b2 ∧
     get "identifier" b2 = get "identifier" b1 ∧
     dids st2 = dids st1 ∧ credentials st2 = credentials st1 ∧
     presentations st2 = presentations st1 ∧
     calls st1 = calls st ∧ calls st2 = calls st).
Proof.
  intros Hp Hw Hv Hs. split.
  - by apply (did_create_wallet_registered env agent body wa).
  - intros clock2.
    assert (∃ st1 b1,
      Decentralized.did_create env agent clock body st = (Returned tt, st1) ∧
      sent (res st1) = Some b1 ∧
      get "identifier" b1 = wallet_identifier env body ∧
      is_Some (dids st1 !! wallet_did env body) ∧
      calls st1 = calls st) as (st1 & b1 & Hrun1 & Hb1 & Hi1 & Hreg1 & Hc1).
    { destruct (dids st !! wallet_did env body) as [r|] eqn:Hreg.
      - destruct (did_create_wallet_registered env agent body wa Hp Hw Hv
                    clock st Hs) as (st1 & b1 & H1 & (Hd & _) & Hc & _ & Hb & _ & Hi & _).
        { by rewrite Hreg. }
        exists st1, b1. repeat split; try done. rewrite Hd, Hreg. by eexists.
      - destruct (did_create_wallet_fresh env agent body wa Hp Hw Hv
                    clock st Hs Hreg) as (st1 & b1 & H1 & Hd & _ & _ & Hc & _ & Hb & _ & Hi).
        exists st1, b1. repeat split; try done. rewrite Hd.
        rewrite lookup_insert_eq. by eexists. }
    destruct (did_create_wallet_registered env agent body wa Hp Hw Hv clock2
                (incoming (dids st1) (credentials st1) (presentations st1)
                          (calls st1)) eq_refl Hreg1)
      as (st2 & b2 & H2 & (Hd2 & Hcr2 & Hpr2) & Hc2 & _ & Hb2 & _ & Hi2 & _).
    exists st1, b1, st2, b2. cbn in Hd2, Hcr2, Hpr2, Hc2.
    repeat split; try done; congruence.
Qed.

Lemma did_create_wallet_idempotent_witness :
  (is_Some (dids after_first_creation !! wallet_did env_unset body_wallet) →
   ∃ st' b,
     Decentralized.did_create env_unset agent_key clock_later body_wallet
       after_first_creation = (Returned tt, st') ∧
     same_stores after_first_creation st' ∧
     calls st' = calls after_first_creation ∧
     statusCode (res st') = statusCode (res after_first_creation) ∧
     sent (res st') = Some b ∧
     get "success" b = JBool true ∧
     get "identifier" b = wallet_identifier env_unset body_wallet ∧
     get "message" b = JStr "Wallet-based DID already exists")
  ∧
  (∀ clock2, ∃ st1 b1 st2 b2,
     Decentralized.did_create env_unset agent_key clock_later body_wallet
       after_first_creation = (Returned tt, st1) ∧
     sent (res st1) = Some b1 ∧
     Decentralized.did_create env_unset agent_key clock2 body_wallet
       (incoming (dids st1) (credentials st1) (presentations st1) (calls st1))
     = (Returned tt, st2) ∧
     sent (res st2) = Some b2 ∧
     get "identifier" b2 = get "identifier" b1 ∧
     dids st2 = dids st1 ∧ credentials st2 = credentials st1 ∧
     presentations st2 = presentations st1 ∧
     calls st1 = calls after_first_creation ∧
     calls st2 = calls after_first_creation).
Proof.
  apply (did_create_wallet_idempotent env_unset agent_key body_wallet
           "0x0979446EB2A4a373eaA702336aC3c390B0139Fc5" clock_later
           after_first_creation);
    reflexivity.
Defined.

(** C1, as the claim has it, fails: the answer does not return the stored
    record. After a first creation the store holds [wallet_record] (with
    [createdAt], [type] and [alias]); the second answer carries the four
    properties of [wallet_identifier] only. *)
Lemma did_create_wallet_answer_is_not_the_record :
  ¬ (∀ (env : Env) (agent : Agent) (clock : Clock)
       (body : Decentralized.CreateBody) (st : HState) (wa : string)
       (r : JsVal),
       Decentralized.provider body = Some "did:ethr" →
       Decentralized.walletAddress body = Some wa →
       test_eth_address wa = true →
       sent (res st) = None →
       dids st !! wallet_did env body = Some r →
       ∃ b, sent (res (Decentralized.did_create env agent clock body st).2)
            = Some b ∧
            get "identifier" b = r).
Proof.
  intros H.
  destruct (H env_unset agent_key clock_later body_wallet after_first_creation
              "0x0979446EB2A4a373eaA702336aC3c390B0139Fc5"
              (wallet_record env_unset clock_2025 body_wallet)
              eq_refl eq_refl eq_refl eq_refl)
    as (b & Hb & Hr).
  { apply lookup_singleton_eq. }
  vm_compute in Hb. injection Hb as <-. vm_compute in Hr. discriminate Hr.
Qed.

(** In [src/server.js] the duplicate check is a call to the agent: when
    [didManagerGet] knows the DID, its identifier is the answer, no identifier
    is imported or created, and the handler (which has no store of its own)
    writes nothing. *)
Lemma server_did_create_existing
    (targetNetwork : Env → option string → option string)
    (created_message : option string → string)
    (env : Env) (agent : Agent) (clock : Clock)
    (body : Decentralized.CreateBody) (st : HState) (wa : string)
    (existing : Identifier) :
  Decentralized.provider body = Some "did:ethr" →
  Decentralized.walletAddress body = Some wa →
  test_eth_address wa = true →
  sent (res st) = None →
  didManagerGet agent (calls st)
    (obj_lit [("did", JStr (server_wallet_did
                              (targetNetwork env (Decentralized.network body))
                              body))])
  = Returned existing →
  ∃ st' b,
    Server.did_create targetNetwork created_message env agent clock body st
    = (Returned tt, st') ∧
    same_stores st st' ∧
    calls st' = calls st ++
      [DidManagerGet
         (obj_lit [("did", JStr (server_wallet_did
                                   (targetNetwork env (Decentralized.network body))
                                   body))])] ∧
    sent (res st') = Some b ∧
    get "success" b = JBool true ∧
    get "identifier" b = identifier_obj existing ∧
    get "message" b = JStr "DID already exists for this wallet address".
Proof.
  intros Hp Hw Hv Hs Hg.
  unfold Server.did_create, server_wallet_did in *.
  rewrite Hp, Hw in *. cbv zeta.
  cbn [default from_option id String.eqb Ascii.eqb Bool.eqb andb].
  rewrite (test_eth_address_truthy wa Hv). cbn [interp] in *.
  rewrite Hv. cbn [negb andb]. run. rewrite Hg. run. rewrite Hs. run.
  do 2 eexists. split; [reflexivity|]. by repeat split.
Qed.

Example server_did_create_existing_ethr :
  ∃ st' b,
    Server.did_create_ethr env_unset agent_known clock_2025 body_wallet
      first_request = (Returned tt, st') ∧
    length (calls st') = 1%nat ∧
    sent (res st') = Some b ∧
    get "did" (get "identifier" b)
    = JStr "did:ethr:skale-titan:0x0979446EB2A4a373eaA702336aC3c390B0139Fc5".
Proof. do 2 eexists. by vm_compute. Qed.

(** ** The records that creation stores *)

Lemma elem_of_assoc_set_keys k' k v (ps : list (string * JsVal)) :
  k' ∈ (assoc_set k v ps).*1 ↔ k' = k ∨ k' ∈ ps.*1.
Proof.
  induction ps as [|[k2 v2] ps IH]; simpl.
  - rewrite list_elem_of_singleton. set_unfold. tauto.
  - destruct (String.eqb_spec k k2) as [->|Hne]; simpl.
    + rewrite !elem_of_cons. tauto.
    + rewrite !elem_of_cons, IH. tauto.
Qed.

Lemma NoDup_assoc_set k v (ps : list (string * JsVal)) :
  NoDup ps.*1 → NoDup (assoc_set k v ps).*1.
Proof.
  induction ps as [|[k2 v2] ps IH]; simpl; intros Hnd.
  - apply NoDup_singleton.
  - apply NoDup_cons in Hnd as [Hk2 Hnd].
    destruct (String.eqb_spec k k2) as [->|Hne]; simpl.
    + by apply NoDup_cons.
    + apply NoDup_cons. split; [|by apply IH].
      rewrite elem_of_assoc_set_keys. intros [?|?]; [congruence|done].
Qed.

Lemma NoDup_assign (l acc : list (string * JsVal)) :
  NoDup acc.*1 →
  NoDup (fold_left (fun a kv => assoc_set kv.1 kv.2 a) l acc).*1.
Proof.
  revert acc. induction l as [|[k v] l IH]; intros acc Hnd; simpl; [done|].
  by apply IH, NoDup_assoc_set.
Qed.

Lemma assoc_get_absent k (ps : list (string * JsVal)) :
  k ∉ ps.*1 → assoc_get k ps = JUndefined.
Proof.
  induction ps as [|[k2 v2] ps IH]; simpl; intros Hk; [done|].
  apply not_elem_of_cons in Hk as [Hne Hk].
  apply String.eqb_neq in Hne as ->. by apply IH.
Qed.

(** Spreading an object over an accumulator: its properties overwrite, the
    others stay. *)
Lemma assign_object k (ml acc : list (string * JsVal)) :
  NoDup ml.*1 →
  assoc_get k (fold_left (fun a kv => assoc_set kv.1 kv.2 a) ml acc) =
  if decide (k ∈ ml.*1) then assoc_get k ml else assoc_get k acc.
Proof.
  revert acc. induction ml as [|[k1 v1] ml IH]; intros acc Hnd.
  - by rewrite decide_False by apply not_elem_of_nil.
  - rewrite fmap_cons in *. cbn [fold_left fst snd].
    apply NoDup_cons in Hnd as [Hk1 Hnd]. rewrite IH by done.
    destruct (String.eqb_spec k k1) as [->|Hne].
    + rewrite decide_False by done.
      rewrite decide_True by apply list_elem_of_here.
      cbn [assoc_get]. rewrite String.eqb_refl. apply assoc_get_set_eq.
    + destruct (decide (k ∈ ml.*1)) as [Hin|Hnin].
      * rewrite decide_True by by apply list_elem_of_further.
        cbn [assoc_get]. by apply String.eqb_neq in Hne as ->.
      * rewrite decide_False by (rewrite elem_of_cons; tauto).
        by apply assoc_get_set_ne.
Qed.

(** The [type] of a record registered from an agent identifier is the tag
    that the handler adds, whatever the identifier holds. *)
Lemma registered_record_type (did iso tag : string) (note : JsVal)
    (ident : list (string * JsVal)) :
  get "type"
    (obj_lit ([("did", JStr did); ("createdAt", JStr iso)] ++
              spread (obj_lit (ident ++ [("type", JStr tag); ("note", note)]))))
  = JStr tag.
Proof.
  unfold obj_lit, spread, get. rewrite fold_left_app.
  rewrite assign_object by (apply NoDup_assign, NoDup_nil_2).
  assert (assoc_get "type"
            (fold_left (fun a kv => assoc_set kv.1 kv.2 a)
                       (ident ++ [("type", JStr tag); ("note", note)]) [])
          = JStr tag) as Ht.
  { apply assign_last. simpl. rewrite list_elem_of_singleton. discriminate. }
  destruct (decide _) as [_|Hnin]; [done|].
  apply assoc_get_absent in Hnin. congruence.
Qed.

(** Whenever creation stores a record, the request is of one of the three
    variants and the record carries that variant's [type]; a wallet-linked
    record is stored without any call to the agent, while a service-managed
    or self-issued record is stored under the DID of an identifier that the
    agent has just created (and whose key it holds). *)
Lemma did_create_record_type (env : Env) (agent : Agent) (clock : Clock)
    (body : Decentralized.CreateBody) (st : HState) :
  sent (res st) = None →
  ∃ st', Decentralized.did_create env agent clock body st = (Returned tt, st') ∧
    (dids st' = dids st ∨
     ∃ v did r,
       classify body = Some v ∧
       dids st' = <[did := r]> (dids st) ∧
       get "type" r = JStr (type_tag v) ∧
       (v = WalletLinked →
        calls st' = calls st ∧ get "signingCapable" r = JUndefined) ∧
       (v ≠ WalletLinked →
        ∃ args identifier,
          didManagerCreate agent (calls st) args = Returned identifier ∧
          did = Http.did identifier ∧
          calls st' = calls st ++ [DidManagerCreate args])).
Proof.
  intros Hs. unfold Decentralized.did_create, classify. cbv zeta.
  destruct (String.eqb _ "did:ethr" && truthy _) eqn:E1.
  - destruct (negb (test_eth_address _)) eqn:E2.
    + run. rewrite Hs. run. eexists. split; [reflexivity|]. by left.
    + run. destruct (bool_decide (is_Some _)) eqn:E3.
      * run. rewrite Hs. run. eexists. split; [reflexivity|]. by left.
      * run. rewrite Hs. run. eexists. split; [reflexivity|]. right.
        exists WalletLinked. do 2 eexists. split; [done|].
        split; [reflexivity|]. by repeat split.
  - destruct (String.eqb _ "did:ethr" && negb (truthy _)) eqn:E2.
    + run. destruct (didManagerCreate agent (calls st) _) as [i|e] eqn:E3.
      * run. rewrite Hs. run. eexists. split; [reflexivity|]. right.
        exists ServiceManaged. do 2 eexists. split; [done|].
        split; [reflexivity|]. split; [apply registered_record_type|].
        split; [done|]. intros _. by do 2 eexists.
      * run. rewrite Hs. run. eexists. split; [reflexivity|]. by left.
    + destruct (String.eqb _ "did:key") eqn:E3.
      * run. destruct (didManagerCreate agent (calls st) _) as [i|e] eqn:E4.
        -- run. rewrite Hs. run. eexists. split; [reflexivity|]. right.
           exists SelfIssued. do 2 eexists. split; [done|].
           split; [reflexivity|]. split; [apply registered_record_type|].
           split; [done|]. intros _. by do 2 eexists.
        -- run. rewrite Hs. run. eexists. split; [reflexivity|]. by left.
      * run. rewrite Hs. run. eexists. split; [reflexivity|]. by left.
Qed.

(** C3. For every record that a creation request adds to the registry or
    changes in it, the request is of one of the three variants, the record
    carries that variant's [type], and the record is signing-capable (its
    [type] is [generated-key] or [self-issued]) if and only if the variant
    is service-managed or self-issued. The mark is true to what happened:
    the agent created the identifier of the record in this request, and so
    holds its key, if and only if the variant is service-managed or
    self-issued; a wallet-linked record is stored without any call to the
    agent. *)
Theorem did_create_signing_capable (env : Env) (agent : Agent) (clock : Clock)
    (body : Decentralized.CreateBody) (st : HState) (did : string)
    (r : JsVal) :
  sent (res st) = None →
  dids (Decentralized.did_create env agent clock body st).2 !! did = Some r →
  dids st !! did ≠ Some r →
  ∃ v, classify body = Some v ∧
       get "type" r = JStr (type_tag v) ∧
       (signing_capable r ↔ v = ServiceManaged ∨ v = SelfIssued) ∧
       (agent_created_key agent st
          (Decentralized.did_create env agent clock body st).2 did
        ↔ v = ServiceManaged ∨ v = SelfIssued).
Proof.
  intros Hs Hl Hn.
  destruct (did_create_record_type env agent clock body st Hs)
    as (st' & E & [Hsame | (v & d0 & r0 & Hc & Hd & Ht & Hw & Ha)]);
    rewrite E in *; cbn [snd] in *.
  { by rewrite Hsame in Hl. }
  rewrite Hd in Hl. destruct (decide (d0 = did)) as [->|Hne];
    [|by rewrite lookup_insert_ne in Hl].
  rewrite lookup_insert_eq in Hl. injection Hl as <-.
  exists v. split; [done|]. split; [done|]. split.
  - unfold signing_capable. rewrite Ht.
    destruct v; cbn; split; try (intros [?|?]; discriminate); auto.
  - unfold agent_created_key. destruct v.
    + destruct (Hw eq_refl) as [Hcalls _]. split.
      * intros (args & i & _ & _ & Hc'). rewrite Hcalls in Hc'.
        apply (f_equal length) in Hc'. rewrite length_app in Hc'.
        cbn in Hc'. lia.
      * intros [?|?]; discriminate.
    + split; [by left|]. intros _. by apply Ha.
    + split; [by right|]. intros _. by apply Ha.
Qed.

Lemma did_create_signing_capable_witness :
  ∃ v, classify (body_of None None) = Some v ∧
       get "type" self_issued_record = JStr (type_tag v) ∧
       (signing_capable self_issued_record
        ↔ v = ServiceManaged ∨ v = SelfIssued) ∧
       (agent_created_key agent_key first_request
          (Decentralized.did_create env_unset agent_key clock_2025
             (body_of None None) first_request).2
          "did:key:z6MkhaXgBZDvotDkL5257faiztiGiC2QtKLGpbnnEGta2doK"
        ↔ v = ServiceManaged ∨ v = SelfIssued).
Proof.
  apply (did_create_signing_capable env_unset agent_key clock_2025
           (body_of None None) first_request
           "did:key:z6MkhaXgBZDvotDkL5257faiztiGiC2QtKLGpbnnEGta2doK"
           self_issued_record).
  - reflexivity.
  - reflexivity.
  - discriminate.
Defined.

(** ** Resolution *)

(** The shape that the handler recognizes, for the two SKALE names. *)
Lemma skale_shape (network address : string) :
  network = "skale" ∨ network = "skale-titan" →
  startsWith "did:ethr:" ("did:ethr:" +:+ network +:+ ":" +:+ address) = true ∧
  ∃ h t,
    split ":"%char ("did:ethr:" +:+ network +:+ ":" +:+ address)
    = "did" :: "ethr" :: network :: h :: t ∧
    String.eqb network "skale-titan" || String.eqb network "skale" = true.
Proof.
  intros Hn. split; [apply startsWith_app|].
  destruct (split_go_cons ":"%char address "") as (h & t & Hsplit).
  exists h, t. rewrite <- Hsplit. by destruct Hn as [-> | ->].
Qed.

(** C6. For a DID [did:ethr:<network>:<address>] on [skale] or
    [skale-titan], when the agent fails to resolve it, both servers answer
    with success and a synthesized document: one verification method, whose
    controller is the DID, referenced by [authentication] and by
    [assertionMethod], under metadata that says [fallback: true]. *)
Theorem did_resolve_fallback (env : Env) (agent : Agent)
    (network address : string) (st : HState) (e : string) :
  network = "skale" ∨ network = "skale-titan" →
  resolveDid agent (calls st)
    (resolve_args ("did:ethr:" +:+ network +:+ ":" +:+ address)) = Thrown e →
  sent (res st) = None →
  answers_with_fallback ("did:ethr:" +:+ network +:+ ":" +:+ address) st
    (Decentralized.did_resolve env agent
       ("did:ethr:" +:+ network +:+ ":" +:+ address) st) ∧
  answers_with_fallback ("did:ethr:" +:+ network +:+ ":" +:+ address) st
    (Server.did_resolve env agent
       ("did:ethr:" +:+ network +:+ ":" +:+ address) st).
Proof.
  intros Hn He Hs.
  destruct (skale_shape network address Hn) as (H1 & h & t & H2 & H3).
  unfold answers_with_fallback, Decentralized.did_resolve,
    Decentralized.did_resolve_checks, Server.did_resolve,
    Server.did_resolve_checks, resolve_args in *.
  set (did := "did:ethr:" +:+ network +:+ ":" +:+ address) in *.
  rewrite H1, H2.
  cbn [length Nat.leb lookup list_lookup default from_option id].
  rewrite H3. run. rewrite He. run. rewrite Hs. run.
  split; do 2 eexists; (split; [reflexivity|]);
    repeat split; try done; eexists; by repeat split.
Qed.

Lemma did_resolve_fallback_witness :
  answers_with_fallback
    ("did:ethr:" +:+ "skale" +:+ ":" +:+ "0x0979446EB2A4a373eaA702336aC3c390B0139Fc5")
    first_request
    (Decentralized.did_resolve env_unset agent_key
       ("did:ethr:" +:+ "skale" +:+ ":" +:+ "0x0979446EB2A4a373eaA702336aC3c390B0139Fc5")
       first_request) ∧
  answers_with_fallback
    ("did:ethr:" +:+ "skale" +:+ ":" +:+ "0x0979446EB2A4a373eaA702336aC3c390B0139Fc5")
    first_request
    (Server.did_resolve env_unset agent_key
       ("did:ethr:" +:+ "skale" +:+ ":" +:+ "0x0979446EB2A4a373eaA702336aC3c390B0139Fc5")
       first_request).
Proof.
  apply (did_resolve_fallback env_unset agent_key "skale"
           "0x0979446EB2A4a373eaA702336aC3c390B0139Fc5" first_request
           "network timeout");
    [by left | reflexivity | reflexivity].
Defined.

Section ResolveOutcome.

Variables (env : Env) (agent : Agent) (did e : string) (st : HState).
Hypothesis Hsent : sent (res st) = None.
Hypothesis Hthrown : resolveDid agent (calls st) (resolve_args did) = Thrown e.

Lemma did_resolve_outcome_decentralized :
  resolve_outcome (Decentralized.getNetworkConfig env) hinted_decentralized
    did e st (Decentralized.did_resolve env agent did st).
Proof.
  unfold resolve_outcome, fallback_shape, network_refused,
    answers_with_fallback, answers, network_refused_body,
    resolve_failed_body, hinted_decentralized, Decentralized.did_resolve,
    Decentralized.did_resolve_checks, resolve_args in *.
  cbv zeta.
  destruct (startsWith "did:ethr:" did); cbn [andb];
    [destruct (4 <=? length _)%nat; cbn [andb]|].
  - destruct (String.eqb _ "skale-titan" || String.eqb _ "skale").
    + run. rewrite Hthrown. run. rewrite Hsent. run.
      do 2 eexists. split; [reflexivity|].
      repeat split; try done; eexists; by repeat split.
    + destruct (negb (bool_decide _) && _ && _).
      * run. rewrite Hsent. run.
        eexists. split; [reflexivity|]. rewrite app_nil_r. by repeat split.
      * run. rewrite Hthrown. run. rewrite Hsent. run.
        eexists. split; [reflexivity|]. by repeat split.
  - run. rewrite Hthrown. run. rewrite Hsent. run.
    eexists. split; [reflexivity|]. by repeat split.
  - run. rewrite Hthrown. run. rewrite Hsent. run.
    eexists. split; [reflexivity|]. by repeat split.
Qed.

Lemma did_resolve_outcome_server :
  resolve_outcome (Server.getNetworkConfig env) hinted_server
    did e st (Server.did_resolve env agent did st).
Proof.
  unfold resolve_outcome, fallback_shape, network_refused,
    answers_with_fallback, answers, network_refused_body,
    resolve_failed_body, hinted_server, Server.did_resolve,
    Server.did_resolve_checks, resolve_args in *.
  cbv zeta.
  destruct (startsWith "did:ethr:" did); cbn [andb];
    [destruct (4 <=? length _)%nat; cbn [andb]|].
  - destruct (String.eqb _ "skale-titan" || String.eqb _ "skale").
    + run. rewrite Hthrown. run. rewrite Hsent. run.
      do 2 eexists. split; [reflexivity|].
      repeat split; try done; eexists; by repeat split.
    + destruct (negb (bool_decide _) && _ && _).
      * run. rewrite Hsent. run.
        eexists. split; [reflexivity|]. rewrite app_nil_r. by repeat split.
      * run. rewrite Hthrown. run. rewrite Hsent. run.
        eexists. split; [reflexivity|]. by repeat split.
  - run. rewrite Hthrown. run. rewrite Hsent. run.
    eexists. split; [reflexivity|]. by repeat split.
  - run. rewrite Hthrown. run. rewrite Hsent. run.
    eexists. split; [reflexivity|]. by repeat split.
Qed.

End ResolveOutcome.

(** C7, as the code has it. When the agent fails to resolve a DID, a
    resolve handler answers with a fallback document exactly when the DID
    starts with [did:ethr:], has four segments or more and names [skale] or
    [skale-titan] as its network; the address is not looked at. For every
    other DID, malformed or on another network, it answers with a failure
    and without a document. A [did:ethr] DID of four segments or more whose
    network is neither the configured one nor a SKALE name is refused with
    status 400 before the agent is asked. Otherwise the agent is asked once
    and the answer is status 500 with [success], [error] and [did] and
    nothing else: [error] is the agent's message, verbatim, or inside a
    registry hint when the message names a registry-contract failure. No
    category is attached. *)
Theorem did_resolve_failure (env : Env) (agent : Agent) (did e : string)
    (st : HState) :
  sent (res st) = None →
  resolveDid agent (calls st) (resolve_args did) = Thrown e →
  resolve_outcome (Decentralized.getNetworkConfig env) hinted_decentralized
    did e st (Decentralized.did_resolve env agent did st) ∧
  resolve_outcome (Server.getNetworkConfig env) hinted_server
    did e st (Server.did_resolve env agent did st) ∧
  (∀ cfg error,
     get "success" (network_refused_body cfg did) = JBool false ∧
     get "resolution" (network_refused_body cfg did) = JUndefined ∧
     get "success" (resolve_failed_body error did) = JBool false ∧
     get "resolution" (resolve_failed_body error did) = JUndefined) ∧
  (hinted_decentralized e = e ∨ registry_error_decentralized e = true) ∧
  (hinted_server e = e ∨ registry_error_server e = true) ∧
  includes e (hinted_decentralized e) = true ∧
  includes e (hinted_server e) = true.
Proof.
  intros Hsent Hthrown.
  split; [by apply did_resolve_outcome_decentralized|].
  split; [by apply did_resolve_outcome_server|].
  split; [done|].
  unfold hinted_decentralized, hinted_server, registry_error_decentralized,
    registry_error_server.
  destruct (includes "CALL_EXCEPTION" e || includes "missing revert data" e);
    cbn [orb]; [|destruct (includes "could not decode result data" e)];
    repeat split;
    auto using includes_self, includes_app_l, includes_prefix.
Qed.

Lemma did_resolve_failure_witness :
  resolve_outcome (Decentralized.getNetworkConfig env_unset)
    hinted_decentralized
    "did:key:z6MkhaXgBZDvotDkL5257faiztiGiC2QtKLGpbnnEGta2doK"
    "network timeout" first_request
    (Decentralized.did_resolve env_unset agent_key
       "did:key:z6MkhaXgBZDvotDkL5257faiztiGiC2QtKLGpbnnEGta2doK"
       first_request) ∧
  resolve_outcome (Server.getNetworkConfig env_unset) hinted_server
    "did:key:z6MkhaXgBZDvotDkL5257faiztiGiC2QtKLGpbnnEGta2doK"
    "network timeout" first_request
    (Server.did_resolve env_unset agent_key
       "did:key:z6MkhaXgBZDvotDkL5257faiztiGiC2QtKLGpbnnEGta2doK"
       first_request).
Proof.
  destruct (did_resolve_failure env_unset agent_key
              "did:key:z6MkhaXgBZDvotDkL5257faiztiGiC2QtKLGpbnnEGta2doK"
              "network timeout" first_request eq_refl eq_refl)
    as (H1 & H2 & _).
  exact (conj H1 H2).
Defined.

(** C7, as the claim has it, fails twice. A malformed DID on a SKALE
    network is of the fallback shape all the same: [did:ethr:skale:] with
    something that is no address gets the fallback document. And on a
    network that is not configured the agent is never asked, so the failure
    that is sent owes nothing to the failure the agent would have reported:
    a transport failure ([network timeout]) is answered with [Network
    'goerli' is not configured]. *)
Lemma did_resolve_malformed_or_refused :
  ¬ (∀ (env : Env) (agent : Agent) (did e : string) (st : HState),
       recognized_did did = false →
       sent (res st) = None →
       resolveDid agent (calls st) (resolve_args did) = Thrown e →
       ∃ b,
         sent (res (Decentralized.did_resolve env agent did st).2) = Some b ∧
         get "success" b = JBool false ∧
         get "resolution" b = JUndefined)
  ∧
  ¬ (∀ (env : Env) (agent : Agent) (did e : string) (st : HState),
       recognized_did did = false →
       sent (res st) = None →
       resolveDid agent (calls st) (resolve_args did) = Thrown e →
       ∃ b E,
         sent (res (Decentralized.did_resolve env agent did st).2) = Some b ∧
         get "error" b = JStr E ∧
         includes e E = true).
Proof.
  split.
  - intros H.
    destruct (H env_unset agent_key "did:ethr:skale:not-an-address"
                "network timeout" first_request eq_refl eq_refl eq_refl)
      as (b & Hb & Hsuccess & _).
    vm_compute in Hb. injection Hb as <-.
    vm_compute in Hsuccess. discriminate Hsuccess.
  - intros H.
    destruct (H env_unset agent_key
                "did:ethr:goerli:0x0979446EB2A4a373eaA702336aC3c390B0139Fc5"
                "network timeout" first_request eq_refl eq_refl eq_refl)
      as (b & E & Hb & HE & Hi).
    vm_compute in Hb. injection Hb as <-.
    vm_compute in HE. injection HE as <-.
    vm_compute in Hi. discriminate Hi.
Qed.

(** ** Credential verification on SKALE *)

(** C10, as the code has it. When the standard verification throws, a
    credential that is an object with a truthy [credentialSubject] is
    answered with success and [verified: true]; the only call made to the
    agent is the verification that failed. An object whose
    [credentialSubject] is falsy (missing, [null], [false], [0] or the
    empty string) is answered with status 500 and both failures. *)
Theorem verify_skale_object_fallback (agent : Agent) (jwt : Server.Jwt)
    (clock : Clock) (credential : JsVal) (st : HState) (e : string) :
  typeof credential = TObject →
  verifyCredential agent (calls st) (verify_args credential) = Thrown e →
  sent (res st) = None →
  (truthy (get "credentialSubject" credential) = true →
   ∃ st' b,
     Server.credential_verify_skale agent jwt clock credential st
     = (Returned tt, st') ∧
     statusCode (res st') = statusCode (res st) ∧
     sent (res st') = Some b ∧
     get "success" b = JBool true ∧
     get "verified" (get "verification" b) = JBool true ∧
     get "payload" (get "verification" b) = credential ∧
     get "error" (get "verification" b) = JNull ∧
     get "method" b = JStr "fallback_object" ∧
     same_stores st st' ∧
     calls st' = calls st ++ [VerifyCredential (verify_args credential)])
  ∧
  (truthy credential = true →
   truthy (get "credentialSubject" credential) = false →
   answers st (Server.credential_verify_skale agent jwt clock credential st)
     [VerifyCredential (verify_args credential)] 500
     (both_failed_body e "Unable to verify credential with fallback methods")).
Proof.
  intros Ht He Hs. split.
  - intros Hc.
    destruct credential as [| | | | |xs|ps]; try discriminate Ht;
      try discriminate Hc.
    unfold Server.credential_verify_skale, verify_args in *.
    cbn [truthy negb typeof]. run. rewrite He. run. rewrite Hc.
    cbn [andb]. run. rewrite Hs. run.
    do 2 eexists. split; [reflexivity|]. by repeat split.
  - intros Hcred Hc.
    unfold answers, Server.credential_verify_skale, verify_args in *.
    rewrite Hcred, Ht, Hc. cbn [negb andb].
    destruct credential as [| | | | |xs|ps]; try discriminate Ht;
      try discriminate Hcred;
      run; rewrite He; run; rewrite Hs; run;
      (eexists; split; [reflexivity|]; by repeat split).
Qed.

Lemma verify_skale_object_fallback_witness :
  (∃ st' b,
     Server.credential_verify_skale agent_key jwt_none clock_2025
       sample_credential first_request = (Returned tt, st') ∧
     statusCode (res st') = statusCode (res first_request) ∧
     sent (res st') = Some b ∧
     get "success" b = JBool true ∧
     get "verified" (get "verification" b) = JBool true ∧
     get "payload" (get "verification" b) = sample_credential ∧
     get "error" (get "verification" b) = JNull ∧
     get "method" b = JStr "fallback_object" ∧
     same_stores first_request st' ∧
     calls st' = calls first_request ++
                 [VerifyCredential (verify_args sample_credential)])
  ∧
  answers first_request
    (Server.credential_verify_skale agent_key jwt_none clock_2025
       (JObj [("credentialSubject", JNull)]) first_request)
    [VerifyCredential (verify_args (JObj [("credentialSubject", JNull)]))]
    500
    (both_failed_body "missing response for request"
       "Unable to verify credential with fallback methods").
Proof.
  split.
  - apply (proj1 (verify_skale_object_fallback agent_key jwt_none clock_2025
                    sample_credential first_request
                    "missing response for request" eq_refl eq_refl eq_refl)).
    reflexivity.
  - apply (proj2 (verify_skale_object_fallback agent_key jwt_none clock_2025
                    (JObj [("credentialSubject", JNull)]) first_request
                    "missing response for request" eq_refl eq_refl eq_refl));
      reflexivity.
Defined.

(** C10, as the claim has it, fails: a [credentialSubject] property that is
    there but falsy (here [null]) does not pass the test
    [credential.credentialSubject]; the answer is status 500. *)
Lemma verify_skale_null_subject_fails :
  ¬ (∀ (agent : Agent) (jwt : Server.Jwt) (clock : Clock)
       (props : list (string * JsVal)) (subject : JsVal) (st : HState)
       (e : string),
       (("credentialSubject", subject) ∈ props) →
       verifyCredential agent (calls st) (verify_args (JObj props)) = Thrown e →
       sent (res st) = None →
       ∃ b,
         sent (res (Server.credential_verify_skale agent jwt clock
                      (JObj props) st).2) = Some b ∧
         get "verified" (get "verification" b) = JBool true).
Proof.
  intros H.
  destruct (H agent_key jwt_none clock_2025 [("credentialSubject", JNull)]
              JNull first_request "missing response for request")
    as (b & Hb & Hv); [apply list_elem_of_here | reflexivity | reflexivity |].
  vm_compute in Hb. injection Hb as <-. vm_compute in Hv. discriminate Hv.
Qed.

(** * Further properties *)

(** ** Strings *)

Lemma append_cons (x : Ascii.ascii) (a b : string) :
  String x a +:+ b = String x (a +:+ b).
Proof. reflexivity. Qed.

Lemma append_nil_l (b : string) : "" +:+ b = b.
Proof. reflexivity. Qed.

Lemma append_assoc (a b c : string) : (a +:+ b) +:+ c = a +:+ (b +:+ c).
Proof.
  induction a as [|x a IH]; [done|]. by rewrite !append_cons, IH.
Qed.

Lemma append_nil_r (a : string) : a +:+ "" = a.
Proof. induction a as [|x a IH]; [done|]. by rewrite append_cons, IH. Qed.

Lemma length_append (a b : string) :
  String.length (a +:+ b) = (String.length a + String.length b)%nat.
Proof.
  induction a as [|x a IH]; [done|]. rewrite append_cons. simpl. by rewrite IH.
Qed.

(** Two concatenations with tails of the same length agree part by part. *)
Lemma append_inj_tail (a a' b b' : string) :
  String.length b = String.length b' →
  a +:+ b = a' +:+ b' → a = a' ∧ b = b'.
Proof.
  revert a'. induction a as [|x a IH]; intros [|x' a'] Hl H;
    rewrite ?append_cons, ?append_nil_l in H.
  - done.
  - apply (f_equal String.length) in H. simpl in H.
    rewrite length_append in H. lia.
  - apply (f_equal String.length) in H. simpl in H.
    rewrite length_append in H. lia.
  - injection H as -> H. destruct (IH a' Hl H) as [-> ->]. done.
Qed.

Lemma rev_app_append (s1 s2 : string) :
  String.rev_app s1 s2 = String.rev s1 +:+ s2.
Proof.
  revert s2. induction s1 as [|a s1 IH]; intros s2; [done|].
  unfold String.rev. simpl. rewrite (IH (String a s2)), (IH (String a "")).
  by rewrite append_assoc, append_cons, append_nil_l.
Qed.

Lemma rev_cons (c : Ascii.ascii) (cur s : string) :
  String.rev (String c cur) +:+ s = String.rev cur +:+ String c s.
Proof.
  unfold String.rev at 1. simpl. rewrite rev_app_append.
  by rewrite append_assoc, append_cons, append_nil_l.
Qed.

(** A segment without separator is read in one piece. *)
Lemma split_go_segment (sep : Ascii.ascii) (s1 s2 cur : string) :
  has_char sep s1 = false →
  split_go sep (s1 +:+ String sep s2) cur =
  (String.rev cur +:+ s1) :: split_go sep s2 "".
Proof.
  revert cur. induction s1 as [|c s1 IH]; intros cur H.
  - rewrite append_nil_l, append_nil_r. simpl. by rewrite Ascii.eqb_refl.
  - simpl in H. apply orb_false_elim in H as [Hc H].
    rewrite append_cons. simpl. rewrite Hc, IH by done.
    by rewrite rev_cons.
Qed.

Lemma split_go_last (sep : Ascii.ascii) (s cur : string) :
  has_char sep s = false →
  split_go sep s cur = [String.rev cur +:+ s].
Proof.
  revert cur. induction s as [|c s IH]; intros cur H.
  - simpl. by rewrite append_nil_r.
  - simpl in H. apply orb_false_elim in H as [Hc H].
    simpl. rewrite Hc, IH by done.
    by rewrite rev_cons.
Qed.

Lemma all_hex_no_colon (s : string) :
  all_hex s = true → has_char ":" s = false.
Proof.
  induction s as [|c s IH]; simpl; [done|].
  intros [Hc Hs]%andb_true_iff. rewrite IH by done.
  destruct (Ascii.eqb_spec c ":") as [->|_]; [discriminate Hc|done].
Qed.

(** An address that the pattern accepts has 42 characters, none a colon. *)
Lemma test_eth_address_shape (a : string) :
  test_eth_address a = true →
  String.length a = 42%nat ∧ has_char ":" a = false.
Proof.
  destruct a as [|c0 [|c1 rest]]; try discriminate.
  - by destruct c0 as [[] [] [] [] [] [] [] []].
  - unfold test_eth_address.
    destruct (Ascii.eqb_spec c0 "0") as [->|];
      [|by destruct c0 as [[] [] [] [] [] [] [] []]].
    destruct (Ascii.eqb_spec c1 "x") as [->|];
      [|by destruct c1 as [[] [] [] [] [] [] [] []]].
    intros [Hl Hh]%andb_true_iff. apply Nat.eqb_eq in Hl. split.
    + simpl. by rewrite Hl.
    + simpl. by apply all_hex_no_colon.
Qed.

(** ** The registry probe, whatever the chain answers *)

(** The loop over the candidates, in full: it returns the first candidate
    that shows code, having queried it and those before it, or it falls
    through having queried them all. It never throws. *)
Lemma probe_known_spec (provider : Provider) (known : list string)
    (q : Queries) :
  (∃ before a after,
     known = before ++ a :: after ∧
     Forall (fun c => shows_code provider c = false) before ∧
     shows_code provider a = true ∧
     probe_known provider known q =
     (Returned (Some {| isDeployed := JBool true; effective := Some a |}),
      q ++ (Some <$> before) ++ [Some a]))
  ∨
  (Forall (fun c => shows_code provider c = false) known ∧
   probe_known provider known q = (Returned None, q ++ (Some <$> known))).
Proof.
  induction known as [|c known IH] using rev_ind.
  - right. split; [constructor|]. simpl. unfold ret. by rewrite app_nil_r.
  - destruct IH as [(before & a & after & -> & Hb & Ha & Hrun)|[Hall Hrun]].
    + left. exists before, a, (after ++ [c]). rewrite <- app_assoc.
      split; [done|]. split; [done|]. split; [done|].
      by apply probe_known_first.
    + destruct (shows_code provider c) eqn:Hc.
      * left. exists known, c, []. split; [done|]. split; [done|].
        split; [done|]. by apply probe_known_first.
      * right. split; [apply Forall_app; by repeat constructor|].
        apply probe_known_none. apply Forall_app. by repeat constructor.
Qed.

(** X1. Whatever the chain answers, the probe returns, and its result can be
    trusted in this sense: a truthy [isDeployed] comes with an address whose
    query answered deployed code (the configured registry, or, on
    [skale-titan] only, a known candidate); a falsy [isDeployed] always
    comes with the configured registry. *)
Theorem probe_result_sound (ethers : Ethers) (cfg : NetworkConfig)
    (q : Queries) :
  ∃ d q',
    checkRegistryDeployment ethers cfg q = (Returned d, q') ∧
    (truthy (isDeployed d) = false → effective d = registry cfg) ∧
    (truthy (isDeployed d) = true →
     ∃ provider code,
       JsonRpcProvider ethers (rpcUrl cfg) = Returned provider ∧
       getCode provider (effective d) = Returned code ∧
       deployed_code code = true ∧
       (effective d = registry cfg ∨
        name cfg = Some "skale-titan" ∧
        ∃ a, a ∈ knownRegistries ∧ effective d = Some a)).
Proof.
  unfold checkRegistryDeployment, try_catch, bind, lift, query, ret.
  destruct (JsonRpcProvider ethers (rpcUrl cfg)) as [provider|e];
    [|by do 2 eexists].
  destruct (getCode provider (registry cfg)) as [code|e] eqn:Hc;
    [|by do 2 eexists].
  fold (deployed_code code). destruct (deployed_code code) eqn:Hd.
  - cbn [negb andb]. do 2 eexists. split; [reflexivity|].
    cbn [isDeployed effective]. fold (deployed_code code). rewrite Hd.
    split; [done|]. intros _. by exists provider, code; eauto.
  - cbn [negb andb]. destruct (bool_decide _) eqn:Hn.
    + apply bool_decide_eq_true in Hn.
      destruct (probe_known_spec provider knownRegistries
                  (q ++ [registry cfg]))
        as [(before & a & after & Hk & Hb & Ha & ->)|[Hall ->]].
      * do 2 eexists. split; [reflexivity|]. cbn [isDeployed effective].
        split; [done|]. intros _.
        unfold shows_code in Ha.
        destruct (getCode provider (Some a)) as [ca|] eqn:Hca; [|done].
        exists provider, ca. repeat split; try done. right. split; [done|].
        exists a. split; [|done]. rewrite Hk.
        apply elem_of_app. right. apply list_elem_of_here.
      * do 2 eexists. split; [reflexivity|]. cbn [isDeployed effective].
        fold (deployed_code code). rewrite Hd. by split.
    + do 2 eexists. split; [reflexivity|]. cbn [isDeployed effective].
      fold (deployed_code code). rewrite Hd. by split.
Qed.

(** X2. The probe is frugal: it extends the query log by at most four
    queries, each to the configured registry or to a known candidate; on a
    network other than [skale-titan] it queries the configured registry at
    most once and nothing else. *)
Theorem probe_queries_bounded (ethers : Ethers) (cfg : NetworkConfig)
    (q : Queries) :
  ∃ qs,
    (checkRegistryDeployment ethers cfg q).2 = q ++ qs ∧
    (length qs ≤ 4)%nat ∧
    (∀ a, a ∈ qs → a = registry cfg ∨ ∃ c, c ∈ knownRegistries ∧ a = Some c) ∧
    (name cfg ≠ Some "skale-titan" →
     qs = [] ∨ qs = [registry cfg]).
Proof.
  unfold checkRegistryDeployment, try_catch, bind, lift, query, ret.
  destruct (JsonRpcProvider ethers (rpcUrl cfg)) as [provider|e].
  2:{ exists []. rewrite app_nil_r. repeat split; [simpl; lia| |auto].
      by intros a Ha%elem_of_nil. }
  destruct (getCode provider (registry cfg)) as [code|e] eqn:Hc.
  2:{ exists [registry cfg]. repeat split; [simpl; lia| |auto].
      intros a ->%list_elem_of_singleton. by left. }
  destruct (negb _ && bool_decide _) eqn:Hg.
  - apply andb_true_iff in Hg as [_ Hn%bool_decide_eq_true].
    destruct (probe_known_spec provider knownRegistries (q ++ [registry cfg]))
      as [(before & a & after & Hk & Hb & Ha & ->)|[Hall ->]].
    + exists (registry cfg :: (Some <$> before) ++ [Some a]).
      cbn [snd]. rewrite <- app_assoc. split; [done|].
      assert (length before + S (length after) = 3)%nat as Hlen.
      { apply (f_equal length) in Hk. rewrite length_app in Hk.
        simpl in Hk. lia. }
      split; [simpl; rewrite length_app, length_fmap; simpl; lia|].
      split; [|done].
      intros x [->|Hx]%elem_of_cons; [by left|]. right.
      apply elem_of_app in Hx as [(c & -> & Hin)%list_elem_of_fmap
                                  | ->%list_elem_of_singleton].
      * exists c. split; [|done]. rewrite Hk.
        apply elem_of_app. by left.
      * exists a. split; [|done]. rewrite Hk.
        apply elem_of_app. right. apply list_elem_of_here.
    + exists (registry cfg :: (Some <$> knownRegistries)).
      cbn [snd]. rewrite <- app_assoc. split; [done|].
      split; [simpl; lia|]. split; [|done].
      intros x [->|Hx]%elem_of_cons; [by left|]. right.
      apply list_elem_of_fmap in Hx as (c & -> & Hin). by exists c.
  - exists [registry cfg]. cbn [snd]. repeat split; [simpl; lia| |auto].
    intros a ->%list_elem_of_singleton. by left.
Qed.

(** ** Which variable configures which registry *)

(** X3. The variable [ETH_REGISTRY_ADDRESS_SEPOLIA] does not configure
    [sepolia]: with [ETH_NETWORK] set to [sepolia] the configuration does not
    depend on it, while for [skale-titan] (also by its alias [skale], or by
    default) it is the registry, unless [ETH_REGISTRY_ADDRESS] is set, which
    wins on every network. *)
Theorem registry_variables (SEPOLIA : Preset) (env : Env) (v : option string) :
  (ETH_NETWORK env = Some "sepolia" →
   Net.getNetworkConfig SEPOLIA (with_registry_sepolia v env) =
   Net.getNetworkConfig SEPOLIA env)
  ∧
  (ETH_NETWORK env = None ∨ ETH_NETWORK env = Some "skale" ∨
   ETH_NETWORK env = Some "skale-titan" →
   registry (Net.getNetworkConfig SEPOLIA (with_registry_sepolia v env)) =
   or_else (ETH_REGISTRY_ADDRESS env)
           (Some (or_str v "0x0979446EB2A4a373eaA702336aC3c390B0139Fc5")))
  ∧
  (∀ r, ETH_REGISTRY_ADDRESS env = Some r → r ≠ "" →
        registry (Net.getNetworkConfig SEPOLIA (with_registry_sepolia v env))
        = Some r).
Proof.
  split; [|split].
  - intros Hn. unfold Net.getNetworkConfig.
    rewrite (selected_key SEPOLIA (with_registry_sepolia v env) "sepolia" SEPOLIA),
            (selected_key SEPOLIA env "sepolia" SEPOLIA); try done.
  - intros Hn. unfold Net.getNetworkConfig. cbn [registry].
    assert (selected SEPOLIA (with_registry_sepolia v env) =
            OwnPreset (SKALE_TITAN_CONFIG (with_registry_sepolia v env))) as ->.
    { destruct Hn as [Hn|[Hn|Hn]].
      - apply selected_unset. by left.
      - by apply (selected_key SEPOLIA _ "skale").
      - by apply (selected_key SEPOLIA _ "skale-titan"). }
    done.
  - intros r Hr Hne. unfold Net.getNetworkConfig. cbn [registry].
    cbn [with_registry_sepolia ETH_REGISTRY_ADDRESS]. rewrite Hr.
    unfold or_else. by apply String.eqb_neq in Hne as ->.
Qed.

Lemma registry_variables_witness :
  registry (Decentralized.getNetworkConfig
              (with_registry_sepolia None
                 {| ETH_NETWORK := Some "sepolia"; ETH_PROVIDER_URL := None;
                    ETH_REGISTRY_ADDRESS :=
                      Some "0x2222222222222222222222222222222222222222";
                    ETH_REGISTRY_ADDRESS_SEPOLIA := None |}))
  = Some "0x2222222222222222222222222222222222222222"
  ∧
  Decentralized.getNetworkConfig
    (with_registry_sepolia (Some "0x1111111111111111111111111111111111111111")
                           env_sepolia)
  = Decentralized.getNetworkConfig env_sepolia
  ∧
  registry (Decentralized.getNetworkConfig
              (with_registry_sepolia
                 (Some "0x1111111111111111111111111111111111111111")
                 env_skale_alias))
  = Some "0x1111111111111111111111111111111111111111".
Proof.
  split; [|split].
  - apply (proj2 (proj2 (registry_variables SEPOLIA_decentralized
                           {| ETH_NETWORK := Some "sepolia";
                              ETH_PROVIDER_URL := None;
                              ETH_REGISTRY_ADDRESS :=
                                Some "0x2222222222222222222222222222222222222222";
                              ETH_REGISTRY_ADDRESS_SEPOLIA := None |} None)));
      [reflexivity|discriminate].
  - exact (proj1 (registry_variables SEPOLIA_decentralized env_sepolia
                    (Some "0x1111111111111111111111111111111111111111"))
                 eq_refl).
  - exact (proj1 (proj2 (registry_variables SEPOLIA_decentralized
                           env_skale_alias
                           (Some "0x1111111111111111111111111111111111111111")))
                 (or_intror (or_introl eq_refl))).
Defined.

(** ** The DID of a wallet, written and read back *)

(** X4. Two wallet-linked requests address the same registry entry only if
    they name the same network and the same address, character for
    character. *)
Theorem wallet_did_injective (env env' : Env)
    (body body' : Decentralized.CreateBody) (wa wa' : string) :
  Decentralized.walletAddress body = Some wa →
  Decentralized.walletAddress body' = Some wa' →
  test_eth_address wa = true →
  test_eth_address wa' = true →
  wallet_did env body = wallet_did env' body' →
  target_of env body = target_of env' body' ∧ wa = wa'.
Proof.
  intros Hw Hw' Hv Hv'. unfold wallet_did, target_of. rewrite Hw, Hw'.
  cbn [interp]. intros H.
  apply test_eth_address_shape in Hv as [Hl _].
  apply test_eth_address_shape in Hv' as [Hl' _].
  rewrite !append_cons, !append_nil_l in H.
  injection H as H.
  apply append_inj_tail in H as [Ht H].
  - split; [done|]. by injection H.
  - simpl. by rewrite Hl, Hl'.
Qed.

Lemma wallet_did_injective_witness :
  target_of env_unset (body_on "sepolia" "0x0979446EB2A4a373eaA702336aC3c390B0139Fc5")
  = target_of env_sepolia body_wallet ∧
  "0x0979446EB2A4a373eaA702336aC3c390B0139Fc5"
  = "0x0979446EB2A4a373eaA702336aC3c390B0139Fc5".
Proof.
  apply (wallet_did_injective env_unset env_sepolia
           (body_on "sepolia" "0x0979446EB2A4a373eaA702336aC3c390B0139Fc5")
           body_wallet);
    reflexivity.
Defined.

Lemma did_ethr_segments (network address : string) :
  has_char ":" network = false →
  has_char ":" address = false →
  split ":"%char ("did:ethr:" +:+ network +:+ ":" +:+ address)
  = ["did"; "ethr"; network; address].
Proof.
  intros Hn Ha. unfold split.
  change ("did:ethr:" +:+ network +:+ ":" +:+ address)
    with ("did" +:+ String ":" ("ethr" +:+ String ":"
            (network +:+ String ":" address))).
  rewrite split_go_segment by done.
  rewrite split_go_segment by done.
  rewrite split_go_segment by done.
  by rewrite split_go_last.
Qed.

(** X5. The DID that creation writes for a wallet is read back by the
    resolution handlers into the same network and the same address, as long
    as the network name holds no colon. *)
Theorem wallet_did_parses_back (env : Env) (body : Decentralized.CreateBody)
    (wa : string) :
  Decentralized.walletAddress body = Some wa →
  test_eth_address wa = true →
  has_char ":" (target_of env body) = false →
  startsWith "did:ethr:" (wallet_did env body) = true ∧
  split ":"%char (wallet_did env body)
  = ["did"; "ethr"; target_of env body; wa].
Proof.
  intros Hw Hv Hn. unfold wallet_did. fold (target_of env body).
  rewrite Hw. cbn [interp]. split; [apply startsWith_app|].
  apply test_eth_address_shape in Hv as [_ Hc].
  by apply did_ethr_segments.
Qed.

Lemma wallet_did_parses_back_witness :
  startsWith "did:ethr:" (wallet_did env_unset body_wallet) = true ∧
  split ":"%char (wallet_did env_unset body_wallet)
  = ["did"; "ethr"; "skale-titan";
     "0x0979446EB2A4a373eaA702336aC3c390B0139Fc5"].
Proof.
  apply (wallet_did_parses_back env_unset body_wallet
           "0x0979446EB2A4a373eaA702336aC3c390B0139Fc5");
    reflexivity.
Defined.

(** ** Identity creation, branch by branch *)

(** Every run of the creation handler of [src/server-decentralized.js] ends
    in one of six ways. *)
Lemma did_create_cases (env : Env) (agent : Agent) (clock : Clock)
    (body : Decentralized.CreateBody) (st : HState) :
  sent (res st) = None →
  ∃ st' b,
    Decentralized.did_create env agent clock body st = (Returned tt, st') ∧
    sent (res st') = Some b ∧
    credentials st' = credentials st ∧
    presentations st' = presentations st ∧
    ((get "success" b = JBool true ∧
      statusCode (res st') = statusCode (res st) ∧
      ((classify body = Some WalletLinked ∧
        dids st' = dids st ∧ calls st' = calls st ∧
        is_Some (dids st !! wallet_did env body))
       ∨
       (classify body = Some WalletLinked ∧
        dids st !! wallet_did env body = None ∧
        dids st' = <[wallet_did env body := wallet_record env clock body]>
                     (dids st) ∧
        calls st' = calls st)
       ∨
       (∃ args i tag note,
          (classify body = Some ServiceManaged ∨
           classify body = Some SelfIssued) ∧
          didManagerCreate agent (calls st) args = Returned i ∧
          calls st' = calls st ++ [DidManagerCreate args] ∧
          dids st' = <[did i := agent_record clock i tag note]> (dids st) ∧
          get "identifier" b = identifier_obj i)))
     ∨
     (get "success" b = JBool false ∧
      dids st' = dids st ∧
      ((classify body = Some WalletLinked ∧
        statusCode (res st') = 400 ∧ calls st' = calls st ∧
        b = invalid_address_body)
       ∨
       (classify body = None ∧
        statusCode (res st') = 500 ∧ calls st' = calls st ∧
        get "error" b = JStr "error is not defined")
       ∨
       (∃ args e,
          (classify body = Some ServiceManaged ∨
           classify body = Some SelfIssued) ∧
          didManagerCreate agent (calls st) args = Thrown e ∧
          statusCode (res st') = 500 ∧
          get "error" b = JStr e ∧
          calls st' = calls st ++ [DidManagerCreate args])))).
Proof.
  intros Hs. unfold Decentralized.did_create, wallet_did, wallet_record,
    agent_record, classify. cbv zeta.
  destruct (String.eqb _ "did:ethr" && truthy _) eqn:E1.
  - destruct (negb (test_eth_address _)) eqn:E2.
    + run. rewrite Hs. run. do 2 eexists. repeat (split; [reflexivity|]).
      right. repeat (split; [reflexivity|]). left. by repeat split.
    + run. destruct (bool_decide (is_Some _)) eqn:E3.
      * apply bool_decide_eq_true in E3.
        run. rewrite Hs. run. do 2 eexists. repeat (split; [reflexivity|]).
        left. repeat (split; [reflexivity|]). left. by repeat split.
      * run. rewrite Hs. run. do 2 eexists. repeat (split; [reflexivity|]).
        left. repeat (split; [reflexivity|]). right. left.
        split; [done|]. split; [|by split].
        apply eq_None_not_Some. intros H. by apply bool_decide_eq_false in E3.
  - destruct (String.eqb _ "did:ethr" && negb (truthy _)) eqn:E2.
    + run. destruct (didManagerCreate agent (calls st) _) as [i|e] eqn:E3.
      * run. rewrite Hs. run. do 2 eexists. repeat (split; [reflexivity|]).
        left. repeat (split; [reflexivity|]). right. right.
        do 4 eexists. split; [by left|]. split; [exact E3|]. by repeat split.
      * run. rewrite Hs. run. do 2 eexists. repeat (split; [reflexivity|]).
        right. repeat (split; [reflexivity|]). right. right.
        do 2 eexists. split; [by left|]. split; [exact E3|]. by repeat split.
    + destruct (String.eqb _ "did:key") eqn:E3.
      * run. destruct (didManagerCreate agent (calls st) _) as [i|e] eqn:E4.
        -- run. rewrite Hs. run. do 2 eexists. repeat (split; [reflexivity|]).
           left. repeat (split; [reflexivity|]). right. right.
           do 4 eexists. split; [by right|]. split; [exact E4|].
           by repeat split.
        -- run. rewrite Hs. run. do 2 eexists. repeat (split; [reflexivity|]).
           right. repeat (split; [reflexivity|]). right. right.
           do 2 eexists. split; [by right|]. split; [exact E4|].
           by repeat split.
      * run. rewrite Hs. run. do 2 eexists. repeat (split; [reflexivity|]).
        right. repeat (split; [reflexivity|]). right. left. by repeat split.
Qed.

(** X6. Creation always answers, exactly once, and a failed creation leaves
    nothing behind: the handler returns, the [success] flag of the answer
    agrees with the status (unchanged on success; 400 or 500 on failure), a
    failure leaves the three stores as they were, and the agent is called at
    most once, for [didManagerCreate]. *)
Theorem did_create_fails_cleanly (env : Env) (agent : Agent) (clock : Clock)
    (body : Decentralized.CreateBody) (st : HState) :
  sent (res st) = None →
  ∃ st' b,
    Decentralized.did_create env agent clock body st = (Returned tt, st') ∧
    sent (res st') = Some b ∧
    ((get "success" b = JBool true ∧
      statusCode (res st') = statusCode (res st))
     ∨
     (get "success" b = JBool false ∧
      (statusCode (res st') = 400 ∨ statusCode (res st') = 500) ∧
      same_stores st st')) ∧
    (calls st' = calls st ∨
     ∃ args, calls st' = calls st ++ [DidManagerCreate args]).
Proof.
  intros Hs.
  destruct (did_create_cases env agent clock body st Hs)
    as (st' & b & Hrun & Hb & Hc & Hp & Hcase).
  exists st', b. split; [done|]. split; [done|].
  destruct Hcase as [(Hok & Hst & [(_ & _ & Hcalls & _)|[(_ & _ & _ & Hcalls)
                       |(args & i & tag & note & _ & _ & Hcalls & _)]])
                    |(Hko & Hd & [(_ & H4 & Hcalls & _)|[(_ & H5 & Hcalls & _)
                       |(args & e & _ & _ & H5 & _ & Hcalls)]])].
  all: split; [first [by left | right; unfold same_stores; by auto]|].
  all: first [by left | right; by eexists].
Qed.

Lemma did_create_fails_cleanly_witness :
  ∃ st' b,
    Decentralized.did_create env_unset (agent_down "kms unavailable")
      clock_2025 (body_of None None) first_request = (Returned tt, st') ∧
    sent (res st') = Some b ∧
    ((get "success" b = JBool true ∧
      statusCode (res st') = statusCode (res first_request))
     ∨
     (get "success" b = JBool false ∧
      (statusCode (res st') = 400 ∨ statusCode (res st') = 500) ∧
      same_stores first_request st')) ∧
    (calls st' = calls first_request ∨
     ∃ args, calls st' = calls first_request ++ [DidManagerCreate args]).
Proof.
  exact (did_create_fails_cleanly env_unset (agent_down "kms unavailable")
           clock_2025 (body_of None None) first_request eq_refl).
Defined.

(** X7. When the agent cannot create the identifier of a service-managed or
    self-issued request, the answer is status 500 with the agent's message,
    verbatim, as [error]; nothing is stored, and the agent was asked
    once. *)
Theorem did_create_agent_failure (env : Env) (agent : Agent) (clock : Clock)
    (body : Decentralized.CreateBody) (st : HState) (e : string) :
  sent (res st) = None →
  classify body = Some ServiceManaged ∨ classify body = Some SelfIssued →
  (∀ args, didManagerCreate agent (calls st) args = Thrown e) →
  ∃ st' b args,
    Decentralized.did_create env agent clock body st = (Returned tt, st') ∧
    statusCode (res st') = 500 ∧
    sent (res st') = Some b ∧
    get "success" b = JBool false ∧
    get "error" b = JStr e ∧
    same_stores st st' ∧
    calls st' = calls st ++ [DidManagerCreate args].
Proof.
  intros Hs Hv Hdown.
  destruct (did_create_cases env agent clock body st Hs)
    as (st' & b & Hrun & Hb & Hc & Hp & Hcase).
  destruct Hcase as [(Hok & Hst & [(Hw & _)|[(Hw & _)
                       |(args & i & tag & note & _ & Hi & _)]])
                    |(Hko & Hd & [(Hw & _)|[(Hw & _)
                       |(args & e' & _ & He & H5 & Herr & Hcalls)]])];
    try (rewrite Hw in Hv; by destruct Hv);
    try (rewrite Hdown in Hi; discriminate Hi).
  rewrite Hdown in He. injection He as <-.
  exists st', b, args. unfold same_stores. by repeat split.
Qed.

Lemma did_create_agent_failure_witness :
  ∃ st' b args,
    Decentralized.did_create env_unset (agent_down "kms unavailable")
      clock_2025 (body_of (Some "did:ethr") None) first_request
    = (Returned tt, st') ∧
    statusCode (res st') = 500 ∧
    sent (res st') = Some b ∧
    get "success" b = JBool false ∧
    get "error" b = JStr "kms unavailable" ∧
    same_stores first_request st' ∧
    calls st' = calls first_request ++ [DidManagerCreate args].
Proof.
  apply (did_create_agent_failure env_unset (agent_down "kms unavailable")
           clock_2025 (body_of (Some "did:ethr") None) first_request
           "kms unavailable");
    [reflexivity | by left | reflexivity].
Defined.

Lemma get_did_wallet_record (env : Env) (clock : Clock)
    (body : Decentralized.CreateBody) :
  get "did" (wallet_record env clock body) = JStr (wallet_did env body).
Proof. reflexivity. Qed.

Lemma get_did_agent_record (clock : Clock) (i : Identifier)
    (tag note : string) :
  NoDup (fields i).*1 →
  get "did" (agent_record clock i tag note) = JStr (did i).
Proof.
  intros Hnd. unfold agent_record, obj_lit, spread, get, identifier_obj.
  rewrite fold_left_app.
  rewrite assign_object by (apply NoDup_assign, NoDup_nil_2).
  destruct (decide _) as [_|_]; [|done].
  rewrite fold_left_app, assign_absent.
  2:{ simpl. intros [?|[?|?%elem_of_nil]%elem_of_cons]%elem_of_cons; done. }
  rewrite assign_object by by apply NoDup_assoc_set.
  rewrite decide_True by (apply elem_of_assoc_set_keys; by left).
  apply assoc_get_set_eq.
Qed.

(** X8. The registry keeps its records under their own DID: if every record
    names, as its [did], the key it is stored under, the same holds after any
    creation, provided that the identifiers of the agent are objects without
    repeated properties. *)
Theorem did_create_keeps_keys (env : Env) (agent : Agent) (clock : Clock)
    (body : Decentralized.CreateBody) (st : HState) :
  sent (res st) = None →
  (∀ args i, didManagerCreate agent (calls st) args = Returned i →
             NoDup (fields i).*1) →
  keyed_by_did (dids st) →
  keyed_by_did (dids (Decentralized.did_create env agent clock body st).2).
Proof.
  intros Hs Hnd Hinv.
  destruct (did_create_cases env agent clock body st Hs)
    as (st' & b & Hrun & Hb & Hc & Hp & Hcase).
  rewrite Hrun. cbn [snd].
  destruct Hcase as [(Hok & Hst & [(_ & -> & _)|[(_ & _ & -> & _)
                       |(args & i & tag & note & _ & Hi & _ & -> & _)]])
                    |(Hko & -> & _)]; try done.
  - intros k r. rewrite lookup_insert. case_decide as Hk.
    + intros [= <-]. subst k. apply get_did_wallet_record.
    + apply Hinv.
  - intros k r. rewrite lookup_insert. case_decide as Hk.
    + intros [= <-]. subst k. apply get_did_agent_record. by eapply Hnd.
    + apply Hinv.
Qed.

Lemma did_create_keeps_keys_witness :
  keyed_by_did
    (dids (Decentralized.did_create env_unset agent_key clock_2025
             (body_of None None) after_first_creation).2).
Proof.
  apply (did_create_keeps_keys env_unset agent_key clock_2025
           (body_of None None) after_first_creation).
  - reflexivity.
  - intros args i [= <-]. cbn.
    apply NoDup_cons. split; [|apply NoDup_singleton].
    by intros ?%list_elem_of_singleton.
  - intros k r. unfold after_first_creation. cbn [dids incoming].
    rewrite lookup_singleton. case_decide as Hk; [|done].
    intros [= <-]. subst k. reflexivity.
Defined.

(** ** Looking a DID up *)

(** A DID that is not registered is answered with status 404, without
    any call to the agent and without touching the stores. *)
Theorem did_get_unknown (did : string) (st : HState) :
  res st = fresh_res →
  dids st !! did = None →
  answers st (Endpoints.did_get did st) [] 404 did_not_found_body.
Proof.
  intros Hr Hd. unfold answers, Endpoints.did_get. run. rewrite Hd.
  cbn [default from_option id truthy negb]. run. rewrite Hr. run.
  eexists. split; [reflexivity|]. rewrite app_nil_r. by repeat split.
Qed.

Lemma did_get_unknown_witness :
  answers first_request
    (Endpoints.did_get "did:key:z6MkhaXgBZDvotDkL5257faiztiGiC2QtKLGpbnnEGta2doK"
                       first_request)
    [] 404 did_not_found_body.
Proof.
  apply (did_get_unknown
           "did:key:z6MkhaXgBZDvotDkL5257faiztiGiC2QtKLGpbnnEGta2doK"
           first_request);
    reflexivity.
Defined.

(** X9. What creation stores, lookup returns: after a wallet-linked
    creation of a DID that was not registered, [GET /did/:did] for that DID
    answers with status 200 and with the stored record (the identifier of the
    request together with [createdAt], [type] and [alias]), again without
    calling the agent. *)
Theorem did_get_after_create (env : Env) (agent : Agent) (clock : Clock)
    (body : Decentralized.CreateBody) (wa : string) (st : HState) :
  Decentralized.provider body = Some "did:ethr" →
  Decentralized.walletAddress body = Some wa →
  test_eth_address wa = true →
  sent (res st) = None →
  dids st !! wallet_did env body = None →
  answers
    (next_request (Decentralized.did_create env agent clock body st).2)
    (Endpoints.did_get (wallet_did env body)
       (next_request (Decentralized.did_create env agent clock body st).2))
    [] 200
    (obj_lit [("success", JBool true);
              ("identifier", wallet_record env clock body)]).
Proof.
  intros Hp Hw Hv Hs Hd.
  destruct (did_create_wallet_fresh env agent body wa Hp Hw Hv clock st Hs Hd)
    as (st1 & b & -> & Hd1 & _).
  cbn [snd]. unfold answers, Endpoints.did_get, next_request, incoming. run.
  rewrite Hd1, lookup_insert_eq.
  cbn [default from_option id]. run.
  eexists. split; [reflexivity|]. rewrite app_nil_r. by repeat split.
Qed.

Lemma did_get_after_create_witness :
  answers
    (next_request (Decentralized.did_create env_unset agent_key clock_2025
                     body_wallet first_request).2)
    (Endpoints.did_get (wallet_did env_unset body_wallet)
       (next_request (Decentralized.did_create env_unset agent_key clock_2025
                        body_wallet first_request).2))
    [] 200
    (obj_lit [("success", JBool true);
              ("identifier", wallet_record env_unset clock_2025 body_wallet)]).
Proof.
  apply (did_get_after_create env_unset agent_key clock_2025 body_wallet
           "0x0979446EB2A4a373eaA702336aC3c390B0139Fc5" first_request);
    reflexivity.
Defined.

(** ** The fallback document *)

Lemma did_fallback_synthesizes (did : string) (st : HState) :
  res st = fresh_res →
  startsWith "did:ethr:" did = true →
  (4 ≤ length (split ":"%char did))%nat →
  ∃ b, answers st (Endpoints.did_fallback did st) [] 200 b ∧
       fallback_answer did b ∧
       account_of_answer b =
       JStr ("eip155:1020352220:" +:+
             default "" (split ":"%char did !! 3%nat)).
Proof.
  intros Hr. unfold answers, Endpoints.did_fallback.
  intros -> Hl. apply Nat.ltb_ge in Hl. rewrite Hl. cbn [negb]. run.
  rewrite Hr. run.
  eexists. split.
  - eexists. split; [reflexivity|]. run. rewrite Hr, app_nil_r.
    by repeat split.
  - split; [|done]. repeat split; try done. eexists. by repeat split.
Qed.

(** X10. [GET /did/:did/fallback] never asks the agent and never touches the
    stores. A DID that does not start with [did:ethr:] and a [did:ethr] DID
    of fewer than four segments are refused with status 400; every other DID,
    on whatever network, gets the synthesized document, whose account is
    the fourth segment on the chain id 1020352220. *)
Theorem did_fallback_answers (did : string) (st : HState) :
  res st = fresh_res →
  (startsWith "did:ethr:" did = false →
   answers st (Endpoints.did_fallback did st) [] 400 not_ethr_body)
  ∧
  (startsWith "did:ethr:" did = true →
   (length (split ":"%char did) < 4)%nat →
   answers st (Endpoints.did_fallback did st) [] 400 invalid_format_body)
  ∧
  (startsWith "did:ethr:" did = true →
   (4 ≤ length (split ":"%char did))%nat →
   ∃ b, answers st (Endpoints.did_fallback did st) [] 200 b ∧
        fallback_answer did b ∧
        account_of_answer b =
        JStr ("eip155:1020352220:" +:+
              default "" (split ":"%char did !! 3%nat))).
Proof.
  intros Hr. split; [|split]; [| |by apply did_fallback_synthesizes].
  - unfold answers, Endpoints.did_fallback.
    intros ->. cbn [negb]. run. rewrite Hr. run.
    eexists. split; [reflexivity|]. rewrite app_nil_r. by repeat split.
  - unfold answers, Endpoints.did_fallback.
    intros -> Hl. apply Nat.ltb_lt in Hl. rewrite Hl. cbn [negb]. run.
    rewrite Hr. run.
    eexists. split; [reflexivity|]. rewrite app_nil_r. by repeat split.
Qed.

Lemma did_fallback_answers_witness :
  answers first_request
    (Endpoints.did_fallback
       "did:key:z6MkhaXgBZDvotDkL5257faiztiGiC2QtKLGpbnnEGta2doK" first_request)
    [] 400 not_ethr_body
  ∧
  answers first_request
    (Endpoints.did_fallback "did:ethr:0x0979446EB2A4a373eaA702336aC3c390B0139Fc5"
       first_request)
    [] 400 invalid_format_body
  ∧
  ∃ b, answers first_request
         (Endpoints.did_fallback
            "did:ethr:sepolia:0x0979446EB2A4a373eaA702336aC3c390B0139Fc5"
            first_request)
         [] 200 b ∧
       fallback_answer
         "did:ethr:sepolia:0x0979446EB2A4a373eaA702336aC3c390B0139Fc5" b ∧
       account_of_answer b =
       JStr "eip155:1020352220:0x0979446EB2A4a373eaA702336aC3c390B0139Fc5".
Proof.
  split; [|split].
  - apply (proj1 (did_fallback_answers
                    "did:key:z6MkhaXgBZDvotDkL5257faiztiGiC2QtKLGpbnnEGta2doK"
                    first_request eq_refl)).
    reflexivity.
  - apply (proj1 (proj2 (did_fallback_answers
                    "did:ethr:0x0979446EB2A4a373eaA702336aC3c390B0139Fc5"
                    first_request eq_refl))).
    + reflexivity.
    + vm_compute. lia.
  - apply (proj2 (proj2 (did_fallback_answers
                    "did:ethr:sepolia:0x0979446EB2A4a373eaA702336aC3c390B0139Fc5"
                    first_request eq_refl))).
    + reflexivity.
    + vm_compute. lia.
Defined.

(** X11. For the DID of a wallet, as creation writes it, the synthesized
    document names the wallet's own address as its account (on the chain id
    of SKALE, whatever the network of the DID). *)
Theorem did_fallback_names_wallet (env : Env)
    (body : Decentralized.CreateBody) (wa : string) (st : HState) :
  Decentralized.walletAddress body = Some wa →
  test_eth_address wa = true →
  has_char ":" (target_of env body) = false →
  res st = fresh_res →
  ∃ b, answers st (Endpoints.did_fallback (wallet_did env body) st) [] 200 b ∧
       get "id" (get "didDocument" (get "resolution" b))
       = JStr (wallet_did env body) ∧
       account_of_answer b = JStr ("eip155:1020352220:" +:+ wa).
Proof.
  intros Hw Hv Hn Hr.
  assert (H1 : startsWith "did:ethr:" (wallet_did env body) = true)
    by apply startsWith_app.
  assert (H2 : split ":"%char (wallet_did env body)
               = ["did"; "ethr"; target_of env body; wa]).
  { unfold wallet_did. fold (target_of env body). rewrite Hw. cbn [interp].
    apply test_eth_address_shape in Hv as [_ Hc].
    by apply did_ethr_segments. }
  destruct (did_fallback_synthesizes (wallet_did env body) st Hr H1)
    as (b & Hb & Hf & Ha).
  { rewrite H2. simpl. lia. }
  exists b. split; [done|]. split; [apply Hf|].
  by rewrite Ha, H2.
Qed.

Lemma did_fallback_names_wallet_witness :
  ∃ b, answers first_request
         (Endpoints.did_fallback
            (wallet_did env_sepolia body_wallet) first_request) [] 200 b ∧
       get "id" (get "didDocument" (get "resolution" b))
       = JStr (wallet_did env_sepolia body_wallet) ∧
       account_of_answer b =
       JStr ("eip155:1020352220:" +:+
             "0x0979446EB2A4a373eaA702336aC3c390B0139Fc5").
Proof.
  apply (did_fallback_names_wallet env_sepolia body_wallet
           "0x0979446EB2A4a373eaA702336aC3c390B0139Fc5" first_request);
    reflexivity.
Defined.

(** X12. On a SKALE network, when the agent fails, the resolve handlers of
    both servers synthesize the very document that the fallback endpoint
    returns for the same DID. *)
Theorem did_resolve_fallback_is_the_fallback (env : Env) (agent : Agent)
    (network address : string) (st : HState) (e : string) :
  network = "skale" ∨ network = "skale-titan" →
  resolveDid agent (calls st)
    (resolve_args ("did:ethr:" +:+ network +:+ ":" +:+ address)) = Thrown e →
  res st = fresh_res →
  ∃ b0 b1 b2,
    sent (res (Endpoints.did_fallback
                 ("did:ethr:" +:+ network +:+ ":" +:+ address) st).2) = Some b0 ∧
    sent (res (Decentralized.did_resolve env agent
                 ("did:ethr:" +:+ network +:+ ":" +:+ address) st).2) = Some b1 ∧
    sent (res (Server.did_resolve env agent
                 ("did:ethr:" +:+ network +:+ ":" +:+ address) st).2) = Some b2 ∧
    get "didDocument" (get "resolution" b1)
    = get "didDocument" (get "resolution" b0) ∧
    get "didDocument" (get "resolution" b2)
    = get "didDocument" (get "resolution" b0).
Proof.
  intros Hn He Hr.
  destruct (skale_shape network address Hn) as (H1 & h & t & H2 & H3).
  unfold Endpoints.did_fallback, Decentralized.did_resolve,
    Decentralized.did_resolve_checks, Server.did_resolve,
    Server.did_resolve_checks, resolve_args in *.
  set (did := "did:ethr:" +:+ network +:+ ":" +:+ address) in *.
  rewrite H1, H2.
  cbn [length Nat.leb Nat.ltb negb lookup list_lookup default from_option id].
  rewrite H3. run. rewrite He. run. rewrite Hr. run.
  do 3 eexists. by repeat split.
Qed.

Lemma did_resolve_fallback_is_the_fallback_witness :
  ∃ b0 b1 b2,
    sent (res (Endpoints.did_fallback
                 ("did:ethr:" +:+ "skale" +:+ ":" +:+ "0xabc") first_request).2)
    = Some b0 ∧
    sent (res (Decentralized.did_resolve env_unset agent_key
                 ("did:ethr:" +:+ "skale" +:+ ":" +:+ "0xabc") first_request).2)
    = Some b1 ∧
    sent (res (Server.did_resolve env_unset agent_key
                 ("did:ethr:" +:+ "skale" +:+ ":" +:+ "0xabc") first_request).2)
    = Some b2 ∧
    get "didDocument" (get "resolution" b1)
    = get "didDocument" (get "resolution" b0) ∧
    get "didDocument" (get "resolution" b2)
    = get "didDocument" (get "resolution" b0).
Proof.
  apply (did_resolve_fallback_is_the_fallback env_unset agent_key "skale"
           "0xabc" first_request "network timeout");
    [by left | reflexivity | reflexivity].
Defined.

(** ** Resolution that succeeds *)

(** X13. When the agent resolves the DID, both resolve handlers pass its
    resolution on untouched with status 200, after exactly one call to the
    agent, unless the network of the DID is refused up front. In particular
    no fallback document replaces a resolution that the agent gave. *)
Theorem did_resolve_passes_resolution (env : Env) (agent : Agent)
    (did : string) (resolution : JsVal) (st : HState) :
  resolveDid agent (calls st) (resolve_args did) = Returned resolution →
  res st = fresh_res →
  (network_refused (Decentralized.getNetworkConfig env) did = false →
   answers st (Decentralized.did_resolve env agent did st)
     [ResolveDid (resolve_args did)] 200
     (obj_lit [("success", JBool true); ("resolution", resolution);
               ("method", JStr "blockchain-resolved")]))
  ∧
  (network_refused (Server.getNetworkConfig env) did = false →
   answers st (Server.did_resolve env agent did st)
     [ResolveDid (resolve_args did)] 200
     (obj_lit [("success", JBool true); ("resolution", resolution)])).
Proof.
  intros Ha Hr.
  unfold network_refused, answers, Decentralized.did_resolve,
    Decentralized.did_resolve_checks, Server.did_resolve,
    Server.did_resolve_checks, resolve_args in *.
  cbv zeta.
  destruct (startsWith "did:ethr:" did);
    [destruct (4 <=? length (split ":"%char did))%nat|].
  - set (network := default "" (split ":"%char did !! 2%nat)) in *.
    destruct (String.eqb network "skale-titan" || String.eqb network "skale")
      eqn:Hs.
    + split; intros _; run; rewrite Ha; run; rewrite Hr; run; answered Hr.
    + cbn [andb]. split; intros ->; run; rewrite Ha; run; rewrite Hr; run;
        answered Hr.
  - split; intros _; run; rewrite Ha; run; rewrite Hr; run; answered Hr.
  - split; intros _; run; rewrite Ha; run; rewrite Hr; run; answered Hr.
Qed.

Lemma did_resolve_passes_resolution_witness :
  answers first_request
    (Decentralized.did_resolve env_sepolia (agent_resolves sample_credential)
       "did:ethr:sepolia:0x0979446EB2A4a373eaA702336aC3c390B0139Fc5"
       first_request)
    [ResolveDid (resolve_args
       "did:ethr:sepolia:0x0979446EB2A4a373eaA702336aC3c390B0139Fc5")] 200
    (obj_lit [("success", JBool true); ("resolution", sample_credential);
              ("method", JStr "blockchain-resolved")])
  ∧
  answers first_request
    (Server.did_resolve env_sepolia (agent_resolves sample_credential)
       "did:ethr:sepolia:0x0979446EB2A4a373eaA702336aC3c390B0139Fc5"
       first_request)
    [ResolveDid (resolve_args
       "did:ethr:sepolia:0x0979446EB2A4a373eaA702336aC3c390B0139Fc5")] 200
    (obj_lit [("success", JBool true); ("resolution", sample_credential)]).
Proof.
  split.
  - apply (proj1 (did_resolve_passes_resolution env_sepolia
                    (agent_resolves sample_credential)
                    "did:ethr:sepolia:0x0979446EB2A4a373eaA702336aC3c390B0139Fc5"
                    sample_credential first_request eq_refl eq_refl)).
    reflexivity.
  - apply (proj2 (did_resolve_passes_resolution env_sepolia
                    (agent_resolves sample_credential)
                    "did:ethr:sepolia:0x0979446EB2A4a373eaA702336aC3c390B0139Fc5"
                    sample_credential first_request eq_refl eq_refl)).
    reflexivity.
Defined.

(** ** Verification that fails *)

(** X14. When the agent fails to verify a credential, [POST
    /credential/verify] answers with status 500 in both servers, after the
    one call to the agent, and the agent's message is always there as
    [originalError]. The decentralized server replaces [error] only for a
    message that holds [EVM revert instruction]; the second server of
    [src/server.js] gives an [errorCode] exactly when the message holds one
    of its three markers, and passes the message on as [error] otherwise. *)
Theorem credential_verify_failure (agent : Agent) (credential : JsVal)
    (e : string) (st : HState) :
  truthy credential = true →
  verifyCredential agent (calls st) (verify_args credential) = Thrown e →
  res st = fresh_res →
  ∃ b1 b2,
    answers st (Endpoints.credential_verify_decentralized agent credential st)
      [VerifyCredential (verify_args credential)] 500 b1 ∧
    answers st (Endpoints.credential_verify_server agent credential st)
      [VerifyCredential (verify_args credential)] 500 b2 ∧
    get "success" b1 = JBool false ∧ get "success" b2 = JBool false ∧
    get "originalError" b1 = JStr e ∧ get "originalError" b2 = JStr e ∧
    (includes "EVM revert instruction" e = false → get "error" b1 = JStr e) ∧
    (verify_marker e = false →
     get "error" b2 = JStr e ∧ get "errorCode" b2 = JNull) ∧
    (verify_marker e = true → typeof (get "errorCode" b2) = TString).
Proof.
  intros Ht Ha Hr.
  unfold answers, Endpoints.credential_verify_decentralized,
    Endpoints.credential_verify_server, verify_args, verify_marker in *.
  rewrite Ht. cbv zeta. cbn [negb]. run. rewrite Ha. run. rewrite Hr. run.
  do 2 eexists.
  split; [answered Hr|]. split; [answered Hr|].
  destruct e as [|c e]; [by repeat split|].
  cbn [truthy String.eqb negb andb].
  destruct (includes "EVM revert instruction" (String c e));
    destruct (includes "missing response for request" (String c e));
    destruct (includes "BAD_DATA" (String c e)); by repeat split.
Qed.

Lemma credential_verify_failure_witness :
  ∃ b1 b2,
    answers first_request
      (Endpoints.credential_verify_decentralized agent_key sample_credential
         first_request)
      [VerifyCredential (verify_args sample_credential)] 500 b1 ∧
    answers first_request
      (Endpoints.credential_verify_server agent_key sample_credential
         first_request)
      [VerifyCredential (verify_args sample_credential)] 500 b2 ∧
    get "success" b1 = JBool false ∧ get "success" b2 = JBool false ∧
    get "originalError" b1 = JStr "missing response for request" ∧
    get "originalError" b2 = JStr "missing response for request" ∧
    (includes "EVM revert instruction" "missing response for request" = false →
     get "error" b1 = JStr "missing response for request") ∧
    (verify_marker "missing response for request" = false →
     get "error" b2 = JStr "missing response for request" ∧
     get "errorCode" b2 = JNull) ∧
    (verify_marker "missing response for request" = true →
     typeof (get "errorCode" b2) = TString).
Proof.
  apply (credential_verify_failure agent_key sample_credential
           "missing response for request" first_request); reflexivity.
Defined.

(** ** The status of the network *)

(** X15. [GET /network/status] never fails and asks the agent nothing: in
    both servers it answers with status 200 and [success: true], whatever
    the chain does. It reports the configured registry as [network.registry]
    and the result of the probe as [network.registryDeployed]; when the
    provider cannot be built, that result is [isDeployed: false] with the
    configured registry. *)
Theorem network_status_always_answers (ethers : Ethers) (env : Env)
    (st : HState) :
  res st = fresh_res →
  ∃ b1 b2 d1 d2,
    answers st (Endpoints.network_status_decentralized ethers env st)
      [] 200 b1 ∧
    answers st (Endpoints.network_status_server ethers env st) [] 200 b2 ∧
    get "success" b1 = JBool true ∧ get "success" b2 = JBool true ∧
    get "registry" (get "network" b1)
    = of_opt (registry (Decentralized.getNetworkConfig env)) ∧
    get "registry" (get "network" b2)
    = of_opt (registry (Server.getNetworkConfig env)) ∧
    (checkRegistryDeployment ethers (Decentralized.getNetworkConfig env) []).1
    = Returned d1 ∧
    (checkRegistryDeployment ethers (Server.getNetworkConfig env) []).1
    = Returned d2 ∧
    get "registryDeployed" (get "network" b1) = Endpoints.deployment_obj d1 ∧
    get "registryDeployed" (get "network" b2) = Endpoints.deployment_obj d2 ∧
    ((∀ url, ∃ e, JsonRpcProvider ethers url = Thrown e) →
     d1 = {| isDeployed := JBool false;
             effective := registry (Decentralized.getNetworkConfig env) |} ∧
     d2 = {| isDeployed := JBool false;
             effective := registry (Server.getNetworkConfig env) |}).
Proof.
  intros Hr.
  destruct (checkRegistryDeployment_returns ethers
              (Decentralized.getNetworkConfig env) []) as (d1 & q1 & E1).
  destruct (checkRegistryDeployment_returns ethers
              (Server.getNetworkConfig env) []) as (d2 & q2 & E2).
  exists
    (obj_lit
       ([("success", JBool true);
         ("network", obj_lit
            [("name", of_opt (name (Decentralized.getNetworkConfig env)));
             ("chainId", Endpoints.of_optZ (chainId (Decentralized.getNetworkConfig env)));
             ("rpcUrl", of_opt (rpcUrl (Decentralized.getNetworkConfig env)));
             ("registry", of_opt (registry (Decentralized.getNetworkConfig env)));
             ("registryDeployed", Endpoints.deployment_obj d1)])] ++
        [("architecture", JStr "Blockchain-first, decentralized")])),
    (obj_lit
       ([("success", JBool true);
         ("network", obj_lit
            [("name", of_opt (name (Server.getNetworkConfig env)));
             ("chainId", Endpoints.of_optZ (chainId (Server.getNetworkConfig env)));
             ("rpcUrl", of_opt (rpcUrl (Server.getNetworkConfig env)));
             ("registry", of_opt (registry (Server.getNetworkConfig env)));
             ("registryDeployed", Endpoints.deployment_obj d2)])] ++ [])),
    d1, d2.
  unfold answers, Endpoints.network_status_decentralized,
    Endpoints.network_status_server, Endpoints.network_status.
  cbv zeta. rewrite E1, E2. run. rewrite Hr. run.
  split; [answered Hr|]. split; [answered Hr|].
  do 8 (split; [reflexivity|]).
  intros Hdown.
  unfold checkRegistryDeployment, try_catch, bind, lift, ret in E1, E2.
  destruct (Hdown (rpcUrl (Decentralized.getNetworkConfig env))) as [e1 H1].
  destruct (Hdown (rpcUrl (Server.getNetworkConfig env))) as [e2 H2].
  rewrite H1 in E1. rewrite H2 in E2.
  by split; congruence.
Qed.

Lemma network_status_always_answers_witness :
  ∃ b1 b2 d1 d2,
    answers first_request
      (Endpoints.network_status_decentralized ethers_unreachable env_unset
         first_request) [] 200 b1 ∧
    answers first_request
      (Endpoints.network_status_server ethers_unreachable env_unset
         first_request) [] 200 b2 ∧
    get "success" b1 = JBool true ∧ get "success" b2 = JBool true ∧
    get "registry" (get "network" b1)
    = of_opt (registry (Decentralized.getNetworkConfig env_unset)) ∧
    get "registry" (get "network" b2)
    = of_opt (registry (Server.getNetworkConfig env_unset)) ∧
    (checkRegistryDeployment ethers_unreachable
       (Decentralized.getNetworkConfig env_unset) []).1 = Returned d1 ∧
    (checkRegistryDeployment ethers_unreachable
       (Server.getNetworkConfig env_unset) []).1 = Returned d2 ∧
    get "registryDeployed" (get "network" b1) = Endpoints.deployment_obj d1 ∧
    get "registryDeployed" (get "network" b2) = Endpoints.deployment_obj d2 ∧
    ((∀ url, ∃ e, JsonRpcProvider ethers_unreachable url = Thrown e) →
     d1 = {| isDeployed := JBool false;
             effective := registry (Decentralized.getNetworkConfig env_unset) |} ∧
     d2 = {| isDeployed := JBool false;
             effective := registry (Server.getNetworkConfig env_unset) |}).
Proof.
  apply (network_status_always_answers ethers_unreachable env_unset
           first_request).
  reflexivity.
Defined.

(** ** The fallbacks of [verify-skale] *)

Lemma truthy_js_and (a b : JsVal) :
  truthy (js_and a b) = truthy a && truthy b.
Proof. unfold js_and. by destruct (truthy a) eqn:E. Qed.

Lemma jwt_token_parts (header payload signature : string) :
  has_char "." header = false →
  has_char "." payload = false →
  has_char "." signature = false →
  truthy (JStr (jwt_token header payload signature)) = true ∧
  includes "." (jwt_token header payload signature) = true ∧
  split "."%char (jwt_token header payload signature)
  = [header; payload; signature].
Proof.
  intros Hh Hp Hs. unfold jwt_token. split; [|split].
  - by destruct header.
  - apply includes_app_l.
    apply (includes_prefix "." (payload +:+ String "." signature)).
  - unfold split.
    rewrite (split_go_segment "." header _ "" Hh).
    rewrite (split_go_segment "." payload _ "" Hp).
    by rewrite (split_go_last "." signature "" Hs).
Qed.

(** X16. When standard verification throws, a compact JWT whose payload
    decodes to a value other than [null] is answered with status 200 and
    [success: true], by the method [fallback_jwt], after the one call to
    the agent. Its [verified] flag is computed from the decoded payload
    alone (the claims [vc], [iss], [sub], [iat], [exp] and the expiry):
    neither the header nor the signature segment is looked at, and an
    invalid payload still gives [success: true]. A payload that decodes to
    [null] is answered with status 500: reading its [vc] throws, and the
    message of that error is the [fallbackError]. *)
Theorem verify_skale_jwt_ignores_signature (agent : Agent) (jwt : Server.Jwt)
    (clock : Clock) (header payload signature e : string) (claims : JsVal)
    (st : HState) :
  has_char "." header = false →
  has_char "." payload = false →
  has_char "." signature = false →
  verifyCredential agent (calls st)
    (verify_args (JStr (jwt_token header payload signature))) = Thrown e →
  Server.decode_payload jwt payload = Returned claims →
  res st = fresh_res →
  (claims ≠ JNull → claims ≠ JUndefined →
   ∃ b,
     answers st
       (Server.credential_verify_skale agent jwt clock
          (JStr (jwt_token header payload signature)) st)
       [VerifyCredential
          (verify_args (JStr (jwt_token header payload signature)))] 200 b ∧
     get "success" b = JBool true ∧
     get "method" b = JStr "fallback_jwt" ∧
     get "payload" (get "verification" b) = claims ∧
     truthy (get "verified" (get "verification" b))
     = payload_valid jwt clock claims ∧
     get "error" (get "verification" b)
     = (if payload_valid jwt clock claims then JNull
        else JStr "Basic validation failed"))
  ∧
  (claims = JNull →
   answers st
     (Server.credential_verify_skale agent jwt clock
        (JStr (jwt_token header payload signature)) st)
     [VerifyCredential
        (verify_args (JStr (jwt_token header payload signature)))] 500
     (both_failed_body e "Cannot read properties of null (reading 'vc')")).
Proof.
  intros Hh Hp Hs Ha Hd Hr.
  destruct (jwt_token_parts header payload signature Hh Hp Hs)
    as (Ht & Hi & Hsplit).
  unfold answers, Server.credential_verify_skale, verify_args, payload_valid
    in *.
  set (token := jwt_token header payload signature) in *.
  rewrite Ht, Hi, Hsplit. cbv zeta.
  cbn [negb length Nat.eqb lookup list_lookup default from_option id].
  run. rewrite Ha. run. rewrite Hd. run.
  split.
  - intros Hnull Hundef.
    match goal with
    | |- context [read "vc" claims ?s] =>
        replace (read "vc" claims s) with (Returned (get "vc" claims), s)
          by (by destruct claims)
    end.
    run. rewrite Hr. run.
    eexists. split; [answered Hr|].
    do 3 (split; [reflexivity|]).
    set (isValid := js_and (get "vc" claims) _).
    assert (Hv : truthy isValid
                 = truthy (get "vc" claims) && truthy (get "iss" claims) &&
                   truthy (get "sub" claims) && truthy (get "iat" claims) &&
                   truthy (get "exp" claims) &&
                   Server.later_than jwt (get "exp" claims) (now clock)).
    { unfold isValid. rewrite !truthy_js_and. cbn [truthy].
      by rewrite !andb_assoc. }
    rewrite <- Hv.
    change (truthy isValid = truthy isValid ∧
            (if truthy isValid then JNull else JStr "Basic validation failed")
            = (if truthy isValid then JNull
               else JStr "Basic validation failed")).
    by split.
  - intros ->. unfold read. run. rewrite Hr. run. answered Hr.
Qed.

Lemma verify_skale_jwt_ignores_signature_witness :
  (∃ b,
     answers first_request
       (Server.credential_verify_skale agent_key jwt_sample clock_2025
          (JStr (jwt_token "eyJhbGciOiJFUzI1NksifQ" "eyJ2YyI6e319" "forged"))
          first_request)
       [VerifyCredential
          (verify_args
             (JStr (jwt_token "eyJhbGciOiJFUzI1NksifQ" "eyJ2YyI6e319"
                      "forged")))] 200 b ∧
     get "success" b = JBool true ∧
     get "method" b = JStr "fallback_jwt" ∧
     get "payload" (get "verification" b) = sample_payload ∧
     truthy (get "verified" (get "verification" b))
     = payload_valid jwt_sample clock_2025 sample_payload ∧
     get "error" (get "verification" b)
     = (if payload_valid jwt_sample clock_2025 sample_payload
        then JNull else JStr "Basic validation failed"))
  ∧
  answers first_request
    (Server.credential_verify_skale agent_key jwt_sample clock_2025
       (JStr (jwt_token "eyJhbGciOiJFUzI1NksifQ" "bnVsbA" "forged"))
       first_request)
    [VerifyCredential
       (verify_args
          (JStr (jwt_token "eyJhbGciOiJFUzI1NksifQ" "bnVsbA" "forged")))]
    500
    (both_failed_body "missing response for request"
       "Cannot read properties of null (reading 'vc')").
Proof.
  split.
  - apply (proj1 (verify_skale_jwt_ignores_signature agent_key jwt_sample
                    clock_2025 "eyJhbGciOiJFUzI1NksifQ" "eyJ2YyI6e319"
                    "forged" "missing response for request" sample_payload
                    first_request eq_refl eq_refl eq_refl eq_refl eq_refl
                    eq_refl));
      discriminate.
  - apply (proj2 (verify_skale_jwt_ignores_signature agent_key jwt_sample
                    clock_2025 "eyJhbGciOiJFUzI1NksifQ" "bnVsbA" "forged"
                    "missing response for request" JNull first_request
                    eq_refl eq_refl eq_refl eq_refl eq_refl eq_refl)).
    reflexivity.
Defined.

(** X17. When standard verification throws with message [e], a credential
    given as a non-empty string that is not a three-segment JWT, or whose
    payload does not decode, is answered with status 500: the answer names
    both failures, the agent's message as [registryError] and the fallback's
    own as [fallbackError]. *)
Theorem verify_skale_both_fail (agent : Agent) (jwt : Server.Jwt)
    (clock : Clock) (token e : string) (st : HState) :
  token ≠ "" →
  verifyCredential agent (calls st) (verify_args (JStr token)) = Thrown e →
  res st = fresh_res →
  (jwt_shaped token = false →
   answers st (Server.credential_verify_skale agent jwt clock (JStr token) st)
     [VerifyCredential (verify_args (JStr token))] 500
     (both_failed_body e "Unable to verify credential with fallback methods"))
  ∧
  (∀ e', jwt_shaped token = true →
         Server.decode_payload jwt (default "" (split "."%char token !! 1%nat))
         = Thrown e' →
   answers st (Server.credential_verify_skale agent jwt clock (JStr token) st)
     [VerifyCredential (verify_args (JStr token))] 500
     (both_failed_body e e')).
Proof.
  intros Hne Ha Hr.
  assert (Ht : truthy (JStr token) = true) by by destruct token.
  unfold answers, Server.credential_verify_skale, verify_args, jwt_shaped in *.
  rewrite Ht. cbv zeta. cbn [negb typeof andb]. split.
  - intros Hj. run. rewrite Ha. run.
    destruct (includes "." token); cbn [andb] in Hj;
      [rewrite Hj|]; run; rewrite Hr; run; answered Hr.
  - intros e' [-> ->]%andb_true_iff Hd.
    run. rewrite Ha. run. rewrite Hd. run. rewrite Hr. run. answered Hr.
Qed.

Lemma verify_skale_both_fail_witness :
  answers first_request
    (Server.credential_verify_skale agent_key jwt_sample clock_2025
       (JStr "not-a-token") first_request)
    [VerifyCredential (verify_args (JStr "not-a-token"))] 500
    (both_failed_body "missing response for request"
       "Unable to verify credential with fallback methods")
  ∧
  answers first_request
    (Server.credential_verify_skale agent_key jwt_sample clock_2025
       (JStr "e30..c2ln") first_request)
    [VerifyCredential (verify_args (JStr "e30..c2ln"))] 500
    (both_failed_body "missing response for request"
       "Unexpected end of JSON input").
Proof.
  split.
  - apply (proj1 (verify_skale_both_fail agent_key jwt_sample clock_2025
                    "not-a-token" "missing response for request"
                    first_request ltac:(discriminate) eq_refl eq_refl)).
    reflexivity.
  - apply (proj2 (verify_skale_both_fail agent_key jwt_sample clock_2025
                    "e30..c2ln" "missing response for request"
                    first_request ltac:(discriminate) eq_refl eq_refl));
      reflexivity.
Defined.

(** ** Creation for a wallet in [src/server.js] *)

(** X18. In both servers of [src/server.js], a wallet creation whose lookup
    and whose import both fail goes on to [didManagerCreate], with the
    wallet address and the target network among the options: the agent is
    called three times, in this order. The failure of the import is dropped:
    when the creation succeeds the answer is the new identifier with status
    200, and when it fails the answer is status 500 with the message of the
    creation alone. *)
Theorem server_did_create_falls_back
    (targetNetwork : Env → option string → option string)
    (created_message : option string → string)
    (env : Env) (agent : Agent) (clock : Clock)
    (body : Decentralized.CreateBody) (st : HState) (wa e1 e2 : string)
    (created : Outcome Identifier) :
  Decentralized.provider body = Some "did:ethr" →
  Decentralized.walletAddress body = Some wa →
  test_eth_address wa = true →
  res st = fresh_res →
  didManagerGet agent (calls st)
    (server_get_args (targetNetwork env (Decentralized.network body)) body)
  = Thrown e1 →
  didManagerImport agent
    (calls st ++
     [DidManagerGet
        (server_get_args (targetNetwork env (Decentralized.network body))
           body)])
    (server_import_args (targetNetwork env (Decentralized.network body)) body)
  = Thrown e2 →
  didManagerCreate agent
    (calls st ++
     [DidManagerGet
        (server_get_args (targetNetwork env (Decentralized.network body))
           body)] ++
     [DidManagerImport
        (server_import_args (targetNetwork env (Decentralized.network body))
           body)])
    (server_create_args (targetNetwork env (Decentralized.network body))
       clock body)
  = created →
  answers st
    (Server.did_create targetNetwork created_message env agent clock body st)
    (server_create_chain (targetNetwork env (Decentralized.network body))
       clock body)
    (match created with Returned _ => 200 | Thrown _ => 500 end)
    (match created with
     | Returned identifier =>
         obj_lit [("success", JBool true);
                  ("identifier", identifier_obj identifier)]
     | Thrown e3 =>
         obj_lit [("success", JBool false); ("error", JStr e3)]
     end).
Proof.
  intros Hp Hw Hv Hr Hg Hi Hc.
  unfold answers, Server.did_create, server_create_chain in *.
  unfold server_get_args, server_import_args, server_create_args,
    server_wallet_did in *.
  rewrite Hp, Hw in *. cbv zeta.
  cbn [default from_option id String.eqb Ascii.eqb Bool.eqb andb] in *.
  rewrite (test_eth_address_truthy wa Hv). cbn [interp] in *.
  rewrite Hv. cbn [negb andb]. run. rewrite Hg. run.
  rewrite Hi. run. rewrite <- app_assoc. rewrite Hc.
  destruct created; run; rewrite Hr; run.
  - eexists. split; [reflexivity|]. run. rewrite Hr, <- !app_assoc.
    by repeat split.
  - eexists. split; [reflexivity|]. run. rewrite <- !app_assoc.
    by repeat split.
Qed.

Lemma server_did_create_falls_back_witness :
  answers first_request
    (Server.did_create_ethr env_unset agent_key clock_2025 body_wallet
       first_request)
    (server_create_chain
       (Server.targetNetwork_ethr env_unset
          (Decentralized.network body_wallet)) clock_2025 body_wallet)
    200
    (obj_lit
       [("success", JBool true);
        ("identifier", identifier_obj
           {| did := "did:key:z6MkhaXgBZDvotDkL5257faiztiGiC2QtKLGpbnnEGta2doK";
              fields := [("provider", JStr "did:key");
                         ("controllerKeyId", JStr "a1b2c3")] |})]).
Proof.
  apply (server_did_create_falls_back Server.targetNetwork_ethr
           (fun target => "DID created for wallet address on " +:+ interp target)
           env_unset agent_key clock_2025 body_wallet first_request
           "0x0979446EB2A4a373eaA702336aC3c390B0139Fc5"
           "Identifier not found" "Key not found"
           (Returned
              {| did := "did:key:z6MkhaXgBZDvotDkL5257faiztiGiC2QtKLGpbnnEGta2doK";
                 fields := [("provider", JStr "did:key");
                            ("controllerKeyId", JStr "a1b2c3")] |}));
    reflexivity.
Defined.

(** ** The ordered stores *)

Lemma assoc_set_fresh k v (m : list (string * JsVal)) :
  Session.Map_has k m = false → assoc_set k v m = (m ++ [(k, v)])%list.
Proof.
  unfold Session.Map_has. induction m as [|[k' v'] m IH]; [done|].
  cbn. destruct (String.eqb k k'); [done|]. intros H. by rewrite IH.
Qed.

Lemma assoc_set_again k v v' (m : list (string * JsVal)) :
  assoc_set k v' (assoc_set k v m) = assoc_set k v' m.
Proof.
  induction m as [|[k' w] m IH]; cbn.
  - by rewrite String.eqb_refl.
  - destruct (String.eqb k k') eqn:E; cbn; rewrite E; [done|].
    by rewrite IH.
Qed.

Lemma assoc_set_keys_present k v (m : list (string * JsVal)) :
  Session.Map_has k m = true → (assoc_set k v m).*1 = m.*1.
Proof.
  unfold Session.Map_has. induction m as [|[k' v'] m IH]; [done|].
  cbn. destruct (String.eqb k k'); [done|]. intros H. cbn. by rewrite IH.
Qed.

Lemma credential_create_runs (agent : Session.Engine) (clock : Clock)
    (body : Session.CredentialBody) (st : Session.State)
    (credential : JsVal) :
  complete_credential_body body = true →
  agent "createVerifiableCredential" (Session.calls st)
    (Session.credential_args body) = Returned credential →
  Session.res st = fresh_res →
  ∃ st' b,
    Session.credential_create agent clock body st = (Returned tt, st') ∧
    Session.res st' = {| statusCode := 200; sent := Some b |} ∧
    get "success" b = JBool true ∧
    get "credential" b = credential ∧
    get "credentialId" b = JStr (credential_id clock) ∧
    Session.calls st' = (Session.calls st ++ [credential_call body])%list ∧
    Session.dids st' = Session.dids st ∧
    Session.presentations st' = Session.presentations st ∧
    Session.credentials st'
    = assoc_set (credential_id clock)
        (obj_lit [("credential", credential);
                  ("timestamp", JStr (toISOString clock))])
        (Session.credentials st).
Proof.
  unfold complete_credential_body. intros [[H1 H2]%andb_true_iff H3]%andb_true_iff
    Ha Hr.
  unfold Session.credential_create. rewrite H1, H2, H3. cbv zeta.
  cbn [negb orb]. run_session. rewrite Ha. run_session. rewrite Hr.
  run_session.
  do 2 eexists. split; [reflexivity|]. run_session. rewrite Hr.
  by repeat split.
Qed.

Lemma credential_list_answers (st : Session.State) :
  Session.res st = fresh_res →
  session_answers st (Session.credential_list st) [] 200
    (credential_list_body (listed_credentials st)).
Proof.
  intros Hr. unfold session_answers, Session.credential_list,
    credential_list_body, listed_credentials.
  run_session. rewrite Hr. run_session.
  eexists. split; [reflexivity|]. run_session. rewrite Hr, app_nil_r.
  by repeat split.
Qed.

(** X19. A credential that [POST /credential/create] issues is answered
    with status 200 together with its id [cred-<now>], after one call to
    the agent; when that id is new to the store, the next [GET
    /credential/list] lists the credentials that were there, in their
    order, followed by the new one, and counts one more. The identifiers
    and the presentations are not touched. *)
Theorem credential_create_then_list (agent : Session.Engine) (clock : Clock)
    (body : Session.CredentialBody) (st : Session.State)
    (credential : JsVal) :
  complete_credential_body body = true →
  agent "createVerifiableCredential" (Session.calls st)
    (Session.credential_args body) = Returned credential →
  Session.res st = fresh_res →
  Session.Map_has (credential_id clock) (Session.credentials st) = false →
  ∃ st' b,
    Session.credential_create agent clock body st = (Returned tt, st') ∧
    Session.res st' = {| statusCode := 200; sent := Some b |} ∧
    get "credential" b = credential ∧
    get "credentialId" b = JStr (credential_id clock) ∧
    Session.calls st' = (Session.calls st ++ [credential_call body])%list ∧
    Session.dids st' = Session.dids st ∧
    Session.presentations st' = Session.presentations st ∧
    session_answers (session_next st')
      (Session.credential_list (session_next st')) [] 200
      (credential_list_body (listed_credentials st ++ [credential])%list).
Proof.
  intros Hc Ha Hr Hf.
  destruct (credential_create_runs agent clock body st credential Hc Ha Hr)
    as (st' & b & E & Hres & _ & Hb1 & Hb2 & Hcalls & Hd & Hp & Hcr).
  exists st', b. do 7 (split; [done|]).
  replace (listed_credentials st ++ [credential])%list
    with (listed_credentials (session_next st')).
  { by apply credential_list_answers. }
  unfold listed_credentials, session_next, Session.Map_values. cbn.
  rewrite Hcr, (assoc_set_fresh _ _ _ Hf).
  by rewrite !fmap_app.
Qed.

Lemma credential_create_then_list_witness :
  ∃ st' b,
    Session.credential_create engine_signs clock_2025 credential_body_sample
      session_first = (Returned tt, st') ∧
    Session.res st' = {| statusCode := 200; sent := Some b |} ∧
    get "credential" b = JStr "jwt-0" ∧
    get "credentialId" b = JStr (credential_id clock_2025) ∧
    Session.calls st'
    = (Session.calls session_first ++
       [credential_call credential_body_sample])%list ∧
    Session.dids st' = Session.dids session_first ∧
    Session.presentations st' = Session.presentations session_first ∧
    session_answers (session_next st')
      (Session.credential_list (session_next st')) [] 200
      (credential_list_body
         (listed_credentials session_first ++ [JStr "jwt-0"])%list).
Proof.
  apply (credential_create_then_list engine_signs clock_2025
           credential_body_sample session_first (JStr "jwt-0"));
    reflexivity.
Defined.

(** X20. The id of a credential is the millisecond of its creation: of two
    credentials issued within the same millisecond, the second takes the
    place of the first in the store. Both requests are answered with
    status 200 and the same [credentialId], and the list that follows
    holds the second credential only: the first one is lost. *)
Theorem credential_create_same_millisecond (agent : Session.Engine)
    (clock : Clock) (body1 body2 : Session.CredentialBody)
    (st : Session.State) (c1 c2 : JsVal) :
  complete_credential_body body1 = true →
  complete_credential_body body2 = true →
  agent "createVerifiableCredential" (Session.calls st)
    (Session.credential_args body1) = Returned c1 →
  agent "createVerifiableCredential"
    (Session.calls st ++ [credential_call body1])%list
    (Session.credential_args body2) = Returned c2 →
  Session.res st = fresh_res →
  Session.Map_has (credential_id clock) (Session.credentials st) = false →
  ∃ st1 st2 b1 b2,
    Session.credential_create agent clock body1 st = (Returned tt, st1) ∧
    Session.credential_create agent clock body2 (session_next st1)
    = (Returned tt, st2) ∧
    Session.res st1 = {| statusCode := 200; sent := Some b1 |} ∧
    Session.res st2 = {| statusCode := 200; sent := Some b2 |} ∧
    get "credential" b1 = c1 ∧ get "credential" b2 = c2 ∧
    get "credentialId" b1 = get "credentialId" b2 ∧
    session_answers (session_next st2)
      (Session.credential_list (session_next st2)) [] 200
      (credential_list_body (listed_credentials st ++ [c2])%list).
Proof.
  intros Hc1 Hc2 Ha1 Ha2 Hr Hf.
  destruct (credential_create_runs agent clock body1 st c1 Hc1 Ha1 Hr)
    as (st1 & b1 & E1 & Hres1 & _ & Hb1 & Hi1 & Hcalls1 & _ & _ & Hcr1).
  destruct (credential_create_runs agent clock body2 (session_next st1) c2
              Hc2) as (st2 & b2 & E2 & Hres2 & _ & Hb2 & Hi2 & _ & _ & _ & Hcr2).
  { cbn. by rewrite Hcalls1. }
  { done. }
  exists st1, st2, b1, b2. do 6 (split; [done|]).
  split; [by rewrite Hi1, Hi2|].
  replace (listed_credentials st ++ [c2])%list
    with (listed_credentials (session_next st2)).
  { by apply credential_list_answers. }
  unfold listed_credentials, session_next, Session.Map_values. cbn.
  rewrite Hcr2. cbn. rewrite Hcr1, assoc_set_again, (assoc_set_fresh _ _ _ Hf).
  by rewrite !fmap_app.
Qed.

Lemma credential_create_same_millisecond_witness :
  ∃ st1 st2 b1 b2,
    Session.credential_create engine_signs clock_2025 credential_body_sample
      session_first = (Returned tt, st1) ∧
    Session.credential_create engine_signs clock_2025 credential_body_own_id
      (session_next st1) = (Returned tt, st2) ∧
    Session.res st1 = {| statusCode := 200; sent := Some b1 |} ∧
    Session.res st2 = {| statusCode := 200; sent := Some b2 |} ∧
    get "credential" b1 = JStr "jwt-0" ∧ get "credential" b2 = JStr "jwt-1" ∧
    get "credentialId" b1 = get "credentialId" b2 ∧
    session_answers (session_next st2)
      (Session.credential_list (session_next st2)) [] 200
      (credential_list_body
         (listed_credentials session_first ++ [JStr "jwt-1"])%list).
Proof.
  apply (credential_create_same_millisecond engine_signs clock_2025
           credential_body_sample credential_body_own_id session_first
           (JStr "jwt-0") (JStr "jwt-1")); reflexivity.
Defined.

(** X21. A credential request that cannot be served changes nothing. When
    [issuerDid] or [subjectDid] is missing or empty, or [credentialSubject]
    is missing, [POST /credential/create] answers with status 400 without
    calling the agent; when the agent fails, it answers with status 500 and
    the agent's message, after that one call. In both cases the three
    stores are as they were. *)
Theorem credential_create_fails_cleanly (agent : Session.Engine)
    (clock : Clock) (body : Session.CredentialBody) (st : Session.State) :
  Session.res st = fresh_res →
  (complete_credential_body body = false →
   session_answers st (Session.credential_create agent clock body st)
     [] 400 missing_credential_fields_body ∧
   session_stores_kept st (Session.credential_create agent clock body st).2)
  ∧
  (∀ e, complete_credential_body body = true →
        agent "createVerifiableCredential" (Session.calls st)
          (Session.credential_args body) = Thrown e →
   session_answers st (Session.credential_create agent clock body st)
     [credential_call body] 500 (failure_body e) ∧
   session_stores_kept st (Session.credential_create agent clock body st).2).
Proof.
  intros Hr.
  unfold complete_credential_body, session_answers, session_stores_kept,
    Session.credential_create.
  split.
  - intros Hc.
    replace (negb (truthy (of_opt (Session.issuerDid body))) ||
             negb (truthy (of_opt (Session.subjectDid body))) ||
             negb (bool_decide (is_Some (Session.credentialSubject body))))
      with true
      by (destruct (truthy (of_opt (Session.issuerDid body))),
            (truthy (of_opt (Session.subjectDid body))),
            (bool_decide (is_Some (Session.credentialSubject body)));
          done).
    run_session. rewrite Hr. run_session.
    split; [|done].
    eexists. split; [reflexivity|]. run_session. rewrite app_nil_r.
    by repeat split.
  - intros e [[-> ->]%andb_true_iff ->]%andb_true_iff Ha.
    cbv zeta. cbn [negb orb]. run_session. rewrite Ha. run_session.
    rewrite Hr. run_session.
    split; [|done].
    eexists. split; [reflexivity|]. run_session. by repeat split.
Qed.

Lemma credential_create_fails_cleanly_witness :
  (session_answers session_first
     (Session.credential_create engine_signs clock_2025
        credential_body_no_subject session_first)
     [] 400 missing_credential_fields_body ∧
   session_stores_kept session_first
     (Session.credential_create engine_signs clock_2025
        credential_body_no_subject session_first).2)
  ∧
  (session_answers session_first
     (Session.credential_create engine_down clock_2025
        credential_body_sample session_first)
     [credential_call credential_body_sample] 500
     (failure_body "key not found for did") ∧
   session_stores_kept session_first
     (Session.credential_create engine_down clock_2025
        credential_body_sample session_first).2).
Proof.
  split.
  - apply (proj1 (credential_create_fails_cleanly engine_signs clock_2025
                    credential_body_no_subject session_first eq_refl)).
    reflexivity.
  - apply (proj2 (credential_create_fails_cleanly engine_down clock_2025
                    credential_body_sample session_first eq_refl));
      reflexivity.
Defined.

(** X22. What the agent is asked to sign. The issuer is [issuerDid]. The
    subject holds every property of [credentialSubject] (an object of
    distinct keys); its [id] is [subjectDid] unless [credentialSubject]
    has an [id] of its own, which then takes its place. An
    [expirationDate] is passed on when it is a non-empty string, and left
    out otherwise. *)
Theorem credential_args_subject (body : Session.CredentialBody)
    (props : list (string * JsVal)) :
  Session.credentialSubject body = Some props →
  NoDup props.*1 →
  let credential := get "credential" (Session.credential_args body) in
  get "id" (get "issuer" credential) = of_opt (Session.issuerDid body) ∧
  get "id" (get "credentialSubject" credential)
  = (if decide ("id" ∈ props.*1) then assoc_get "id" props
     else of_opt (Session.subjectDid body)) ∧
  (∀ k, k ∈ props.*1 →
        get k (get "credentialSubject" credential) = assoc_get k props) ∧
  get "expirationDate" credential
  = (if truthy (of_opt (Session.expirationDate body))
     then of_opt (Session.expirationDate body) else JUndefined) ∧
  get "proofFormat" (Session.credential_args body) = JStr "jwt".
Proof.
  intros Hs Hn. unfold Session.credential_args. rewrite Hs. cbv zeta.
  cbn [default from_option id].
  assert (Hsub : ∀ k,
    get k (obj_lit ([("id", of_opt (Session.subjectDid body))] ++ props))
    = if decide (k ∈ props.*1) then assoc_get k props
      else assoc_get k [("id", of_opt (Session.subjectDid body))]).
  { intros k. unfold obj_lit, get. cbn [app fold_left fst snd assoc_set].
    by apply assign_object. }
  set (subject := obj_lit ([("id", of_opt (Session.subjectDid body))] ++ props))
    in *.
  set (type := default (JArr [JStr "VerifiableCredential"])
                 (Session.credential_type body)).
  destruct (Session.expirationDate body) as [[|c d]|];
    (repeat split; [apply Hsub | intros k Hk; rewrite Hsub; by rewrite decide_True]).
Qed.

Lemma credential_args_subject_witness :
  let credential :=
    get "credential" (Session.credential_args credential_body_own_id) in
  get "id" (get "issuer" credential)
  = of_opt (Session.issuerDid credential_body_own_id) ∧
  get "id" (get "credentialSubject" credential)
  = (if decide ("id" ∈ [("degree", JStr "MSc");
                        ("id", JStr "did:example:someone-else")].*1)
     then assoc_get "id" [("degree", JStr "MSc");
                          ("id", JStr "did:example:someone-else")]
     else of_opt (Session.subjectDid credential_body_own_id)) ∧
  (∀ k, k ∈ [("degree", JStr "MSc");
             ("id", JStr "did:example:someone-else")].*1 →
        get k (get "credentialSubject" credential)
        = assoc_get k [("degree", JStr "MSc");
                       ("id", JStr "did:example:someone-else")]) ∧
  get "expirationDate" credential
  = (if truthy (of_opt (Session.expirationDate credential_body_own_id))
     then of_opt (Session.expirationDate credential_body_own_id)
     else JUndefined) ∧
  get "proofFormat" (Session.credential_args credential_body_own_id)
  = JStr "jwt".
Proof.
  apply (credential_args_subject credential_body_own_id
           [("degree", JStr "MSc"); ("id", JStr "did:example:someone-else")]).
  - reflexivity.
  - cbn. apply NoDup_cons. split; [|apply NoDup_singleton].
    by intros ?%list_elem_of_singleton.
Defined.

(** X23. [POST /presentation/create] asks for a holder and for an array of
    credentials. Without a non-empty [holderDid], or with
    [verifiableCredentials] that is not an array, it answers with status
    400, calls no agent and stores nothing. With both (an empty array will
    do) and an agent that signs, it answers with status 200 and the id
    [pres-<now>], the presentation is stored under that id, and the
    identifiers and the credentials are not touched. The agent is given
    [domain] and [challenge] only when they are non-empty. *)
Theorem presentation_create_requires_array (agent : Session.Engine)
    (clock : Clock) (body : Session.PresentationBody) (st : Session.State) :
  Session.res st = fresh_res →
  (complete_presentation_body body = false →
   session_answers st (Session.presentation_create agent clock body st)
     [] 400 missing_presentation_fields_body ∧
   session_stores_kept st (Session.presentation_create agent clock body st).2)
  ∧
  (∀ presentation,
     complete_presentation_body body = true →
     agent "createVerifiablePresentation" (Session.calls st)
       (Session.presentation_args body) = Returned presentation →
     ∃ st' b,
       Session.presentation_create agent clock body st = (Returned tt, st') ∧
       session_answers st (Returned tt, st') [presentation_call body] 200 b ∧
       get "presentation" b = presentation ∧
       get "presentationId" b = JStr (presentation_id clock) ∧
       Session.Map_get (presentation_id clock) (Session.presentations st')
       = obj_lit [("presentation", presentation);
                  ("timestamp", JStr (toISOString clock))] ∧
       Session.dids st' = Session.dids st ∧
       Session.credentials st' = Session.credentials st)
  ∧
  get "domain" (get "presentation" (Session.presentation_args body))
  = when_given (Session.domain body) ∧
  get "challenge" (get "presentation" (Session.presentation_args body))
  = when_given (Session.challenge body).
Proof.
  intros Hr.
  unfold complete_presentation_body, session_answers, session_stores_kept,
    Session.presentation_create.
  split; [|split].
  - intros Hc.
    replace (negb (truthy (of_opt (Session.holderDid body))) ||
             negb (truthy (Session.verifiableCredentials body)) ||
             negb (Session.isArray (Session.verifiableCredentials body)))
      with true
      by (destruct (truthy (of_opt (Session.holderDid body))),
            (Session.verifiableCredentials body);
          cbn in *; rewrite ?orb_true_r; done).
    run_session. rewrite Hr. run_session.
    split; [|done].
    eexists. split; [reflexivity|]. run_session. rewrite app_nil_r.
    by repeat split.
  - intros presentation [Hh Harr]%andb_true_iff Ha.
    assert (Ht : truthy (Session.verifiableCredentials body) = true)
      by by destruct (Session.verifiableCredentials body).
    rewrite Hh, Ht, Harr. cbv zeta. cbn [negb orb]. run_session.
    rewrite Ha. run_session. rewrite Hr. run_session.
    do 2 eexists. split; [reflexivity|].
    split.
    { eexists. split; [reflexivity|]. run_session. rewrite Hr.
      by repeat split. }
    run_session. unfold Session.Map_get. rewrite assoc_get_set_eq.
    by repeat split.
  - unfold Session.presentation_args, Session.optional, when_given. cbv zeta.
    set (type := default (JArr [JStr "VerifiablePresentation"])
                   (Session.presentation_type body)).
    by destruct (Session.domain body) as [[|c1 d1]|],
      (Session.challenge body) as [[|c2 d2]|].
Qed.

Lemma presentation_create_requires_array_witness :
  (session_answers session_first
     (Session.presentation_create engine_signs clock_2025
        presentation_body_not_array session_first)
     [] 400 missing_presentation_fields_body ∧
   session_stores_kept session_first
     (Session.presentation_create engine_signs clock_2025
        presentation_body_not_array session_first).2)
  ∧
  (∃ st' b,
     Session.presentation_create engine_signs clock_2025
       presentation_body_sample session_first = (Returned tt, st') ∧
     session_answers session_first (Returned tt, st')
       [presentation_call presentation_body_sample] 200 b ∧
     get "presentation" b = JStr "jwt-0" ∧
     get "presentationId" b = JStr (presentation_id clock_2025) ∧
     Session.Map_get (presentation_id clock_2025) (Session.presentations st')
     = obj_lit [("presentation", JStr "jwt-0");
                ("timestamp", JStr (toISOString clock_2025))] ∧
     Session.dids st' = Session.dids session_first ∧
     Session.credentials st' = Session.credentials session_first)
  ∧
  get "domain"
    (get "presentation" (Session.presentation_args presentation_body_sample))
  = when_given (Session.domain presentation_body_sample) ∧
  get "challenge"
    (get "presentation" (Session.presentation_args presentation_body_sample))
  = when_given (Session.challenge presentation_body_sample).
Proof.
  split; [|split].
  - apply (proj1 (presentation_create_requires_array engine_signs clock_2025
                    presentation_body_not_array session_first eq_refl)).
    reflexivity.
  - apply (proj1 (proj2 (presentation_create_requires_array engine_signs
                           clock_2025 presentation_body_sample session_first
                           eq_refl)));
      reflexivity.
  - apply (proj2 (proj2 (presentation_create_requires_array engine_signs
                           clock_2025 presentation_body_sample session_first
                           eq_refl))).
Defined.

(** X24. [POST /presentation/verify] is stateless: whatever the request and
    whatever the agent does, it answers once and the three stores are as
    they were. A missing presentation is answered with status 400 without
    a call; otherwise the agent is called once, with [domain] and
    [challenge] only when they are non-empty, and its verdict is passed on
    with status 200, or its failure with status 500. *)
Theorem presentation_verify_stateless (agent : Session.Engine)
    (presentation : JsVal) (domain challenge : option string)
    (st : Session.State) :
  Session.res st = fresh_res →
  session_stores_kept st
    (Session.presentation_verify agent presentation domain challenge st).2
  ∧
  (if truthy presentation then
     match agent "verifyPresentation" (Session.calls st)
             (Session.presentation_verify_args presentation domain challenge)
     with
     | Returned result =>
         ∃ b, session_answers st
                (Session.presentation_verify agent presentation domain
                   challenge st)
                [presentation_verify_call presentation domain challenge]
                200 b ∧
              get "success" b = JBool true ∧ get "verification" b = result
     | Thrown e =>
         session_answers st
           (Session.presentation_verify agent presentation domain challenge
              st)
           [presentation_verify_call presentation domain challenge]
           500 (failure_body e)
     end
   else
     session_answers st
       (Session.presentation_verify agent presentation domain challenge st)
       [] 400 missing_presentation_body)
  ∧
  get "presentation"
    (Session.presentation_verify_args presentation domain challenge)
  = presentation ∧
  get "domain"
    (Session.presentation_verify_args presentation domain challenge)
  = when_given domain ∧
  get "challenge"
    (Session.presentation_verify_args presentation domain challenge)
  = when_given challenge.
Proof.
  intros Hr.
  assert (Hargs :
    get "presentation"
      (Session.presentation_verify_args presentation domain challenge)
    = presentation ∧
    get "domain"
      (Session.presentation_verify_args presentation domain challenge)
    = when_given domain ∧
    get "challenge"
      (Session.presentation_verify_args presentation domain challenge)
    = when_given challenge).
  { unfold Session.presentation_verify_args, Session.optional, when_given.
    by destruct domain as [[|c1 d1]|], challenge as [[|c2 d2]|]. }
  unfold session_answers, session_stores_kept, Session.presentation_verify,
    presentation_verify_call.
  destruct (truthy presentation); cbn [negb]; run_session.
  - destruct (agent "verifyPresentation" (Session.calls st) _) as [result|e];
      run_session; rewrite Hr; run_session.
    + split; [done|]. split; [|done].
      eexists. split.
      { eexists. split; [reflexivity|]. run_session. rewrite Hr.
        by repeat split. }
      by split.
    + split; [done|]. split; [|done].
      eexists. split; [reflexivity|]. run_session. by repeat split.
  - rewrite Hr. run_session. split; [done|]. split; [|done].
    eexists. split; [reflexivity|]. run_session. rewrite app_nil_r.
    by repeat split.
Qed.

Lemma presentation_verify_stateless_witness :
  session_stores_kept session_first
    (Session.presentation_verify engine_down (JStr "eyJhbGciOiJFUzI1NksifQ.e30.c2ln")
       (Some "example.org") None session_first).2.
Proof.
  apply (presentation_verify_stateless engine_down
           (JStr "eyJhbGciOiJFUzI1NksifQ.e30.c2ln") (Some "example.org") None
           session_first eq_refl).
Defined.

(** X25. [GET /did/list] lists the identifiers in the order in which they
    were first registered. Registering a DID that the registry does not
    hold adds its record at the end and the count grows by one;
    registering one that it holds replaces the record where it stands, and
    the count stays. The record is the metadata with [did] and [createdAt]
    put first. *)
Theorem did_list_after_register (clock : Clock) (did : string)
    (metadata : JsVal) (st : Session.State) :
  Session.res st = fresh_res →
  let st' := (Session.registerDID clock did metadata st).2 in
  session_answers st' (Session.did_list st') [] 200
    (did_list_body (Session.Map_values (Session.dids st'))) ∧
  Session.Map_get did (Session.dids st') = registry_record clock did metadata ∧
  (Session.Map_has did (Session.dids st) = false →
   Session.Map_values (Session.dids st')
   = (Session.Map_values (Session.dids st) ++
      [registry_record clock did metadata])%list) ∧
  (Session.Map_has did (Session.dids st) = true →
   (Session.dids st').*1 = (Session.dids st).*1 ∧
   length (Session.Map_values (Session.dids st'))
   = length (Session.Map_values (Session.dids st))).
Proof.
  intros Hr. cbv zeta.
  unfold session_answers, Session.did_list, did_list_body, registry_record.
  run_session. rewrite Hr. run_session.
  split; [|split; [|split]].
  - eexists. split; [reflexivity|]. run_session. rewrite Hr, app_nil_r.
    by repeat split.
  - unfold Session.Map_get. by rewrite assoc_get_set_eq.
  - intros Hf. unfold Session.Map_values.
    by rewrite (assoc_set_fresh _ _ _ Hf), fmap_app.
  - intros Hp. unfold Session.Map_values.
    pose proof (assoc_set_keys_present did
      (obj_lit ([("did", JStr did); ("createdAt", JStr (toISOString clock))] ++
                spread metadata)) _ Hp) as Hk.
    split; [done|].
    rewrite !length_fmap.
    by rewrite <- (length_fmap fst (assoc_set _ _ _)), Hk, length_fmap.
Qed.

Lemma did_list_after_register_witness :
  let st' := (Session.registerDID clock_2025
                "did:key:z6MkhaXgBZDvotDkL5257faiztiGiC2QtKLGpbnnEGta2doK"
                (obj_lit [("type", JStr "self-issued")]) session_first).2 in
  session_answers st' (Session.did_list st') [] 200
    (did_list_body (Session.Map_values (Session.dids st'))) ∧
  Session.Map_get "did:key:z6MkhaXgBZDvotDkL5257faiztiGiC2QtKLGpbnnEGta2doK"
    (Session.dids st')
  = registry_record clock_2025
      "did:key:z6MkhaXgBZDvotDkL5257faiztiGiC2QtKLGpbnnEGta2doK"
      (obj_lit [("type", JStr "self-issued")]) ∧
  (Session.Map_has "did:key:z6MkhaXgBZDvotDkL5257faiztiGiC2QtKLGpbnnEGta2doK"
     (Session.dids session_first) = false →
   Session.Map_values (Session.dids st')
   = (Session.Map_values (Session.dids session_first) ++
      [registry_record clock_2025
         "did:key:z6MkhaXgBZDvotDkL5257faiztiGiC2QtKLGpbnnEGta2doK"
         (obj_lit [("type", JStr "self-issued")])])%list) ∧
  (Session.Map_has "did:key:z6MkhaXgBZDvotDkL5257faiztiGiC2QtKLGpbnnEGta2doK"
     (Session.dids session_first) = true →
   (Session.dids st').*1 = (Session.dids session_first).*1 ∧
   length (Session.Map_values (Session.dids st'))
   = length (Session.Map_values (Session.dids session_first))).
Proof.
  apply (did_list_after_register clock_2025
           "did:key:z6MkhaXgBZDvotDkL5257faiztiGiC2QtKLGpbnnEGta2doK"
           (obj_lit [("type", JStr "self-issued")]) session_first).
  reflexivity.
Defined.
